(** * BlueGuard-AI front end: ingestion, request layer and result pipeline

    A shallow embedding of the TypeScript sources of the dashboard:

    - the request layer ([enhancedApiClient]): [API_CONFIG], [ApiCache],
      [ApiError], the response interceptor, [retryRequest],
      [validateVesselData], [fetchCSV];
    - [api/checkZone.ts]: [isValidCoordinate], [generateMockViolation],
      [formatAPIResponse], [formatErrorResponse], [checkZone];
    - the single-coordinate variant of [checkZone], which sends the first
      vessel only and fills in every row with random flags;
    - [utils/downloadUtils]: [convertToCSV], [downloadFile], [downloadData];
    - [pages/ZoneViolation.tsx]: [mapApiResponseToLocalFormat], the CSV
      parser of [handleZoneCheck], [handleExport];
    - the vessel data module: [processVesselData], [determineBehavior].

    JavaScript numbers are IEEE doubles.  A double is NaN, an infinity or a
    rational, and every comparison the sources make is exact on those, so a
    number is such a value over [Q]; conversions from and to text round to
    the nearest double and print the shortest digits, as the language
    defines them.  The sign of zero is not kept: none of the modelled code
    can tell the two zeros apart. *)

From Stdlib Require Import ZArith QArith Qround String Ascii List Bool Lia DecimalString.
From stdpp Require Import base option list strings gmap.

#[local] Set Warnings "-register-all".
#[local] Open Scope string_scope.
#[local] Open Scope list_scope.
#[local] Open Scope Z_scope.

(** ** Outcomes of calls that may throw (or promises that may reject) *)

Inductive outcome (E A : Type) : Type :=
| Ok (a : A)
| Throw (e : E).
Arguments Ok {E A} a.
Arguments Throw {E A} e.

(** ** JavaScript numbers *)

Module Num.

Inductive number : Type :=
| NaN
| PosInf
| NegInf
| Fin (q : Q).

Definition of_Z (z : Z) : number := Fin (inject_Z z).

Definition isNaN (x : number) : bool :=
  match x with NaN => true | _ => false end.

(** [x <= y], [x < y], [x >= y], [x > y]: false as soon as one side is NaN. *)
Definition le (x y : number) : bool :=
  match x, y with
  | NaN, _ | _, NaN => false
  | NegInf, _ => true
  | _, PosInf => true
  | PosInf, _ => false
  | _, NegInf => false
  | Fin a, Fin b => Qle_bool a b
  end.

Definition lt (x y : number) : bool :=
  match x, y with
  | NaN, _ | _, NaN => false
  | PosInf, _ => false
  | _, NegInf => false
  | NegInf, _ => true
  | _, PosInf => true
  | Fin a, Fin b => negb (Qle_bool b a)
  end.

Definition ge (x y : number) : bool := le y x.
Definition gt (x y : number) : bool := lt y x.

(** ToBoolean on numbers: [0] and NaN are falsy. *)
Definition truthy (x : number) : bool :=
  match x with
  | NaN => false
  | Fin q => negb (Qeq_bool q 0)
  | _ => true
  end.

(** *** Rounding a rational to the nearest double (ties to even) *)

Definition pow2 (e : Z) : Q :=
  if 0 <=? e then inject_Z (2 ^ e) else 1 # Z.to_pos (2 ^ (- e)).

(** Floor of the binary logarithm of a positive rational. *)
Definition ilog2 (q : Q) : Z :=
  let e0 := Z.log2 (Qnum q) - Z.log2 (Zpos (Qden q)) in
  if Qle_bool (pow2 e0) q then e0 else e0 - 1.

Definition round_half_even (q : Q) : Z :=
  let f := Qfloor q in
  match Qcompare (q - inject_Z f) (1 # 2) with
  | Lt => f
  | Gt => f + 1
  | Eq => if Z.even f then f else f + 1
  end.

Definition round_pos (a : Q) : number :=
  let e := Z.max (ilog2 a) (-1022) in
  let ulp := pow2 (e - 52) in
  let r := Qred (inject_Z (round_half_even (a / ulp)) * ulp) in
  if Qle_bool (pow2 1024) r then PosInf else Fin r.

Definition neg (x : number) : number :=
  match x with
  | NaN => NaN
  | PosInf => NegInf
  | NegInf => PosInf
  | Fin q => Fin (Qred (- q))
  end.

Definition round_double (q : Q) : number :=
  match Qcompare q 0 with
  | Eq => Fin 0
  | Gt => round_pos q
  | Lt => neg (round_pos (- q))
  end.

(** A decimal literal of the source text, e.g. [0.7]. *)
Definition lit (q : Q) : number := round_double q.

End Num.
Export Num (number, NaN, PosInf, NegInf, Fin).


(** ** JavaScript strings

    A string is a sequence of code units; the model keeps the code units
    below 256 (Latin-1), which covers the CSV and JSON text handled here. *)

Module Str.

Definition code (c : ascii) : Z := Z.of_N (N_of_ascii c).
Definition chr (z : Z) : ascii := ascii_of_N (Z.to_N z).

Definition LF : ascii := chr 10.
Definition quote : ascii := chr 34.
Definition comma : ascii := chr 44.

(** WhiteSpace and LineTerminator code units: TAB, LF, VT, FF, CR, SP, NBSP. *)
Definition is_white (c : ascii) : bool :=
  let n := code c in
  ((9 <=? n) && (n <=? 13)) || (n =? 32) || (n =? 160).

Definition is_digit (c : ascii) : bool :=
  let n := code c in (48 <=? n) && (n <=? 57).

Definition eqb (a b : string) : bool := String.eqb a b.

Fixpoint trimStart (s : string) : string :=
  match s with
  | String c r => if is_white c then trimStart r else s
  | EmptyString => EmptyString
  end.

Fixpoint trimEnd (s : string) : string :=
  match s with
  | String c r =>
      let r' := trimEnd r in
      if is_white c && eqb r' "" then "" else String c r'
  | EmptyString => EmptyString
  end.

(** [s.trim()] *)
Definition trim (s : string) : string := trimEnd (trimStart s).

Definition lower_char (c : ascii) : ascii :=
  let n := code c in
  if ((65 <=? n) && (n <=? 90))
     || ((192 <=? n) && (n <=? 222) && negb (n =? 215))
  then chr (n + 32) else c.

(** [s.toLowerCase()] *)
Fixpoint toLowerCase (s : string) : string :=
  match s with
  | String c r => String (lower_char c) (toLowerCase r)
  | EmptyString => EmptyString
  end.

(** [s.split(sep)] for a one-character separator. *)
Fixpoint split (sep : ascii) (s : string) : list string :=
  match s with
  | EmptyString => [""]
  | String c r =>
      if Ascii.eqb c sep then "" :: split sep r
      else match split sep r with
           | h :: t => String c h :: t
           | [] => [String c ""]
           end
  end.

(** [l.join(sep)] on an array of strings. *)
Fixpoint join (sep : string) (l : list string) : string :=
  match l with
  | [] => ""
  | [x] => x
  | x :: r => x +:+ sep +:+ join sep r
  end.

(** [l.indexOf(x)] on an array of strings; [None] stands for [-1]. *)
Fixpoint indexOf (x : string) (l : list string) : option nat :=
  match l with
  | [] => None
  | y :: r => if eqb y x then Some 0%nat else option_map S (indexOf x r)
  end.

(** Every double quote of [s] doubled, as [s.replace] with the global
    pattern for a double quote does. *)
Fixpoint double_quotes (s : string) : string :=
  match s with
  | String c r =>
      if Ascii.eqb c quote then String quote (String quote (double_quotes r))
      else String c (double_quotes r)
  | EmptyString => EmptyString
  end.

Fixpoint repeat (c : ascii) (n : nat) : string :=
  match n with O => "" | S k => String c (repeat c k) end.

(** [s.padStart(n, c)] for a one-character filler. *)
Definition padStart (n : nat) (c : ascii) (s : string) : string :=
  repeat c (n - String.length s) +:+ s.

(** Decimal digits of a natural number. *)
Definition of_N (n : N) : string :=
  DecimalString.NilZero.string_of_uint (N.to_uint n).

End Str.

(** ** Conversions between numbers and strings *)

Module NumStr.

Definition pow10 (e : Z) : Q :=
  if 0 <=? e then inject_Z (10 ^ e) else 1 # Z.to_pos (10 ^ (- e)).

(** *** [Number(s)] on a string: StringToNumber *)

Fixpoint span_digits (s : string) : list Z * string :=
  match s with
  | String c r =>
      if Str.is_digit c
      then let '(ds, rest) := span_digits r in (Str.code c - 48 :: ds, rest)
      else ([], s)
  | EmptyString => ([], EmptyString)
  end.

Definition digits_value (radix : Z) (ds : list Z) : Z :=
  fold_left (fun acc d => acc * radix + d) ds 0.

Definition radix_digit (radix : Z) (c : ascii) : option Z :=
  let n := Str.code c in
  let d := if (48 <=? n) && (n <=? 57) then n - 48
           else if (97 <=? n) && (n <=? 102) then n - 87
           else if (65 <=? n) && (n <=? 70) then n - 55
           else radix in
  if d <? radix then Some d else None.

Fixpoint radix_digits (radix : Z) (s : string) : option (list Z) :=
  match s with
  | EmptyString => Some []
  | String c r =>
      match radix_digit radix c, radix_digits radix r with
      | Some d, Some ds => Some (d :: ds)
      | _, _ => None
      end
  end.

(** [0x], [0o] and [0b] literals: at least one digit, no sign. *)
Definition radix_literal (s : string) : option (option Z) :=
  match s with
  | String z (String m r) =>
      if Ascii.eqb z "0"%char then
        let radix :=
          if Ascii.eqb m "x"%char || Ascii.eqb m "X"%char then Some 16
          else if Ascii.eqb m "o"%char || Ascii.eqb m "O"%char then Some 8
          else if Ascii.eqb m "b"%char || Ascii.eqb m "B"%char then Some 2
          else None in
        match radix with
        | Some b =>
            Some (match r, radix_digits b r with
                  | String _ _, Some ds => Some (digits_value b ds)
                  | _, _ => None
                  end)
        | None => None
        end
      else None
  | _ => None
  end.

Definition split_sign (s : string) : bool * string :=
  match s with
  | String c r =>
      if Ascii.eqb c "-"%char then (true, r)
      else if Ascii.eqb c "+"%char then (false, r)
      else (false, s)
  | EmptyString => (false, s)
  end.

(** Digits, optional fraction, optional exponent; nothing may follow. *)
Definition unsigned_decimal (s : string) : option Q :=
  let '(ip, r1) := span_digits s in
  let '(fp, r2) :=
    match r1 with
    | String c r => if Ascii.eqb c "."%char then span_digits r else ([], r1)
    | EmptyString => ([], r1)
    end in
  match (ip ++ fp)%list with
  | [] => None
  | ds =>
      let m := (inject_Z (digits_value 10 ds) * pow10 (- Z.of_nat (length fp)))%Q in
      match r2 with
      | EmptyString => Some m
      | String c r3 =>
          if Ascii.eqb c "e"%char || Ascii.eqb c "E"%char then
            let '(neg, r4) := split_sign r3 in
            match span_digits r4 with
            | (d :: es, EmptyString) =>
                let e := digits_value 10 (d :: es) in
                Some (m * pow10 (if neg then - e else e))%Q
            | _ => None
            end
          else None
      end
  end.

Definition StringToNumber (s : string) : number :=
  let t := Str.trim s in
  if Str.eqb t "" then Fin 0
  else
    match radix_literal t with
    | Some (Some z) => Num.round_double (inject_Z z)
    | Some None => NaN
    | None =>
        let '(neg, u) := split_sign t in
        if Str.eqb u "Infinity" then (if neg then NegInf else PosInf)
        else match unsigned_decimal u with
             | Some q => Num.round_double (if neg then (- q)%Q else q)
             | None => NaN
             end
    end.

(** *** [String(x)] on a number: Number::toString in radix 10 *)

Definition digit_count (z : Z) : Z :=
  Z.of_nat (String.length (Str.of_N (Z.to_N z))).

(** The [n] with [10^(n-1) <= x < 10^n], for [x > 0]. *)
Definition decimal_exponent (x : Q) : Z :=
  let d := digit_count (Qnum x) - digit_count (Zpos (Qden x)) in
  if Qle_bool (pow10 d) x then d + 1 else d.

Definition rounds_to (x q : Q) : bool :=
  match Num.round_double q with
  | Fin y => Qeq_bool y x
  | _ => false
  end.

(** The shortest digit string [s] of [k] digits with [s * 10^(n-k)]
    rounding to [x]; the closest one, the even one on a tie. *)
Fixpoint shortest (fuel : nat) (k : Z) (x : Q) (n : Z) : Z * Z * Z :=
  match fuel with
  | O => (0, 1, n)
  | S fuel' =>
      let scale := pow10 (n - k) in
      let s1 := Qfloor (x / scale)%Q in
      let s2 := s1 + 1 in
      let v1 := (inject_Z s1 * scale)%Q in
      let v2 := (inject_Z s2 * scale)%Q in
      let pick (s : Z) := if s =? 10 ^ k then (s / 10, k, n + 1) else (s, k, n) in
      match rounds_to x v1, rounds_to x v2 with
      | true, false => pick s1
      | false, true => pick s2
      | true, true =>
          match Qcompare (x - v1)%Q (v2 - x)%Q with
          | Lt => pick s1
          | Gt => pick s2
          | Eq => if Z.even s1 then pick s1 else pick s2
          end
      | false, false => shortest fuel' (k + 1) x n
      end
  end.

Definition substring (from len : Z) (s : string) : string :=
  String.substring (Z.to_nat from) (Z.to_nat len) s.

Definition format_decimal (s k n : Z) : string :=
  let ds := Str.of_N (Z.to_N s) in
  if (k <=? n) && (n <=? 21) then ds +:+ Str.repeat "0"%char (Z.to_nat (n - k))
  else if (0 <? n) && (n <=? 21)
  then substring 0 n ds +:+ "." +:+ substring n (k - n) ds
  else if (-6 <? n) && (n <=? 0)
  then "0." +:+ Str.repeat "0"%char (Z.to_nat (- n)) +:+ ds
  else
    let e := n - 1 in
    let es := (if e <? 0 then "-" else "+") +:+ Str.of_N (Z.to_N (Z.abs e)) in
    if k =? 1 then ds +:+ "e" +:+ es
    else substring 0 1 ds +:+ "." +:+ substring 1 (k - 1) ds +:+ "e" +:+ es.

Definition positive_toString (x : Q) : string :=
  let '(s, k, n) := shortest 17 1 x (decimal_exponent x) in
  format_decimal s k n.

Definition toString (x : number) : string :=
  match x with
  | NaN => "NaN"
  | PosInf => "Infinity"
  | NegInf => "-Infinity"
  | Fin q =>
      match Qcompare q 0 with
      | Eq => "0"
      | Gt => positive_toString q
      | Lt => "-" +:+ positive_toString (- q)%Q
      end
  end.

End NumStr.

(** ** JavaScript values

    Plain data as the sources handle it: the [any] rows of a parsed CSV, a
    JSON response body, the records of a result set.  An object keeps its
    own properties in insertion order, which is the order of [Object.keys]
    (no modelled object has integer-like keys). *)

Module Js.

Inductive value : Type :=
| VUndefined
| VNull
| VBool (b : bool)
| VNum (n : number)
| VStr (s : string)
| VArr (items : list value)
| VObj (fields : list (string * value)).

Definition VInt (z : Z) : value := VNum (Num.of_Z z).

(** [typeof v] *)
Definition typeof (v : value) : string :=
  match v with
  | VUndefined => "undefined"
  | VNull | VArr _ | VObj _ => "object"
  | VBool _ => "boolean"
  | VNum _ => "number"
  | VStr _ => "string"
  end.

(** ToBoolean: what [if (v)], [!v], [v || d] and [v && w] test. *)
Definition truthy (v : value) : bool :=
  match v with
  | VUndefined | VNull => false
  | VBool b => b
  | VNum n => Num.truthy n
  | VStr s => negb (Str.eqb s "")
  | VArr _ | VObj _ => true
  end.

(** [v == null]: [null] or [undefined]. *)
Definition is_nullish (v : value) : bool :=
  match v with VUndefined | VNull => true | _ => false end.

(** [a || b], [a && b] and [a ?? b] *)
Definition or (a b : value) : value := if truthy a then a else b.
Definition and (a b : value) : value := if truthy a then b else a.
Definition nullish (a b : value) : value :=
  match a with VUndefined | VNull => b | _ => a end.

(** [String(v)] *)
Fixpoint ToString (v : value) : string :=
  match v with
  | VUndefined => "undefined"
  | VNull => "null"
  | VBool true => "true"
  | VBool false => "false"
  | VNum n => NumStr.toString n
  | VStr s => s
  | VArr items =>
      Str.join ","
        (map (fun x => match x with
                       | VUndefined | VNull => ""
                       | _ => ToString x
                       end) items)
  | VObj _ => "[object Object]"
  end.

(** [Number(v)] *)
Definition ToNumber (v : value) : number :=
  match v with
  | VUndefined => NaN
  | VNull => Fin 0
  | VBool true => Fin 1
  | VBool false => Fin 0
  | VNum n => n
  | VStr s => NumStr.StringToNumber s
  | VArr _ | VObj _ => NumStr.StringToNumber (ToString v)
  end.

(** Own property lookup and update on a property list. *)
Fixpoint lookup (k : string) (fields : list (string * value)) : value :=
  match fields with
  | [] => VUndefined
  | (k', v) :: r => if Str.eqb k' k then v else lookup k r
  end.

Fixpoint assign (k : string) (v : value) (fields : list (string * value))
  : list (string * value) :=
  match fields with
  | [] => [(k, v)]
  | (k', v') :: r =>
      if Str.eqb k' k then (k, v) :: r else (k', v') :: assign k v r
  end.

(** [v.k] for a data property [k]; reading a property of [null] or
    [undefined] throws a TypeError, which is [None] here. *)
Definition get (v : value) (k : string) : option value :=
  match v with
  | VUndefined | VNull => None
  | VObj fields => Some (lookup k fields)
  | _ => Some VUndefined
  end.

Definition indexed (items : list value) : list (string * value) :=
  imap (fun i x => (Str.of_N (N.of_nat i), x)) items.

(** [v[k]] for a computed key: own properties, indices and [length]. *)
Definition get_key (v : value) (k : string) : option value :=
  match v with
  | VUndefined | VNull => None
  | VArr items =>
      Some (if Str.eqb k "length" then VInt (Z.of_nat (length items))
            else lookup k (indexed items))
  | VStr s =>
      Some (if Str.eqb k "length" then VInt (Z.of_nat (String.length s))
            else lookup k (indexed (map (fun c => VStr (String c ""))
                                      (list_ascii_of_string s))))
  | VObj fields => Some (lookup k fields)
  | _ => Some VUndefined
  end.

(** [v?.k] *)
Definition get_opt (v : value) (k : string) : value :=
  match get v k with Some x => x | None => VUndefined end.

(** [a[i]] *)
Definition index (v : value) (i : nat) : option value :=
  match v with
  | VUndefined | VNull => None
  | VArr items => Some (nth i items VUndefined)
  | VStr s => Some (match String.get i s with
                    | Some c => VStr (String c "")
                    | None => VUndefined
                    end)
  | VObj fields => Some (lookup (Str.of_N (N.of_nat i)) fields)
  | _ => Some VUndefined
  end.

(** The own enumerable properties copied by an object spread. *)
Definition spread (v : value) : list (string * value) :=
  match v with
  | VObj fields => fields
  | VArr items => indexed items
  | VStr s => indexed (map (fun c => VStr (String c "")) (list_ascii_of_string s))
  | _ => []
  end.

(** [Object.keys(v)]; throws on [null] and [undefined]. *)
Definition keys (v : value) : option (list string) :=
  match v with
  | VUndefined | VNull => None
  | _ => Some (map fst (spread v))
  end.

(** [v === s] for a string literal [s]. *)
Definition is_str (v : value) (s : string) : bool :=
  match v with VStr t => Str.eqb t s | _ => false end.

(** *** [JSON.stringify] *)

Definition hex_digit (z : Z) : ascii :=
  if z <? 10 then Str.chr (48 + z) else Str.chr (87 + z).

Definition backslash : ascii := Str.chr 92.

Definition escape_char (c : ascii) : string :=
  let n := Str.code c in
  let esc (x : ascii) := String backslash (String x "") in
  if n =? 8 then esc "b"%char
  else if n =? 9 then esc "t"%char
  else if n =? 10 then esc "n"%char
  else if n =? 12 then esc "f"%char
  else if n =? 13 then esc "r"%char
  else if n =? 34 then esc Str.quote
  else if n =? 92 then esc backslash
  else if n <? 32
  then String backslash
         (String "u" (String "0" (String "0"
            (String (hex_digit (n / 16)) (String (hex_digit (n mod 16)) "")))))
  else String c "".

Fixpoint escape (s : string) : string :=
  match s with
  | String c r => escape_char c +:+ escape r
  | EmptyString => EmptyString
  end.

Definition QuoteJSONString (s : string) : string :=
  String Str.quote (escape s) +:+ String Str.quote "".

(** [gap] is the indentation unit (empty when none is asked for),
    [indent] the current indentation; [None] is [undefined]. *)
Fixpoint serialize (gap indent : string) (v : value) : option string :=
  let inner := indent +:+ gap in
  let wrap (l r : string) (parts : list string) : string :=
    match parts with
    | [] => l +:+ r
    | _ =>
        if Str.eqb gap "" then l +:+ Str.join "," parts +:+ r
        else l +:+ String Str.LF inner
               +:+ Str.join ("," +:+ String Str.LF inner) parts
               +:+ String Str.LF indent +:+ r
    end in
  match v with
  | VUndefined => None
  | VNull => Some "null"
  | VBool true => Some "true"
  | VBool false => Some "false"
  | VNum (Fin q) => Some (NumStr.toString (Fin q))
  | VNum _ => Some "null"
  | VStr s => Some (QuoteJSONString s)
  | VArr items =>
      Some (wrap "[" "]"
              (map (fun x => match serialize gap inner x with
                             | Some t => t
                             | None => "null"
                             end) items))
  | VObj fields =>
      Some (wrap "{" "}"
              (omap (fun kv => match serialize gap inner (snd kv) with
                               | Some t =>
                                   Some (QuoteJSONString (fst kv) +:+ ":"
                                         +:+ (if Str.eqb gap "" then "" else " ")
                                         +:+ t)
                               | None => None
                               end) fields))
  end.

(** [JSON.stringify(v)] and [JSON.stringify(v, null, 2)] *)
Definition stringify (v : value) : option string := serialize "" "" v.
Definition stringify_pretty (v : value) : option string := serialize "  " "" v.

End Js.
Export Js (value, VUndefined, VNull, VBool, VNum, VStr, VArr, VObj, VInt).

(** ** Thrown values *)

Module Err.

(** [ApiError]: the creation time stamp and the stack are not kept. *)
Record ApiError : Type := mkApiError {
  message : string;
  status : option Z;
  code : value;
  path : option string;
  suggestion : string
}.

Inductive error : Type :=
| JsError (msg : string)
| TypeError (msg : string)
| ApiErr (e : ApiError)
| Thrown (v : value).

(** [error instanceof Error ? error.message : 'Unknown error'] *)
Definition message_of (e : error) : string :=
  match e with
  | JsError m | TypeError m => m
  | ApiErr a => message a
  | Thrown _ => "Unknown error"
  end.

Definition getDefaultSuggestion (st : option Z) : string :=
  match st with
  | Some 400 => "Please check your input data and try again"
  | Some 401 => "Please log in and try again"
  | Some 403 => "You don't have permission to perform this action"
  | Some 404 => "The requested resource could not be found"
  | Some 429 => "Please wait a moment and try again"
  | Some 500 =>
      "This is a server error. Please try again later or contact support if the problem persists"
  | _ => "Please try again or contact support if the problem persists"
  end.

(** [new ApiError(message, status, code, undefined, path, suggestion)] *)
Definition new_ApiError (msg : string) (st : option Z) (cd : value)
    (pth : option string) (sugg : option string) : ApiError :=
  mkApiError msg st cd pth
    (match sugg with
     | Some s => if Str.eqb s "" then getDefaultSuggestion st else s
     | None => getDefaultSuggestion st
     end).

End Err.
Export Err (error, JsError, TypeError, ApiErr, Thrown, ApiError).

(** ** The request layer: configuration, cache, retry, CSV fetch *)

Module ApiClient.

(** [API_CONFIG] *)
Definition MAX_RETRIES : nat := 3.
Definition INITIAL_RETRY_DELAY : Z := 1000.
Definition MAX_RETRY_DELAY : Z := 5000.
Definition CACHE_TTL : Z := 5 * 60 * 1000.
Definition DEFAULT_TIMEOUT : Z := 30000.

(** *** [ApiCache]: key to (data, expiry instant); [now] is [Date.now()] *)
Module ApiCache.

Abbreviation t := (gmap string (value * Z)).

Definition empty : t := ∅.

Definition set (key : string) (data : value) (ttl : Z) (now : Z) (cache : t) : t :=
  <[key := (data, now + ttl)]> cache.

Definition get (key : string) (now : Z) (cache : t) : value * t :=
  match cache !! key with
  | None => (VNull, cache)
  | Some (data, timestamp) =>
      if now >? timestamp then (VNull, delete key cache)
      else (data, cache)
  end.

Definition clear (cache : t) : t := ∅.

End ApiCache.

(** *** The response interceptor: every failed call becomes an [ApiError] *)
Definition status_is (st : option Z) (n : Z) : bool :=
  match st with Some s => s =? n | None => false end.

Definition intercept (st : option Z) (data : value) : ApiError :=
  let msg :=
    if status_is st 404 then "The requested resource was not found"
    else if status_is st 400
    then Js.ToString (Js.or (Js.get_opt data "detail") (VStr "Invalid request"))
    else if status_is st 401 then "Unauthorized access"
    else if status_is st 403 then "Access forbidden"
    else if status_is st 429 then "Too many requests, please try again later"
    else if match st with Some s => 500 <=? s | None => false end
    then "Server error, please try again later"
    else "An unexpected error occurred" in
  Err.new_ApiError msg st (Js.get_opt data "code") None None.

(** *** [retryRequest]

    The underlying call [fn] is effectful: its [i]-th invocation (counted
    from 0) has outcome [fn i].  The trace records, in order, every
    invocation and every back-off delay that was waited for. *)
Inductive event : Type :=
| Attempt
| Sleep (ms : Z).

Definition is_attempt (e : event) : bool :=
  match e with Attempt => true | Sleep _ => false end.

Definition attempts (tr : list event) : nat := length (List.filter is_attempt tr).

Definition delays (tr : list event) : list Z :=
  omap (fun e => match e with Sleep ms => Some ms | Attempt => None end) tr.

Definition no_retry (e : ApiError) : bool :=
  status_is (Err.status e) 400 || status_is (Err.status e) 401
  || status_is (Err.status e) 403.

(** [retries] counts down from a non-negative integer, so [retries <= 0]
    is [retries = 0] and [retries - 1] is the predecessor. *)
Fixpoint retryRequest {T : Type} (fn : nat -> outcome error T)
    (retries : nat) (delay : Z) (tr : list event)
  : outcome error T * list event :=
  match fn (attempts tr) with
  | Ok v => (Ok v, tr ++ [Attempt])
  | Throw (ApiErr e) =>
      match no_retry e, retries with
      | false, S retries' =>
          retryRequest fn retries'
            (Z.min (delay * 2) MAX_RETRY_DELAY)
            (tr ++ [Attempt; Sleep delay])
      | _, _ => (Throw (ApiErr e), tr ++ [Attempt])
      end
  | Throw err => (Throw err, tr ++ [Attempt])
  end.

(** *** [validateVesselData] *)
Definition vessel_row_ok (vessel : value) : bool :=
  Js.truthy vessel
  && Str.eqb (Js.typeof (Js.get_opt vessel "latitude")) "number"
  && Str.eqb (Js.typeof (Js.get_opt vessel "longitude")) "number"
  && Num.ge (Js.ToNumber (Js.get_opt vessel "latitude")) (Num.of_Z (-90))
  && Num.le (Js.ToNumber (Js.get_opt vessel "latitude")) (Num.of_Z 90)
  && Num.ge (Js.ToNumber (Js.get_opt vessel "longitude")) (Num.of_Z (-180))
  && Num.le (Js.ToNumber (Js.get_opt vessel "longitude")) (Num.of_Z 180).

Definition validateVesselData (data : value) : bool :=
  match data with
  | VArr rows => forallb vessel_row_ok rows
  | _ => false
  end.

(** *** [fetchCSV]

    [http i] is the raw outcome of the [i]-th GET: a response object, or a
    failure with its status and body, which the interceptor turns into an
    [ApiError].  [t0] and [t1] are the clock readings at the cache read
    and at the cache write. *)
Definition via_interceptor (http : nat -> outcome (option Z * value) value)
  : nat -> outcome error value :=
  fun i => match http i with
           | Ok resp => Ok resp
           | Throw (st, body) => Throw (ApiErr (intercept st body))
           end.

Definition invalid_data_format (url : string) : error :=
  ApiErr (Err.new_ApiError "Invalid vessel data format in CSV" (Some 400)
            (VStr "INVALID_DATA_FORMAT") (Some url)
            (Some "Please ensure the CSV file contains required vessel data fields in the correct format")).

Definition fetchCSV (url : string) (http : nat -> outcome (option Z * value) value)
    (t0 t1 : Z) (cache : ApiCache.t)
  : outcome error value * ApiCache.t * list event :=
  let cacheKey := "csv-" +:+ url in
  let '(cached, cache0) := ApiCache.get cacheKey t0 cache in
  if Js.truthy cached then (Ok cached, cache0, [])
  else
    match retryRequest (via_interceptor http) MAX_RETRIES INITIAL_RETRY_DELAY [] with
    | (Throw e, tr) => (Throw e, cache0, tr)
    | (Ok response, tr) =>
        match Js.get response "data" with
        | None => (Throw (TypeError "Cannot read properties of undefined"), cache0, tr)
        | Some body =>
            match Js.get body "csv_data" with
            | None => (Throw (TypeError "Cannot read properties of undefined"), cache0, tr)
            | Some data =>
                if negb (validateVesselData data)
                then (Throw (invalid_data_format url), cache0, tr)
                else (Ok data, ApiCache.set cacheKey data CACHE_TTL t1 cache0, tr)
            end
        end
    end.

End ApiClient.

(** ** Ambient effects: [Math.random], the wall clock, exceptions

    A computation reads the [n]-th random draw and the [n]-th clock reading
    from an oracle, counts how many of each it has consumed, and either
    returns or throws. *)

Module Env.

Record oracle : Type := mkOracle {
  random : nat -> Q;          (* successive results of Math.random() *)
  clock : nat -> string       (* successive new Date().toISOString() *)
}.

Record st : Type := mkSt { draws : nat; reads : nat }.

Definition start : st := mkSt 0 0.

Definition M (A : Type) : Type := oracle -> st -> outcome error A * st.

Definition ret {A} (a : A) : M A := fun _ s => (Ok a, s).

Definition throw {A} (e : error) : M A := fun _ s => (Throw e, s).

Definition bind {A B} (m : M A) (k : A -> M B) : M B :=
  fun o s => match m o s with
             | (Ok a, s') => k a o s'
             | (Throw e, s') => (Throw e, s')
             end.

(** [try { m } catch (error) { handler error }] *)
Definition catch {A} (m : M A) (handler : error -> M A) : M A :=
  fun o s => match m o s with
             | (Ok a, s') => (Ok a, s')
             | (Throw e, s') => handler e o s'
             end.

Definition lift {A} (r : outcome error A) : M A := fun _ s => (r, s).

(** A property read that throws a TypeError on [null] and [undefined]. *)
Definition prop (v : value) (k : string) : M value :=
  match Js.get v k with
  | Some x => ret x
  | None => throw (TypeError ("Cannot read properties of " +:+ Js.ToString v))
  end.

Definition at_index (v : value) (i : nat) : M value :=
  match Js.index v i with
  | Some x => ret x
  | None => throw (TypeError ("Cannot read properties of " +:+ Js.ToString v))
  end.

Definition Math_random : M number :=
  fun o s => (Ok (Fin (random o (draws s))), mkSt (S (draws s)) (reads s)).

Definition now_iso : M string :=
  fun o s => (Ok (clock o (reads s)), mkSt (draws s) (S (reads s))).

(** [items.map((x, index) => f index x)], the callback run left to right. *)
Fixpoint mapi_from {A B} (f : nat -> A -> M B) (i : nat) (items : list A)
  : M (list B) :=
  match items with
  | [] => ret []
  | x :: r =>
      bind (f i x) (fun y =>
      bind (mapi_from f (S i) r) (fun ys => ret (y :: ys)))
  end.

Definition mapi {A B} (f : nat -> A -> M B) (items : list A) : M (list B) :=
  mapi_from f 0 items.

Definition run {A} (m : M A) (o : oracle) : outcome error A := fst (m o start).

End Env.

Declare Scope env_scope.
Delimit Scope env_scope with env.
Notation "x <- m ;; k" := (Env.bind m (fun x => k))
  (at level 100, m at next level, right associativity) : env_scope.
#[local] Open Scope env_scope.

(** The zone-check response object; its tallies and rows are whatever
    values the code puts there. *)
Record ZoneCheckResponse : Type := mkResponse {
  success : bool;
  total_vessels : nat;
  violations : value;
  mpa_violations : value;
  eez_violations : value;
  processing_time : value;
  results : list value;
  error_message : option string
}.

Definition count (p : value -> bool) (rows : list value) : value :=
  VInt (Z.of_nat (length (List.filter p rows))).

(** ["VESSEL" + String(index + 1).padStart(3, '0')] *)
Definition default_vessel_id (index : nat) : value :=
  VStr ("VESSEL" +:+ Str.padStart 3 "0"%char (Str.of_N (N.of_nat (index + 1)))).

(** ** [api/checkZone.ts] *)

Module CheckZone.

Definition isValidCoordinate (lat lng : value) : bool :=
  let latitude := Js.ToNumber lat in
  let longitude := Js.ToNumber lng in
  negb (Num.isNaN latitude)
  && negb (Num.isNaN longitude)
  && Num.ge latitude (Num.of_Z (-90))
  && Num.le latitude (Num.of_Z 90)
  && Num.ge longitude (Num.of_Z (-180))
  && Num.le longitude (Num.of_Z 180).

(** [toUpperCase], applied to the literals [mpa] and [eez] only. *)
Definition upper (zone : string) : string :=
  if Str.eqb zone "mpa" then "MPA" else "EEZ".

Definition generateMockViolation (vessel : value) : Env.M value :=
  r1 <- Env.Math_random ;;
  let zoneType := if Num.gt r1 (Num.lit (5 # 10)) then "mpa" else "eez" in
  r2 <- Env.Math_random ;;
  severity <- (if Num.gt r2 (Num.lit (7 # 10)) then Env.ret "high"
               else r3 <- Env.Math_random ;;
                    Env.ret (if Num.gt r3 (Num.lit (5 # 10)) then "medium" else "low")) ;;
  vessel_id <- Env.prop vessel "vessel_id" ;;
  timestamp <- Env.now_iso ;;
  longitude <- Env.prop vessel "longitude" ;;
  latitude <- Env.prop vessel "latitude" ;;
  Env.ret (VObj [("vessel_id", Js.or vessel_id (VStr "UNKNOWN"));
                 ("zone_type", VStr zoneType);
                 ("timestamp", VStr timestamp);
                 ("location", VArr [longitude; latitude]);
                 ("severity", VStr severity);
                 ("details", VStr ("Mock " +:+ upper zoneType +:+ " violation"))]).

(** [array.map(f)] where [array] is any value: a TypeError unless it is
    an array. *)
Definition map_any (f : value -> Env.M value) (array : value) : Env.M (list value) :=
  match array with
  | VArr items => Env.mapi (fun _ x => f x) items
  | _ => Env.throw (TypeError "map is not a function")
  end.

Definition length_any (array : value) : Env.M nat :=
  match array with
  | VArr items => Env.ret (length items)
  | _ => Env.throw (TypeError "Cannot read properties of undefined")
  end.

Definition formatAPIResponse (result vessels : value) : Env.M ZoneCheckResponse :=
  if negb (Js.truthy (Js.get_opt result "results"))
  then Env.throw (JsError "Invalid API response format")
  else
    n <- length_any vessels ;;
    rows <- map_any (fun v =>
              vessel_id <- Env.prop v "vessel_id" ;;
              timestamp <- (if Js.truthy (Js.get_opt v "timestamp")
                            then Env.ret (Js.get_opt v "timestamp")
                            else t <- Env.now_iso ;; Env.ret (VStr t)) ;;
              Env.ret (VObj [("vessel_id", vessel_id);
                             ("zone_type", Js.or (Js.get_opt v "zone_type") (VStr "mpa"));
                             ("timestamp", timestamp);
                             ("location", Js.or (Js.get_opt v "location")
                                            (VArr [VInt 0; VInt 0]));
                             ("severity", Js.or (Js.get_opt v "severity") (VStr "low"));
                             ("details", Js.or (Js.get_opt v "details") (VStr ""))]))
            (Js.get_opt result "results") ;;
    Env.ret {| success := true;
               total_vessels := n;
               violations := Js.or (Js.get_opt result "violations") (VInt 0);
               mpa_violations := Js.or (Js.get_opt result "mpa_violations") (VInt 0);
               eez_violations := Js.or (Js.get_opt result "eez_violations") (VInt 0);
               processing_time := Js.or (Js.get_opt result "processing_time") (VStr "0.00s");
               results := rows;
               error_message := None |}.

Definition is_high_in (zone : string) (r : value) : bool :=
  Js.is_str (Js.get_opt r "zone_type") zone
  && Js.is_str (Js.get_opt r "severity") "high".

Definition formatErrorResponse (vessels : value) (err : error) : Env.M ZoneCheckResponse :=
  mockResults <- map_any generateMockViolation vessels ;;
  n <- length_any vessels ;;
  Env.ret {| success := false;
             total_vessels := n;
             violations := VInt (Z.of_nat (length mockResults));
             mpa_violations := count (is_high_in "mpa") mockResults;
             eez_violations := count (is_high_in "eez") mockResults;
             processing_time := VStr "0.00s";
             results := mockResults;
             error_message := Some (Err.message_of err) |}.

(** [apiClient.checkZoneViolations] is the remote call: it maps the
    request to a resolved body or a rejection. *)
Definition checkZone (api : value -> outcome error value) (vessels : value)
  : Env.M ZoneCheckResponse :=
  Env.catch
    (items <- (match vessels with
               | VArr (x :: r) => Env.ret (x :: r)
               | _ => Env.throw (JsError "No vessel data to check")
               end) ;;
     vesselRequests <-
       Env.mapi (fun index vessel =>
         if negb (Js.truthy vessel)
            || negb (isValidCoordinate (Js.get_opt vessel "latitude")
                                       (Js.get_opt vessel "longitude"))
         then Env.throw (JsError ("Invalid coordinates in vessel data at index "
                                  +:+ Str.of_N (N.of_nat index)))
         else Env.ret (VObj [("vessel_id", Js.or (Js.get_opt vessel "vessel_id")
                                             (default_vessel_id index));
                             ("latitude", VNum (Js.ToNumber (Js.get_opt vessel "latitude")));
                             ("longitude", VNum (Js.ToNumber (Js.get_opt vessel "longitude")))]))
         items ;;
     result <- Env.lift (api (VObj [("vessels", VArr vesselRequests)])) ;;
     formatAPIResponse result vessels)
    (fun err => formatErrorResponse vessels err).

End CheckZone.

(** ** The single-coordinate [checkZone]

    The variant that sends only the first vessel to the service and fills in
    every row with flags that are random apart from the first row's
    [in_mpa]. *)

Module SingleCoordinate.

Definition isValidCoordinate (lat lng : value) : bool :=
  let latitude := Js.ToNumber lat in
  let longitude := Js.ToNumber lng in
  negb (Num.isNaN latitude)
  && negb (Num.isNaN longitude)
  && Num.ge latitude (Num.of_Z (-90))
  && Num.le latitude (Num.of_Z 90)
  && Num.ge longitude (Num.of_Z (-180))
  && Num.le longitude (Num.of_Z 180).

(** One row of [mockResults]; [first_in_mpa] is [Some result.is_violation]
    in the [try] block, where row 0 takes it, and [None] in the [catch]
    block, where every row draws. *)
Definition mock_row (first_in_mpa : option value) (index : nat) (vessel : value)
  : Env.M value :=
  inMPA <- (match index, first_in_mpa with
            | O, Some v => Env.ret v
            | _, _ => r <- Env.Math_random ;;
                      Env.ret (VBool (Num.gt r (Num.lit (7 # 10))))
            end) ;;
  r <- Env.Math_random ;;
  let inEEZ := Num.gt r (Num.lit (5 # 10)) in
  behavior <- Env.prop vessel "behavior" ;;
  isFishing <- (if Js.is_str behavior "fishing" then Env.ret true
                else r <- Env.Math_random ;;
                     Env.ret (Num.gt r (Num.lit (6 # 10)))) ;;
  r <- Env.Math_random ;;
  let in_port := Num.gt r (Num.lit (9 # 10)) in
  let illegal := Js.and inMPA (VBool isFishing) in
  Env.ret
    (VObj
       (Js.assign "risk_level"
          (VStr (if Js.truthy illegal then "high"
                 else if inEEZ && isFishing then "medium" else "low"))
       (Js.assign "illegal_fishing" illegal
       (Js.assign "in_port" (VBool in_port)
       (Js.assign "in_eez" (VBool inEEZ)
       (Js.assign "in_mpa" inMPA
       (Js.assign "vessel_id"
          (Js.or (Js.get_opt vessel "vessel_id") (default_vessel_id index))
       (Js.spread vessel)))))))).

Definition is_illegal (r : value) : bool :=
  Js.truthy (Js.get_opt r "illegal_fishing").

Definition is_mpa_violation (r : value) : bool :=
  Js.truthy (Js.and (Js.get_opt r "in_mpa") (Js.get_opt r "illegal_fishing")).

Definition is_eez_violation (r : value) : bool :=
  Js.truthy (Js.and (Js.and (Js.get_opt r "in_eez") (Js.get_opt r "illegal_fishing"))
               (VBool (negb (Js.truthy (Js.get_opt r "in_mpa"))))).

Definition respond (ok : bool) (err : option string) (data mockResults : list value)
  : ZoneCheckResponse :=
  {| success := ok;
     total_vessels := length data;
     violations := count is_illegal mockResults;
     mpa_violations := count is_mpa_violation mockResults;
     eez_violations := count is_eez_violation mockResults;
     processing_time := VStr "0.00s";
     results := mockResults;
     error_message := err |}.

(** [data] is the array the caller passes. *)
Definition checkZone (api : value -> outcome error value) (data : list value)
  : Env.M ZoneCheckResponse :=
  Env.catch
    (firstVessel <- (match data with
                     | [] => Env.throw (JsError "No vessel data to check")
                     | x :: _ => Env.ret x
                     end) ;;
     _ <- (if negb (Js.truthy firstVessel)
              || negb (isValidCoordinate (Js.get_opt firstVessel "latitude")
                                         (Js.get_opt firstVessel "longitude"))
           then Env.throw (JsError "Invalid coordinates in vessel data")
           else Env.ret tt) ;;
     result <- Env.lift (api (VObj [("latitude",
                                      VNum (Js.ToNumber (Js.get_opt firstVessel "latitude")));
                                    ("longitude",
                                      VNum (Js.ToNumber (Js.get_opt firstVessel "longitude")))])) ;;
     mockResults <- Env.mapi (fun index vessel =>
                       first <- (match index with
                                 | O => v <- Env.prop result "is_violation" ;;
                                        Env.ret (Some v)
                                 | S _ => Env.ret None
                                 end) ;;
                       mock_row first index vessel) data ;;
     Env.ret (respond true None data mockResults))
    (fun err =>
       mockResults <- Env.mapi (mock_row None) data ;;
       Env.ret (respond false (Some (Err.message_of err)) data mockResults)).

End SingleCoordinate.

(** ** [pages/ZoneViolation.tsx]: [mapApiResponseToLocalFormat] *)

Record LocalZoneResults : Type := mkLocal {
  local_total_vessels : nat;
  local_violations : value;
  local_mpa_violations : value;
  local_eez_violations : value;
  local_results : list value
}.

Definition mapApiResponseToLocalFormat (response : ZoneCheckResponse)
  : Env.M LocalZoneResults :=
  rows <- Env.mapi (fun _ detail =>
            vessel_id <- Env.prop detail "vessel_id" ;;
            location <- Env.prop detail "location" ;;
            latitude <- Env.at_index location 0 ;;
            longitude <- Env.at_index location 1 ;;
            Env.ret (VObj [("vessel_id", vessel_id);
                           ("timestamp", Js.get_opt detail "timestamp");
                           ("latitude", latitude);
                           ("longitude", longitude);
                           ("behavior", Js.or (Js.get_opt detail "details") (VStr "unknown"));
                           ("in_mpa", VBool (Js.is_str (Js.get_opt detail "zone_type") "mpa"));
                           ("in_eez", VBool (Js.is_str (Js.get_opt detail "zone_type") "eez"));
                           ("in_port", VBool false);
                           ("risk_level", Js.get_opt detail "severity");
                           ("illegal_fishing",
                             VBool (Js.is_str (Js.get_opt detail "severity") "high"))]))
          (results response) ;;
  Env.ret {| local_total_vessels := total_vessels response;
             local_violations := violations response;
             local_mpa_violations := mpa_violations response;
             local_eez_violations := eez_violations response;
             local_results := rows |}.

(** ** [utils/downloadUtils]: [convertToCSV], [downloadData] *)

Module Download.

Definition type_error : error := TypeError "Cannot convert undefined or null to object".

(** One cell: objects (and [null]) go through [JSON.stringify]; the text
    is wrapped in double quotes, inner quotes doubled. *)
Definition cell (v : value) : string :=
  let cellValue :=
    if Str.eqb (Js.typeof v) "object"
    then match Js.stringify v with Some t => VStr t | None => VUndefined end
    else v in
  String Str.quote (Str.double_quotes (Js.ToString cellValue)) +:+ String Str.quote "".

Fixpoint row_cells (headers : list string) (obj : value) : outcome error (list string) :=
  match headers with
  | [] => Ok []
  | header :: rest =>
      match Js.get_key obj header with
      | None => Throw type_error
      | Some v =>
          match row_cells rest obj with
          | Ok cs => Ok (cell v :: cs)
          | Throw e => Throw e
          end
      end
  end.

Fixpoint rows_of (headers : list string) (data : list value)
  : outcome error (list string) :=
  match data with
  | [] => Ok []
  | obj :: rest =>
      match row_cells headers obj with
      | Throw e => Throw e
      | Ok cs =>
          match rows_of headers rest with
          | Ok rs => Ok (Str.join "," cs :: rs)
          | Throw e => Throw e
          end
      end
  end.

Definition convertToCSV (data : value) : outcome error string :=
  match data with
  | VArr (first :: rest) =>
      match Js.keys first with
      | None => Throw type_error
      | Some headers =>
          match rows_of headers (first :: rest) with
          | Ok rows => Ok (Str.join (String Str.LF "") (Str.join "," headers :: rows))
          | Throw e => Throw e
          end
      end
  | _ => Ok ""
  end.

Inductive file_type : Type := json | csv.

Record DownloadOptions : Type := mkOptions {
  filename : string;
  type : option file_type;
  includeTimestamp : option bool
}.

(** What [downloadFile] hands to the browser: the blob starts with the
    UTF-8 byte-order mark. *)
Record download : Type := mkDownload {
  name : string;
  content : string;
  mime : string
}.

Definition BOM : string :=
  String (Str.chr 239) (String (Str.chr 187) (String (Str.chr 191) "")).

Definition downloadFile (fname content mimeType : string) : download :=
  mkDownload fname (BOM +:+ content) (mimeType +:+ ";charset=utf-8").

Definition downloadData (data : value) (options : DownloadOptions) : Env.M download :=
  Env.catch
    (timestamp <- (match includeTimestamp options with
                   | Some true =>
                       iso <- Env.now_iso ;;
                       Env.ret ("_" +:+ hd "" (Str.split "T"%char iso))
                   | _ => Env.ret ""
                   end) ;;
     let fname := filename options +:+ timestamp in
     match type options with
     | Some csv =>
         content <- Env.lift (convertToCSV data) ;;
         Env.ret (downloadFile (fname +:+ ".csv") content "text/csv")
     | _ =>
         let content := match Js.stringify_pretty data with
                        | Some t => VStr t
                        | None => VUndefined
                        end in
         Env.ret (downloadFile (fname +:+ ".json") (Js.ToString content) "application/json")
     end)
    (fun _ => Env.throw (JsError "Failed to download data")).

End Download.

(** ** [pages/ZoneViolation.tsx]: the CSV parser of [handleZoneCheck] and
       [handleExport] *)

Module ZoneViolation.

Inductive toast : Type :=
| WrongColumns (line : nat)
| InvalidCoordinates (line : nat)
| OutOfRange (line : nat).

(** [obj[header] = ...] for every header, left to right.  Properties are
    kept in the order of their first assignment; the order JavaScript gives
    to integer-like names, and the name [__proto__], are outside the
    model. *)
Fixpoint fill (headers values : list string) (obj : list (string * value))
  : list (string * value) :=
  match headers, values with
  | header :: hs, v :: vs =>
      fill hs vs
        (Js.assign header
           (if Str.eqb header "latitude" || Str.eqb header "longitude"
            then VNum (NumStr.StringToNumber v)
            else VStr v) obj)
  | header :: hs, [] =>
      fill hs []
        (Js.assign header
           (if Str.eqb header "latitude" || Str.eqb header "longitude"
            then VNum NaN
            else VUndefined) obj)
  | [], _ => obj
  end.

(** The callback of [lines.slice(1).map]: a row object, or the error
    toast and [null]. *)
Definition parse_line (headers : list string) (latIndex lonIndex : nat)
    (lineNum : nat) (line : string) : toast + value :=
  let values := map Str.trim (Str.split Str.comma line) in
  if negb (length values =? length headers)%nat then inl (WrongColumns (lineNum + 2))
  else
    let lat := NumStr.StringToNumber (nth latIndex values "") in
    let lon := NumStr.StringToNumber (nth lonIndex values "") in
    if Num.isNaN lat || Num.isNaN lon then inl (InvalidCoordinates (lineNum + 2))
    else if Num.lt lat (Num.of_Z (-90)) || Num.gt lat (Num.of_Z 90)
            || Num.lt lon (Num.of_Z (-180)) || Num.gt lon (Num.of_Z 180)
    then inl (OutOfRange (lineNum + 2))
    else inr (VObj (fill headers values [])).

Inductive parsed : Type :=
| NoInput                       (* nothing but white space: toast, return *)
| TooFewLines                   (* throws: header only *)
| MissingColumns                (* toast, return *)
| NoValidRows (toasts : list toast)
| Vessels (data : list value) (toasts : list toast).

Fixpoint lefts {A B} (l : list (A + B)) : list A :=
  match l with
  | [] => []
  | inl a :: r => a :: lefts r
  | inr _ :: r => lefts r
  end.

Fixpoint rights {A B} (l : list (A + B)) : list B :=
  match l with
  | [] => []
  | inl _ :: r => rights r
  | inr b :: r => b :: rights r
  end.

(** The part of [handleZoneCheck] before the call to [checkZone]. *)
Definition parse_csv (csvData : string) : parsed :=
  if Str.eqb (Str.trim csvData) "" then NoInput
  else
    let lines := Str.split Str.LF (Str.trim csvData) in
    if (length lines <? 2)%nat then TooFewLines
    else
      let headers := map (fun h => Str.toLowerCase (Str.trim h))
                       (Str.split Str.comma (hd "" lines)) in
      match Str.indexOf "latitude" headers, Str.indexOf "longitude" headers with
      | Some latIndex, Some lonIndex =>
          let rows := imap (parse_line headers latIndex lonIndex) (tl lines) in
          match rights rows with
          | [] => NoValidRows (lefts rows)
          | data => Vessels data (lefts rows)
          end
      | _, _ => MissingColumns
      end.

(** [handleExport]: nothing happens without rows; otherwise the rows go
    to [downloadData], whose failure is reported by a toast. *)
Definition handleExport (zoneResults : option LocalZoneResults) (format : Download.file_type)
  : Env.M (option Download.download) :=
  match zoneResults with
  | Some z =>
      match local_results z with
      | [] => Env.ret None
      | rows =>
          Env.catch
            (iso <- Env.now_iso ;;
             d <- Download.downloadData (VArr rows)
                    (Download.mkOptions
                       ("zone-violations-" +:+ hd "" (Str.split "T"%char iso))
                       (Some format) (Some true)) ;;
             Env.ret (Some d))
            (fun _ => Env.ret None)
      end
  | None => Env.ret None
  end.

End ZoneViolation.

(** ** [lib/vesselData]: [processVesselData], [determineBehavior] *)

Module VesselData.

Definition determineBehavior (data : value) : string :=
  let speed := Js.ToNumber (Js.get_opt data "SPEED") in
  if Num.isNaN speed then "unknown"
  else if Num.lt speed (Num.lit (5 # 10)) then "stopped"
  else if Num.lt speed (Num.of_Z 3) then "fishing"
  else if Num.lt speed (Num.of_Z 8) then "maneuvering"
  else "transit".

(** [Number(x) || undefined] *)
Definition number_or_undefined (x : value) : value :=
  Js.or (VNum (Js.ToNumber x)) VUndefined.

(** [x?.toString()] *)
Definition opt_toString (x : value) : value :=
  match x with
  | VUndefined | VNull => VUndefined
  | _ => VStr (Js.ToString x)
  end.

(** The callback of [data.map]: the standardized vessel, or [null] for a
    row whose coordinates are rejected. *)
Definition transform (row : value) : Env.M (option value) :=
  lat <- Env.prop row "LAT" ;;
  let latitude := Js.ToNumber (Js.nullish lat (Js.get_opt row "LATITUDE")) in
  let longitude := Js.ToNumber (Js.nullish (Js.get_opt row "LON")
                                  (Js.get_opt row "LONGITUDE")) in
  if Num.isNaN latitude || Num.isNaN longitude
     || Num.lt latitude (Num.of_Z (-90)) || Num.gt latitude (Num.of_Z 90)
     || Num.lt longitude (Num.of_Z (-180)) || Num.gt longitude (Num.of_Z 180)
  then Env.ret None
  else
    Env.ret (Some (VObj
      [("vessel_id", Js.or (opt_toString (Js.get_opt row "MMSI"))
                       (opt_toString (Js.get_opt row "VESSEL_NAME")));
       ("latitude", VNum latitude);
       ("longitude", VNum longitude);
       ("speed", number_or_undefined (Js.get_opt row "SPEED"));
       ("course", number_or_undefined (Js.get_opt row "COURSE"));
       ("heading", number_or_undefined (Js.get_opt row "HEADING"));
       ("timestamp", Js.get_opt row "TIMESTAMP");
       ("vessel_type", Js.get_opt row "VESSEL_TYPE");
       ("flag", Js.get_opt row "FLAG");
       ("dimensions",
         VObj [("length", number_or_undefined (Js.get_opt row "LENGTH"));
               ("width", number_or_undefined (Js.get_opt row "WIDTH"));
               ("draught", number_or_undefined (Js.get_opt row "DRAUGHT"))]);
       ("status", Js.get_opt row "STATUS");
       ("behavior", VStr (determineBehavior row))])).

(** The [geojson] case: a row per feature, its properties plus [LAT] and
    [LON] taken from [coordinates[1]] and [coordinates[0]]. *)
Definition feature_row (feature : value) : Env.M value :=
  properties <- Env.prop feature "properties" ;;
  geometry <- Env.prop feature "geometry" ;;
  coordinates <- Env.prop geometry "coordinates" ;;
  lat <- Env.at_index coordinates 1 ;;
  coordinates' <- Env.prop geometry "coordinates" ;;
  lon <- Env.at_index coordinates' 0 ;;
  Env.ret (VObj (Js.assign "LON" lon (Js.assign "LAT" lat (Js.spread properties)))).

(** What the fetch delivered, by file type: the rows Papa.parse returns
    for a CSV body, the parsed body for JSON and GeoJSON. *)
Inductive payload : Type :=
| FetchFailed (statusText : string)
| CsvRows (rows : list value)
| JsonBody (body : value)
| GeoJsonBody (body : value)
| Unsupported (fileType : string).

Definition map_array {B} (f : value -> Env.M B) (array : value) : Env.M (list B) :=
  match array with
  | VArr items => Env.mapi (fun _ x => f x) items
  | VUndefined | VNull => Env.throw (TypeError "Cannot read properties of undefined")
  | _ => Env.throw (TypeError "map is not a function")
  end.

Definition somes {A} (l : list (option A)) : list A := omap id l.

Definition processVesselData (input : payload) : Env.M (list value) :=
  Env.catch
    (data <- (match input with
              | FetchFailed statusText =>
                  Env.throw (JsError ("Failed to fetch data: " +:+ statusText))
              | CsvRows rows => Env.ret (VArr rows)
              | JsonBody body => Env.ret body
              | GeoJsonBody body =>
                  features <- Env.prop body "features" ;;
                  rows <- map_array feature_row features ;;
                  Env.ret (VArr rows)
              | Unsupported fileType =>
                  Env.throw (JsError ("Unsupported file type: " +:+ fileType))
              end) ;;
     vessels <- map_array transform data ;;
     Env.ret (somes vessels))
    (fun err =>
       Env.throw (JsError ("Failed to process vessel data: " +:+ Err.message_of err))).

End VesselData.

(** ** The request layer: the other endpoints of [enhancedApiClient] *)

Module Endpoints.

Import ApiClient.

(** [axiosInstance.get(...).then(response => response.data)]: the [i]-th
    raw outcome through the interceptor, then the body of the response. *)
Definition body_of (http : nat -> outcome (option Z * value) value)
  : nat -> outcome error value :=
  fun i => match via_interceptor http i with
           | Ok response =>
               match Js.get response "data" with
               | Some data => Ok data
               | None => Throw (TypeError "Cannot read properties of undefined")
               end
           | Throw e => Throw e
           end.

(** [healthCheck]: cached under one key for 30 seconds. *)
Definition healthCheck (http : nat -> outcome (option Z * value) value)
    (t0 t1 : Z) (cache : ApiCache.t)
  : outcome error value * ApiCache.t * list event :=
  let cacheKey := "health-check" in
  let '(cached, cache0) := ApiCache.get cacheKey t0 cache in
  if Js.truthy cached then (Ok cached, cache0, [])
  else
    match retryRequest (body_of http) MAX_RETRIES INITIAL_RETRY_DELAY [] with
    | (Throw e, tr) => (Throw e, cache0, tr)
    | (Ok data, tr) => (Ok data, ApiCache.set cacheKey data 30000 t1 cache0, tr)
    end.

(** [analyzeVessel]: cached per vessel id for [CACHE_TTL]; the posted
    body is [{ vessel_id, data }], and [http] maps it to the raw outcomes
    of the successive attempts. *)
Definition analyzeVessel (vesselId : string) (data : value)
    (http : value -> nat -> outcome (option Z * value) value)
    (t0 t1 : Z) (cache : ApiCache.t)
  : outcome error value * ApiCache.t * list event :=
  let cacheKey := "vessel-analysis-" +:+ vesselId in
  let '(cached, cache0) := ApiCache.get cacheKey t0 cache in
  if Js.truthy cached then (Ok cached, cache0, [])
  else
    match retryRequest
            (body_of (http (VObj [("vessel_id", VStr vesselId); ("data", data)])))
            MAX_RETRIES INITIAL_RETRY_DELAY [] with
    | (Throw e, tr) => (Throw e, cache0, tr)
    | (Ok result, tr) => (Ok result, ApiCache.set cacheKey result CACHE_TTL t1 cache0, tr)
    end.

(** [predictBehavior], [checkZoneViolations] and [batchAnalyze]: a POST
    of the request through [retryRequest], never cached. *)
Definition post (request : value)
    (http : value -> nat -> outcome (option Z * value) value)
  : outcome error value * list event :=
  retryRequest (body_of (http request)) MAX_RETRIES INITIAL_RETRY_DELAY [].

Definition predictBehavior := post.
Definition checkZoneViolations := post.
Definition batchAnalyze := post.

End Endpoints.

(** ** [components/MapView.tsx]: which vessels are drawn, and where *)

Module MapView.

Definition is_undefined (v : value) : bool :=
  match v with VUndefined => true | _ => false end.

(** The callback of [vessels?.filter]. *)
Definition drawable (vessel : value) : bool :=
  if negb (Js.truthy vessel)
     || is_undefined (Js.get_opt vessel "latitude")
     || is_undefined (Js.get_opt vessel "longitude")
  then false
  else
    let lat := Js.ToNumber (Js.get_opt vessel "latitude") in
    let lng := Js.ToNumber (Js.get_opt vessel "longitude") in
    if Num.isNaN lat || Num.isNaN lng then false
    else if Num.lt lat (Num.of_Z (-90)) || Num.gt lat (Num.of_Z 90)
            || Num.lt lng (Num.of_Z (-180)) || Num.gt lng (Num.of_Z 180)
    then false
    else true.

(** [vessels?.filter(...) || []]: a missing list gives no vessel; a
    value that is not an array has no [filter]. *)
Definition validVessels (vessels : value) : outcome error (list value) :=
  match vessels with
  | VUndefined | VNull => Ok []
  | VArr items => Ok (List.filter drawable items)
  | _ => Throw (TypeError "filter is not a function")
  end.

Definition mapCenter (valid : list value) : number * number :=
  match valid with
  | first :: _ => (Js.ToNumber (Js.get_opt first "latitude"),
                   Js.ToNumber (Js.get_opt first "longitude"))
  | [] => (Num.of_Z 20, Num.of_Z 0)
  end.

Definition zoom (valid : list value) : Z :=
  match valid with _ :: _ => 6 | [] => 3 end.

Inductive icon : Type := normal | fishing | violation.

Definition marker_icon (vessel : value) : icon :=
  if Js.truthy (Js.get_opt vessel "illegal_fishing") then violation
  else if Js.is_str (Js.get_opt vessel "behavior") "fishing" then fishing
  else normal.

(** [position] of the marker of a drawn vessel. *)
Definition marker_position (vessel : value) : number * number :=
  (Js.ToNumber (Js.get_opt vessel "latitude"),
   Js.ToNumber (Js.get_opt vessel "longitude")).

End MapView.

(** ** [lib/predictionUtils]: [formatPredictionResults], and the vessels
       [PredictionPage] derives from it *)

Module Prediction.

Definition tab : ascii := Str.chr 9.

(** *** [parseFloat]: the longest numeric prefix, after leading white space *)

Definition decimal_prefix (s : string) : option Q :=
  let '(ip, r1) := NumStr.span_digits s in
  let '(fp, r2) :=
    match r1 with
    | String c r => if Ascii.eqb c "."%char then NumStr.span_digits r else ([], r1)
    | EmptyString => ([], r1)
    end in
  match (ip ++ fp)%list with
  | [] => None
  | ds =>
      let m := (inject_Z (NumStr.digits_value 10 ds)
                * NumStr.pow10 (- Z.of_nat (length fp)))%Q in
      match r2 with
      | String c r3 =>
          if Ascii.eqb c "e"%char || Ascii.eqb c "E"%char then
            let '(neg, r4) := NumStr.split_sign r3 in
            match NumStr.span_digits r4 with
            | (d :: es, _) =>
                let e := NumStr.digits_value 10 (d :: es) in
                Some (m * NumStr.pow10 (if neg then - e else e))%Q
            | _ => Some m
            end
          else Some m
      | EmptyString => Some m
      end
  end.

Fixpoint startsWith (p s : string) : bool :=
  match p, s with
  | EmptyString, _ => true
  | String a p', String b s' => Ascii.eqb a b && startsWith p' s'
  | String _ _, EmptyString => false
  end.

Definition parseFloat (s : string) : number :=
  let '(neg, u) := NumStr.split_sign (Str.trimStart s) in
  if startsWith "Infinity" u then (if neg then NegInf else PosInf)
  else match decimal_prefix u with
       | Some q => Num.round_double (if neg then (- q)%Q else q)
       | None => NaN
       end.

(** [s.replace('%', '')]: the first percent sign removed. *)
Fixpoint drop_percent (s : string) : string :=
  match s with
  | String c r => if Ascii.eqb c "%"%char then r else String c (drop_percent r)
  | EmptyString => EmptyString
  end.

(** [lines.slice(lines.findIndex(p))], or [None] when no line satisfies [p]. *)
Fixpoint from_first (p : string -> bool) (lines : list string) : option (list string) :=
  match lines with
  | [] => None
  | l :: r => if p l then Some (l :: r) else from_first p r
  end.

Definition type_error : error := TypeError "Cannot read properties of undefined".

(** One line of the table: a destructured field that is read but absent
    throws. *)
Definition parse_row (line : string) : outcome error value :=
  let fields := Str.split tab line in
  match fields with
  | vessel_id :: position :: rest =>
      let coords := map (fun coord => VNum (parseFloat (Str.trim coord)))
                      (Str.split Str.comma position) in
      match rest with
      | behavior :: confidence :: risk_level :: _ =>
          Ok (VObj [("vessel_id", VStr (Str.trim vessel_id));
                    ("position",
                      VObj [("latitude", nth 0 coords VUndefined);
                            ("longitude", nth 1 coords VUndefined)]);
                    ("behavior", VStr (Str.trim behavior));
                    ("confidence", VNum (parseFloat (drop_percent confidence)));
                    ("risk_level", VStr (Str.trim risk_level))])
      | _ => Throw type_error
      end
  | _ => Throw type_error
  end.

Fixpoint parse_rows (lines : list string) : outcome error (list value) :=
  match lines with
  | [] => Ok []
  | l :: r =>
      match parse_row l with
      | Throw e => Throw e
      | Ok row =>
          match parse_rows r with
          | Ok rows => Ok (row :: rows)
          | Throw e => Throw e
          end
      end
  end.

Definition nonblank (line : string) : bool := negb (Str.eqb (Str.trim line) "").

Definition formatPredictionResults (rawData : string) : outcome error (list value) :=
  let lines := Str.split Str.LF rawData in
  match from_first (startsWith "Vessel") lines with
  | None => Ok []
  | Some rest => parse_rows (List.filter nonblank rest)
  end.

(** The vessels [PredictionPage] hands to the map. *)
Definition vessel_of (pred : value) : value :=
  VObj [("vessel_id", Js.get_opt pred "vessel_id");
        ("latitude", Js.get_opt (Js.get_opt pred "position") "latitude");
        ("longitude", Js.get_opt (Js.get_opt pred "position") "longitude");
        ("behavior", Js.get_opt pred "behavior");
        ("illegal_fishing", VBool (Js.is_str (Js.get_opt pred "risk_level") "high"))].

(** The text [PredictionPage] ships with. *)
Definition predictionData : string :=
  String.concat (String Str.LF "")
    ["Prediction Results";
     "AI analysis results using Fishing Agent";
     "";
     "Analysis Summary";
     "Vessels Analyzed:4";
     "Agent Used:Fishing Agent";
     "Processing Time:0.00s";
     String.concat (String tab "")
       ["Vessel ID"; "Position"; "Behavior"; "Confidence"; "Risk Level"];
     String.concat (String tab "")
       ["Vessel 1"; "55.123456, 12.123456"; "transit"; "95.2%"; "medium"];
     String.concat (String tab "")
       ["Vessel 2"; "55.234567, 12.234567"; "transit"; "75.1%"; "medium"];
     String.concat (String tab "")
       ["Vessel 3"; "54.345678, 11.345678"; "transit"; "81.1%"; "low"];
     String.concat (String tab "")
       ["Vessel 4"; "54.456789, 11.456789"; "fishing"; "89.9%"; "high"]].

End Prediction.

(** ** [components/ExportButton.tsx], the download button, and the layer
       switches of the page *)

Module Buttons.

(** What one click on an export entry does: the file handed to the
    browser, if any, and whether [onExport] was called. *)
Record click : Type := mkClick {
  file : option Download.download;
  notified : bool
}.

(** [ExportButton]'s [handleExport]: a failure of the download is logged
    and goes no further; [onExport], when given, is called after a
    download that went through (what it throws is logged as well). *)
Definition handleExport (data : value) (filename : string)
    (has_onExport : bool) (format : Download.file_type)
  : Env.M click :=
  Env.catch
    (d <- Download.downloadData data
            (Download.mkOptions filename (Some format) (Some true)) ;;
     Env.ret (mkClick (Some d) has_onExport))
    (fun _ => Env.ret (mkClick None false)).

(** The download button's [handleDownload]: no handler around the call. *)
Definition handleDownload (data : value) (filename : string) (type : Download.file_type)
  : Env.M Download.download :=
  Download.downloadData data (Download.mkOptions filename (Some type) (Some true)).

(** [handleLayerToggle]: [{...prev, [layer]: !prev[layer]}]. *)
Definition handleLayerToggle (layer : string) (prev : list (string * value))
  : list (string * value) :=
  Js.assign layer (VBool (negb (Js.truthy (Js.lookup layer prev)))) prev.

End Buttons.

(** ** Auxiliary definitions used to state the properties *)

(** The events a run of [retryRequest] adds when every call fails with an
    error that is eligible for a retry. *)
Fixpoint schedule (retries : nat) (delay : Z) : list ApiClient.event :=
  match retries with
  | O => [ApiClient.Attempt]
  | S r =>
      ApiClient.Attempt :: ApiClient.Sleep delay
        :: schedule r (Z.min (delay * 2) ApiClient.MAX_RETRY_DELAY)
  end.

(** The coordinate predicate of [checkZone.ts] applied to a row's
    [latitude] and [longitude] properties. *)
Definition coordinate_ok (row : value) : bool :=
  CheckZone.isValidCoordinate (Js.get_opt row "latitude") (Js.get_opt row "longitude").

(** A row of the single-coordinate [checkZone]: the vessel's own
    properties and the six the code sets on top of them. *)
Definition row_of (vessel inMPA : value) (inEEZ isFishing in_port : bool) (index : nat)
  : value :=
  let illegal := Js.and inMPA (VBool isFishing) in
  VObj
    (Js.assign "risk_level"
       (VStr (if Js.truthy illegal then "high"
              else if inEEZ && isFishing then "medium" else "low"))
    (Js.assign "illegal_fishing" illegal
    (Js.assign "in_port" (VBool in_port)
    (Js.assign "in_eez" (VBool inEEZ)
    (Js.assign "in_mpa" inMPA
    (Js.assign "vessel_id"
       (Js.or (Js.get_opt vessel "vessel_id") (default_vessel_id index))
    (Js.spread vessel))))))).


(** ** Sample data: four vessels off the Danish coast, a service that
    answers for the first one only, one that is down, and two sources of
    random draws. *)

Definition sample_vessel (id behavior : string) (lat lon : Q) : value :=
  VObj [("latitude", VNum (Num.lit lat)); ("longitude", VNum (Num.lit lon));
        ("behavior", VStr behavior); ("vessel_id", VStr id)].

Definition four_vessels : list value :=
  [sample_vessel "VESSEL001" "fishing" (55123456 # 1000000) (12123456 # 1000000);
   sample_vessel "VESSEL002" "transit" (55234567 # 1000000) (12234567 # 1000000);
   sample_vessel "VESSEL003" "transit" (54345678 # 1000000) (11345678 # 1000000);
   sample_vessel "VESSEL004" "fishing" (54456789 # 1000000) (11456789 # 1000000)].

Definition partial_service : value -> outcome error value :=
  fun _ =>
    Ok (VObj [("violations", VInt 3);
              ("mpa_violations", VInt 2);
              ("eez_violations", VInt 1);
              ("processing_time", VStr "0.02s");
              ("results",
                VArr [VObj [("vessel_id", VStr "VESSEL001");
                            ("zone_type", VStr "mpa");
                            ("timestamp", VStr "2024-01-15T10:30:00Z");
                            ("location", VArr [VNum (Num.lit (12123456 # 1000000));
                                               VNum (Num.lit (55123456 # 1000000))]);
                            ("severity", VStr "high");
                            ("details", VStr "Fishing inside a protected area")]])]).

Definition failing_service : value -> outcome error value :=
  fun _ => Throw (ApiErr (ApiClient.intercept (Some 500) VNull)).

Definition low_draws : Env.oracle :=
  Env.mkOracle (fun _ => 0%Q) (fun _ => "2024-01-15T10:30:00.000Z").

Definition high_draws : Env.oracle :=
  Env.mkOracle (fun _ => (99 # 100)%Q) (fun _ => "2024-01-15T10:30:00.000Z").

(** ** Text free of a separator *)

Fixpoint occurrences (c : ascii) (s : string) : nat :=
  match s with
  | EmptyString => 0%nat
  | String a r => ((if Ascii.eqb a c then 1 else 0) + occurrences c r)%nat
  end.

Definition free_of (c : ascii) (s : string) : bool := (occurrences c s =? 0)%nat.

(** A property name that survives as a CSV header: it starts with a
    visible character and holds no comma and no line break. *)
Definition clean_key (k : string) : bool :=
  match k with
  | String c _ => negb (Str.is_white c)
  | EmptyString => false
  end
  && free_of Str.comma k && free_of Str.LF k.

(** The CSV cell of [row] under [header]. *)
Definition cell_at (row : value) (header : string) : string :=
  match Js.get_key row header with
  | Some v => Download.cell v
  | None => ""
  end.

(** A record whose cells hold no line break. *)
Definition single_line (headers : list string) (row : value) : bool :=
  negb (Js.is_nullish row)
  && forallb (fun h => free_of Str.LF (cell_at row h)) headers.

Definition ends_with (c : ascii) (s : string) : Prop :=
  exists body, s = body +:+ String c "".

(** The CSV line of a record under the given headers. *)
Definition line_of (headers : list string) (row : value) : string :=
  Str.join "," (map (cell_at row) headers).

Definition quoted (s : string) : Prop :=
  exists body, s = String Str.quote (body +:+ String Str.quote "").

(** One row of the page's result table. *)
Definition sample_results : list value :=
  [VObj [("vessel_id", VStr "VESSEL001");
         ("timestamp", VStr "2024-01-15T10:30:00Z");
         ("latitude", VNum (Num.lit (55123456 # 1000000)));
         ("longitude", VNum (Num.lit (12123456 # 1000000)));
         ("behavior", VStr "fishing");
         ("in_mpa", VBool true);
         ("in_eez", VBool false);
         ("in_port", VBool false);
         ("risk_level", VStr "high");
         ("illegal_fishing", VBool true)]].

(** A vessel whose coordinates are finite and in range. *)
Definition in_range (v : value) : Prop :=
  exists lat lon,
    Js.get_opt v "latitude" = VNum (Fin lat)
    /\ Js.get_opt v "longitude" = VNum (Fin lon)
    /\ (inject_Z (-90) <= lat)%Q /\ (lat <= inject_Z 90)%Q
    /\ (inject_Z (-180) <= lon)%Q /\ (lon <= inject_Z 180)%Q.

(** The column names the page's CSV parser works with. *)
Definition header_names (csvData : string) : list string :=
  map (fun h => Str.toLowerCase (Str.trim h))
    (Str.split Str.comma (hd "" (Str.split Str.LF (Str.trim csvData)))).

(** ** Further auxiliary definitions *)

(** The first [k] back-off delays, starting from [delay]. *)
Fixpoint backoff (k : nat) (delay : Z) : list Z :=
  match k with
  | O => []
  | S k' => delay :: backoff k' (Z.min (delay * 2) ApiClient.MAX_RETRY_DELAY)
  end.

(** Statuses for which [retryRequest] gives up at once. *)
Definition fail_fast (st : option Z) : bool :=
  ApiClient.status_is st 400 || ApiClient.status_is st 401 || ApiClient.status_is st 403.

(** The entry [checkZone] puts in the request for the vessel at [index]. *)
Definition request_entry (index : nat) (vessel : value) : value :=
  VObj [("vessel_id", Js.or (Js.get_opt vessel "vessel_id") (default_vessel_id index));
        ("latitude", VNum (Js.ToNumber (Js.get_opt vessel "latitude")));
        ("longitude", VNum (Js.ToNumber (Js.get_opt vessel "longitude")))].

(** A vessel that passes the validation step of [checkZone]. *)
Definition passes (vessel : value) : bool := Js.truthy vessel && coordinate_ok vessel.

(** A mock violation made up for [vessel]. *)
Definition mock_of (vessel row : value) : Prop :=
  exists zone severity timestamp,
    (zone = "mpa" \/ zone = "eez")
    /\ (severity = "low" \/ severity = "medium" \/ severity = "high")
    /\ row = VObj [("vessel_id", Js.or (Js.get_opt vessel "vessel_id") (VStr "UNKNOWN"));
                   ("zone_type", VStr zone);
                   ("timestamp", VStr timestamp);
                   ("location", VArr [Js.get_opt vessel "longitude";
                                      Js.get_opt vessel "latitude"]);
                   ("severity", VStr severity);
                   ("details", VStr ("Mock " +:+ CheckZone.upper zone +:+ " violation"))].

Definition is_high (row : value) : bool := Js.is_str (Js.get_opt row "severity") "high".

(** The callback of the validation loop of [checkZone]. *)
Definition validate (index : nat) (vessel : value) : Env.M value :=
  if negb (Js.truthy vessel)
     || negb (CheckZone.isValidCoordinate (Js.get_opt vessel "latitude")
                                (Js.get_opt vessel "longitude"))
  then Env.throw (JsError ("Invalid coordinates in vessel data at index "
                           +:+ Str.of_N (N.of_nat index)))
  else Env.ret (request_entry index vessel).


(** A row of a successful response, made from the service's entry. *)
Definition formatted_from (entry row : value) : Prop :=
  Js.get_opt row "vessel_id" = Js.get_opt entry "vessel_id"
  /\ Js.get_opt row "zone_type" = Js.or (Js.get_opt entry "zone_type") (VStr "mpa")
  /\ Js.get_opt row "location"
     = Js.or (Js.get_opt entry "location") (VArr [VInt 0; VInt 0])
  /\ Js.get_opt row "severity" = Js.or (Js.get_opt entry "severity") (VStr "low")
  /\ Js.get_opt row "details" = Js.or (Js.get_opt entry "details") (VStr "").

(** The request [checkZone] sends for a list of vessels. *)
Definition request_for (vessels : list value) : value :=
  VObj [("vessels", VArr (imap request_entry vessels))].

(** [a[i]], [undefined] standing for a miss. *)
Definition item (v : value) (i : nat) : value :=
  match Js.index v i with Some x => x | None => VUndefined end.

(** The row [mapApiResponseToLocalFormat] makes of a violation record. *)
Definition local_row (detail : value) : value :=
  VObj [("vessel_id", Js.get_opt detail "vessel_id");
        ("timestamp", Js.get_opt detail "timestamp");
        ("latitude", item (Js.get_opt detail "location") 0);
        ("longitude", item (Js.get_opt detail "location") 1);
        ("behavior", Js.or (Js.get_opt detail "details") (VStr "unknown"));
        ("in_mpa", VBool (Js.is_str (Js.get_opt detail "zone_type") "mpa"));
        ("in_eez", VBool (Js.is_str (Js.get_opt detail "zone_type") "eez"));
        ("in_port", VBool false);
        ("risk_level", Js.get_opt detail "severity");
        ("illegal_fishing", VBool (Js.is_str (Js.get_opt detail "severity") "high"))].

(** The request the single-coordinate [checkZone] sends: the first
    vessel's coordinates, as numbers. *)
Definition single_request (first : value) : value :=
  VObj [("latitude", VNum (Js.ToNumber (Js.get_opt first "latitude")));
        ("longitude", VNum (Js.ToNumber (Js.get_opt first "longitude")))].

(** The properties the single-coordinate [checkZone] sets on every row. *)
Definition row_keys : list string :=
  ["vessel_id"; "in_mpa"; "in_eez"; "in_port"; "illegal_fishing"; "risk_level"].

(** A valid vessel followed by one whose coordinates are out of range. *)
Definition second_out_of_range : list value :=
  [sample_vessel "VESSEL001" "fishing" (55123456 # 1000000) (12123456 # 1000000);
   VObj [("latitude", VNum (Num.of_Z 999)); ("longitude", VStr "east")]].

(** A position whose latitude and longitude are finite and in range. *)
Definition on_globe (p : number * number) : Prop :=
  exists lat lon,
    p = (Fin lat, Fin lon)
    /\ (inject_Z (-90) <= lat)%Q /\ (lat <= inject_Z 90)%Q
    /\ (inject_Z (-180) <= lon)%Q /\ (lon <= inject_Z 180)%Q.

(** Two AIS rows as Papa.parse delivers them: the second one has a
    latitude out of range. *)
Definition ais_rows : list value :=
  [VObj [("MMSI", VInt 219000001); ("LAT", VNum (Num.lit (55123456 # 1000000)));
         ("LON", VNum (Num.lit (12123456 # 1000000))); ("SPEED", VInt 0)];
   VObj [("MMSI", VInt 219000002); ("LAT", VInt 999);
         ("LON", VNum (Num.lit (12234567 # 1000000))); ("SPEED", VInt 12)]].

(** A vessel in the Pacific: a valid position whose longitude is no valid
    latitude. *)
Definition pacific_vessel : value :=
  VObj [("vessel_id", VStr "VESSEL009"); ("latitude", VInt 10); ("longitude", VInt 120)].

(** The lines of the manual input below its header line. *)
Definition data_lines (csvData : string) : list string :=
  tl (Str.split Str.LF (Str.trim csvData)).

(** A line of the prediction table that lacks one of its five fields. *)
Definition short_line (line : string) : Prop :=
  Prediction.nonblank line = true
  /\ (length (Str.split Prediction.tab line) < 5)%nat.

(** The line a toast of the manual input refers to. *)
Definition toast_line (t : ZoneViolation.toast) : nat :=
  match t with
  | ZoneViolation.WrongColumns n
  | ZoneViolation.InvalidCoordinates n
  | ZoneViolation.OutOfRange n => n
  end.

(** A GeoJSON feature whose properties carry a stale [LAT]. *)
Definition geo_feature : value :=
  VObj [("type", VStr "Feature");
        ("properties", VObj [("MMSI", VInt 219000003); ("LAT", VInt 0); ("SPEED", VInt 2)]);
        ("geometry", VObj [("type", VStr "Point");
                           ("coordinates", VArr [VInt 12; VInt 55])])].

(** A service that reports a violation at whatever position it is asked
    about. *)
Definition violating_service : value -> outcome error value :=
  fun _ => Ok (VObj [("is_violation", VBool true); ("zone_type", VStr "mpa")]).

(** * Sanity checks of the embedding on concrete inputs *)

Example number_of_decimal_text :
  NumStr.StringToNumber " 12.5 " = Fin (25 # 2)
  /\ NumStr.StringToNumber "999" = Fin 999
  /\ NumStr.StringToNumber "1e3" = Fin 1000
  /\ NumStr.StringToNumber "0x1F" = Fin 31
  /\ NumStr.StringToNumber "" = Fin 0
  /\ NumStr.StringToNumber "12abc" = NaN
  /\ NumStr.StringToNumber "-Infinity" = NegInf.
Proof. repeat split; vm_compute; reflexivity. Qed.

Example text_of_number :
  NumStr.toString (NumStr.StringToNumber "55.123456") = "55.123456"
  /\ NumStr.toString (Num.lit (1 # 10)) = "0.1"
  /\ NumStr.toString (Num.of_Z (10 ^ 21)) = "1e+21"
  /\ NumStr.toString (Num.lit (1 # 10000000)) = "1e-7"
  /\ NumStr.toString (Num.of_Z (-999)) = "-999".
Proof. repeat split; vm_compute; reflexivity. Qed.

Example number_of_values :
  Js.ToNumber VNull = Fin 0
  /\ Js.ToNumber VUndefined = NaN
  /\ Js.ToNumber (VArr [VStr " 5 "]) = Fin 5
  /\ Js.ToNumber (VArr [VInt 1; VInt 2]) = NaN
  /\ Js.ToNumber (VObj []) = NaN.
Proof. repeat split; vm_compute; reflexivity. Qed.

Example split_keeps_empty_fields :
  Str.split Str.comma "a,b,,c," = ["a"; "b"; ""; "c"; ""]
  /\ Str.split Str.comma "" = [""].
Proof. split; reflexivity. Qed.

Example json_of_a_record :
  Js.stringify (VObj [("a", VInt 1); ("b", VArr [VNull; VUndefined]); ("c", VUndefined)])
  = Some (String.concat ""
            ["{"; Js.QuoteJSONString "a"; ":1,"; Js.QuoteJSONString "b"; ":[null,null]}"]).
Proof. vm_compute. reflexivity. Qed.

(** The scenario of the manual input: the second row is dropped for its
    latitude, the first one is kept. *)
Example manual_input_scenario :
  exists lat lon,
    ZoneViolation.parse_csv
      (String.concat (String Str.LF "")
         ["latitude,longitude,behavior,vessel_id";
          "55.123456,12.123456,fishing,VESSEL001";
          "999,12.234567,transit,VESSEL002"])
    = ZoneViolation.Vessels
        [VObj [("latitude", VNum (Fin lat)); ("longitude", VNum (Fin lon));
               ("behavior", VStr "fishing"); ("vessel_id", VStr "VESSEL001")]]
        [ZoneViolation.OutOfRange 3].
Proof. eexists _, _. vm_compute. reflexivity. Qed.

Example speed_to_behavior :
  map (fun s => VesselData.determineBehavior (VObj [("SPEED", s)]))
    [VStr "0.2"; VInt 2; VInt 5; VInt 12; VStr "n/a"]
  = ["stopped"; "fishing"; "maneuvering"; "transit"; "unknown"].
Proof. vm_compute. reflexivity. Qed.

(** * Properties *)

(** ** The cache *)

Section CacheFacts.

Import ApiClient.

Lemma cache_get_absent (cache : ApiCache.t) (key : string) (now : Z) :
  cache !! key = None -> ApiCache.get key now cache = (VNull, cache).
Proof. intros H. unfold ApiCache.get. now rewrite H. Qed.

Lemma cache_get_set (cache : ApiCache.t) (key : string) (data : value) (ttl t now : Z) :
  now <= t + ttl ->
  ApiCache.get key now (ApiCache.set key data ttl t cache)
  = (data, ApiCache.set key data ttl t cache).
Proof.
  intros H. unfold ApiCache.get, ApiCache.set.
  rewrite lookup_insert_eq.
  destruct (now >? t + ttl) eqn:E; [lia | reflexivity].
Qed.

End CacheFacts.

(** C6.  A cache entry [(data, expiry)] under [key]: a read strictly after
    [expiry] returns [null] and leaves the cache without the entry; a read
    at or before [expiry] returns [data] and leaves the cache as it was. *)
Theorem cache_read_respects_expiry
    (cache : ApiClient.ApiCache.t) (key : string) (data : value) (expiry now : Z) :
  cache !! key = Some (data, expiry) ->
  (expiry < now ->
     ApiClient.ApiCache.get key now cache = (VNull, delete key cache)
     /\ snd (ApiClient.ApiCache.get key now cache) !! key = None)
  /\ (now <= expiry -> ApiClient.ApiCache.get key now cache = (data, cache)).
Proof.
  intros Hin. unfold ApiClient.ApiCache.get. rewrite Hin. split; intros Ht.
  - destruct (now >? expiry) eqn:E; [|lia]. split; [reflexivity|].
    cbn. apply lookup_delete_eq.
  - destruct (now >? expiry) eqn:E; [lia|reflexivity].
Qed.

Lemma cache_read_respects_expiry_witness :
  let cache := ApiClient.ApiCache.set "health-check" (VStr "ok") 30000 0 ApiClient.ApiCache.empty in
  (ApiClient.ApiCache.get "health-check" 30001 cache = (VNull, delete "health-check" cache)
   /\ snd (ApiClient.ApiCache.get "health-check" 30001 cache) !! "health-check" = None)
  /\ ApiClient.ApiCache.get "health-check" 30000 cache = (VStr "ok", cache).
Proof.
  intros cache.
  assert (Hin : cache !! "health-check" = Some (VStr "ok", 30000)) by reflexivity.
  split.
  - apply (proj1 (cache_read_respects_expiry cache "health-check" (VStr "ok") 30000 30001 Hin)).
    lia.
  - apply (proj2 (cache_read_respects_expiry cache "health-check" (VStr "ok") 30000 30000 Hin)).
    lia.
Defined.

(** ** Retry with back-off *)

Section RetryFacts.

Import ApiClient.

Context {T : Type}.

Lemma attempts_app (tr tr' : list event) :
  attempts (tr ++ tr') = (attempts tr + attempts tr')%nat.
Proof. unfold attempts. now rewrite List.filter_app, length_app. Qed.

Lemma delays_app (tr tr' : list event) : delays (tr ++ tr') = delays tr ++ delays tr'.
Proof. unfold delays. apply omap_app. Qed.

Lemma attempts_schedule (retries : nat) (delay : Z) :
  attempts (schedule retries delay) = S retries.
Proof.
  revert delay. induction retries as [|r IH]; intros delay; [reflexivity|].
  cbn [schedule]. change (attempts (Attempt :: Sleep delay :: ?l)) with (S (attempts l)).
  now rewrite IH.
Qed.

Definition eligible_failure (fn : nat -> outcome error T) (i : nat) : Prop :=
  exists e, fn i = Throw (ApiErr e) /\ no_retry e = false.

Lemma retry_all_failing (fn : nat -> outcome error T) (retries : nat) :
  forall (delay : Z) (tr : list event),
    (forall i, eligible_failure fn i) ->
    retryRequest fn retries delay tr
    = (fn (attempts tr + retries)%nat, tr ++ schedule retries delay).
Proof.
  induction retries as [|r IH]; intros delay tr Hall.
  - destruct (Hall (attempts tr)) as (e & He & Hn).
    cbn [retryRequest schedule]. rewrite Nat.add_0_r, He, Hn. reflexivity.
  - destruct (Hall (attempts tr)) as (e & He & Hn).
    cbn [retryRequest schedule]. rewrite He, Hn.
    rewrite IH by assumption.
    rewrite attempts_app. change (attempts [Attempt; Sleep delay]) with 1%nat.
    rewrite <- app_assoc. cbn [app].
    do 2 f_equal. lia.
Qed.

Lemma status_500_eligible (e : ApiError) : Err.status e = Some 500 -> no_retry e = false.
Proof. intros H. unfold no_retry. now rewrite H. Qed.

End RetryFacts.

(** C3.  When every call fails with an [ApiError] of status 500, a request
    with the default [MAX_RETRIES] and [INITIAL_RETRY_DELAY] makes exactly 4
    calls, waits 1000, 2000 and 4000 ms before the three retries (each
    delay the previous one doubled, capped at [MAX_RETRY_DELAY]), and
    rethrows the last failure. *)
Theorem retry_exhaustion_on_500 (T : Type) (fn : nat -> outcome error T) :
  (forall i, exists e, fn i = Throw (ApiErr e) /\ Err.status e = Some 500) ->
  let d0 := ApiClient.INITIAL_RETRY_DELAY in
  let d1 := Z.min (d0 * 2) ApiClient.MAX_RETRY_DELAY in
  let d2 := Z.min (d1 * 2) ApiClient.MAX_RETRY_DELAY in
  let run := ApiClient.retryRequest fn ApiClient.MAX_RETRIES d0 [] in
  fst run = fn 3%nat
  /\ snd run = [ApiClient.Attempt; ApiClient.Sleep 1000;
                ApiClient.Attempt; ApiClient.Sleep 2000;
                ApiClient.Attempt; ApiClient.Sleep 4000;
                ApiClient.Attempt]
  /\ ApiClient.attempts (snd run) = 4%nat
  /\ ApiClient.delays (snd run) = [d0; d1; d2]
  /\ [d0; d1; d2] = [1000; 2000; 4000].
Proof.
  intros Hall d0 d1 d2 run.
  assert (Hrun : run = (fn 3%nat, schedule 3 1000)).
  { subst run d0. rewrite retry_all_failing; [reflexivity|].
    intros i. destruct (Hall i) as (e & He & Hs).
    exists e. split; [exact He | now apply status_500_eligible]. }
  rewrite Hrun. repeat split.
Qed.

Lemma retry_exhaustion_on_500_witness :
  let fn : nat -> outcome error value :=
    fun _ => Throw (ApiErr (ApiClient.intercept (Some 500) VNull)) in
  let run := ApiClient.retryRequest fn ApiClient.MAX_RETRIES ApiClient.INITIAL_RETRY_DELAY [] in
  ApiClient.attempts (snd run) = 4%nat
  /\ ApiClient.delays (snd run) = [1000; 2000; 4000].
Proof.
  intros fn run.
  assert (Hall : forall i : nat, exists e, fn i = Throw (ApiErr e) /\ Err.status e = Some 500).
  { intros i. exists (ApiClient.intercept (Some 500) VNull). split; reflexivity. }
  destruct (retry_exhaustion_on_500 value fn Hall) as (_ & _ & Hn & Hd & Hv).
  split; [exact Hn | exact (eq_trans Hd Hv)].
Defined.

(** C4.  When the first call fails with an [ApiError] of status 400, 401 or
    403, that call is the only one: the error is rethrown at once, with no
    retry and no back-off delay, whatever retry budget is left. *)
Theorem no_retry_on_400_401_403
    (T : Type) (fn : nat -> outcome error T) (retries : nat) (delay : Z) (e : ApiError) :
  fn 0%nat = Throw (ApiErr e) ->
  Err.status e = Some 400 \/ Err.status e = Some 401 \/ Err.status e = Some 403 ->
  let run := ApiClient.retryRequest fn retries delay [] in
  fst run = Throw (ApiErr e)
  /\ snd run = [ApiClient.Attempt]
  /\ ApiClient.attempts (snd run) = 1%nat
  /\ ApiClient.delays (snd run) = [].
Proof.
  intros Hfn Hst run.
  assert (Hno : ApiClient.no_retry e = true).
  { unfold ApiClient.no_retry. destruct Hst as [H | [H | H]]; rewrite H; reflexivity. }
  assert (Hrun : run = (Throw (ApiErr e), [ApiClient.Attempt])).
  { subst run. destruct retries; cbn [ApiClient.retryRequest];
      change (ApiClient.attempts []) with 0%nat; rewrite Hfn, Hno; reflexivity. }
  rewrite Hrun. repeat split.
Qed.

Lemma no_retry_on_400_401_403_witness :
  let e := ApiClient.intercept (Some 401) VNull in
  let fn : nat -> outcome error value := fun _ => Throw (ApiErr e) in
  let run := ApiClient.retryRequest fn ApiClient.MAX_RETRIES ApiClient.INITIAL_RETRY_DELAY [] in
  fst run = Throw (ApiErr e)
  /\ snd run = [ApiClient.Attempt]
  /\ ApiClient.attempts (snd run) = 1%nat
  /\ ApiClient.delays (snd run) = [].
Proof.
  intros e fn run.
  apply (no_retry_on_400_401_403 value fn ApiClient.MAX_RETRIES
           ApiClient.INITIAL_RETRY_DELAY e).
  - reflexivity.
  - right. left. reflexivity.
Defined.


(** ** Coordinate validation on the CSV fetch *)

Section ValidationFacts.

Import ApiClient.

Lemma ge_not_nan (x y : number) : Num.ge x y = true -> Num.isNaN x = false.
Proof. destruct x; [destruct y; discriminate | reflexivity..]. Qed.

Lemma typeof_number (v : value) :
  Str.eqb (Js.typeof v) "number" = true -> exists n, v = VNum n.
Proof. destruct v; try discriminate. intros _. now eexists. Qed.

Lemma vessel_row_ok_coordinate_ok (row : value) :
  vessel_row_ok row = true -> coordinate_ok row = true.
Proof.
  unfold vessel_row_ok, coordinate_ok, CheckZone.isValidCoordinate.
  intros H. rewrite !andb_true_iff in H.
  destruct H as ((((((_ & Hlat) & Hlon) & H1) & H2) & H3) & H4).
  rewrite (ge_not_nan _ _ H1), (ge_not_nan _ _ H3), H1, H2, H3, H4. reflexivity.
Qed.

Lemma vessel_row_ok_on_numbers (row : value) :
  Js.truthy row = true ->
  Str.eqb (Js.typeof (Js.get_opt row "latitude")) "number" = true ->
  Str.eqb (Js.typeof (Js.get_opt row "longitude")) "number" = true ->
  vessel_row_ok row = coordinate_ok row.
Proof.
  intros Ht Hlat Hlon.
  unfold vessel_row_ok, coordinate_ok, CheckZone.isValidCoordinate.
  rewrite Ht, Hlat, Hlon. cbn [andb].
  destruct (Js.ToNumber (Js.get_opt row "latitude")),
    (Js.ToNumber (Js.get_opt row "longitude"));
    cbn -[Qle_bool]; rewrite ?andb_false_r; reflexivity.
Qed.

Lemma validate_rejects (rows : list value) (row : value) :
  In row rows -> coordinate_ok row = false -> validateVesselData (VArr rows) = false.
Proof.
  intros Hin Hbad. cbn [validateVesselData].
  apply not_true_is_false. intros Hall.
  rewrite forallb_forall in Hall.
  apply Hall, vessel_row_ok_coordinate_ok in Hin. congruence.
Qed.

End ValidationFacts.

(** C5, as the code has it.  The fetch validator is stricter than the
    coordinate predicate: a row it accepts is accepted by the predicate, the
    two agree on rows whose [latitude] and [longitude] are of type number,
    and a fetched row that fails the predicate makes the whole fetch throw
    the [INVALID_DATA_FORMAT] error. *)
Theorem fetch_validator_refines_predicate :
  (forall row, ApiClient.vessel_row_ok row = true -> coordinate_ok row = true)
  /\ (forall row,
        Js.truthy row = true ->
        Js.typeof (Js.get_opt row "latitude") = "number" ->
        Js.typeof (Js.get_opt row "longitude") = "number" ->
        ApiClient.vessel_row_ok row = coordinate_ok row)
  /\ (forall url http t0 t1 cache response body rows tr row,
        Js.truthy (fst (ApiClient.ApiCache.get ("csv-" +:+ url) t0 cache)) = false ->
        ApiClient.retryRequest (ApiClient.via_interceptor http)
          ApiClient.MAX_RETRIES ApiClient.INITIAL_RETRY_DELAY [] = (Ok response, tr) ->
        Js.get response "data" = Some body ->
        Js.get body "csv_data" = Some (VArr rows) ->
        In row rows ->
        coordinate_ok row = false ->
        fst (fst (ApiClient.fetchCSV url http t0 t1 cache))
        = Throw (ApiClient.invalid_data_format url)).
Proof.
  split; [exact vessel_row_ok_coordinate_ok | split].
  - intros row Ht Hlat Hlon. apply vessel_row_ok_on_numbers; [exact Ht | |].
    + rewrite Hlat. reflexivity.
    + rewrite Hlon. reflexivity.
  - intros url http t0 t1 cache response body rows tr row Hmiss Hrun Hdata Hcsv Hin Hbad.
    unfold ApiClient.fetchCSV.
    destruct (ApiClient.ApiCache.get ("csv-" +:+ url) t0 cache) as [cached cache0].
    cbn [fst] in Hmiss. rewrite Hmiss, Hrun, Hdata, Hcsv.
    rewrite (validate_rejects rows row Hin Hbad). reflexivity.
Qed.

(** C5 as stated fails: a row whose latitude is the string [55] passes the
    coordinate predicate and is rejected by the fetch validator. *)
Lemma fetch_validator_differs_from_predicate :
  let row := VObj [("latitude", VStr "55"); ("longitude", VInt 12)] in
  coordinate_ok row = true
  /\ ApiClient.vessel_row_ok row = false
  /\ ~ (forall r, ApiClient.vessel_row_ok r = true <-> coordinate_ok r = true).
Proof.
  intros row.
  assert (H1 : coordinate_ok row = true) by (vm_compute; reflexivity).
  assert (H2 : ApiClient.vessel_row_ok row = false) by (vm_compute; reflexivity).
  split; [exact H1 | split; [exact H2 |]].
  intros Hall. apply (Hall row) in H1. congruence.
Qed.

Lemma fetch_validator_refines_predicate_witness :
  let good := VObj [("latitude", VInt 55); ("longitude", VInt 12)] in
  let bad := VObj [("latitude", VInt 999); ("longitude", VInt 12)] in
  let http : nat -> outcome (option Z * value) value :=
    fun _ => Ok (VObj [("data", VObj [("csv_data", VArr [good; bad])])]) in
  coordinate_ok good = true
  /\ ApiClient.vessel_row_ok good = coordinate_ok good
  /\ fst (fst (ApiClient.fetchCSV "u" http 0 1 ApiClient.ApiCache.empty))
     = Throw (ApiClient.invalid_data_format "u").
Proof.
  intros good bad http.
  destruct fetch_validator_refines_predicate as (HA & HB & HC).
  split; [| split].
  - apply HA. vm_compute. reflexivity.
  - apply HB; reflexivity.
  - apply (HC "u" http 0 1 ApiClient.ApiCache.empty
             (VObj [("data", VObj [("csv_data", VArr [good; bad])])])
             (VObj [("csv_data", VArr [good; bad])]) [good; bad]
             [ApiClient.Attempt] bad).
    + reflexivity.
    + reflexivity.
    + reflexivity.
    + reflexivity.
    + right. left. reflexivity.
    + vm_compute. reflexivity.
Defined.


(** ** Reasoning about effectful computations *)

Lemma bind_ok {A B : Type} (m : Env.M A) (k : A -> Env.M B) o s a s1 :
  m o s = (Ok a, s1) -> Env.bind m k o s = k a o s1.
Proof. intros H. unfold Env.bind. now rewrite H. Qed.

Lemma bind_ok_inv {A B : Type} (m : Env.M A) (k : A -> Env.M B) o s b s2 :
  Env.bind m k o s = (Ok b, s2) ->
  exists a s1, m o s = (Ok a, s1) /\ k a o s1 = (Ok b, s2).
Proof.
  unfold Env.bind. destruct (m o s) as [[a|e] s1]; [eauto | discriminate].
Qed.

Section MapFacts.

Context {A B : Type}.

Lemma mapi_from_length (f : nat -> A -> Env.M B) (items : list A) :
  forall i o s ys s',
    Env.mapi_from f i items o s = (Ok ys, s') -> length ys = length items.
Proof.
  induction items as [|x r IH]; intros i o s ys s' H; cbn [Env.mapi_from] in H.
  - unfold Env.ret in H. now inversion H.
  - apply bind_ok_inv in H as (y & s1 & _ & H).
    apply bind_ok_inv in H as (ys' & s2 & Hr & H).
    unfold Env.ret in H. inversion H; subst. cbn. f_equal. eapply IH, Hr.
Qed.

Lemma mapi_from_total (f : nat -> A -> Env.M B) (items : list A) :
  (forall j x o s, In x items -> exists y s', f j x o s = (Ok y, s')) ->
  forall i o s, exists ys s', Env.mapi_from f i items o s = (Ok ys, s').
Proof.
  induction items as [|x r IH]; intros Hf i o s; cbn [Env.mapi_from].
  - unfold Env.ret. eauto.
  - destruct (Hf i x o s (or_introl eq_refl)) as (y & s1 & Hy).
    destruct (IH (fun j x' o' s' Hin => Hf j x' o' s' (or_intror Hin)) (S i) o s1)
      as (ys & s2 & Hys).
    exists (y :: ys), s2.
    rewrite (bind_ok _ _ _ _ _ _ Hy), (bind_ok _ _ _ _ _ _ Hys). reflexivity.
Qed.

Lemma mapi_from_lookup (f : nat -> A -> Env.M B) (items : list A) :
  forall i o s ys s',
    Env.mapi_from f i items o s = (Ok ys, s') ->
    forall j x, items !! j = Some x ->
      exists y s1 s2, f (i + j)%nat x o s1 = (Ok y, s2) /\ ys !! j = Some y.
Proof.
  induction items as [|x0 r IH]; intros i o s ys s' H j x Hj; [discriminate|].
  cbn [Env.mapi_from] in H.
  apply bind_ok_inv in H as (y & s1 & Hy & H).
  apply bind_ok_inv in H as (ys' & s2 & Hr & H).
  unfold Env.ret in H. inversion H; subst. destruct j as [|j].
  - inversion Hj; subst. exists y, s, s1. rewrite Nat.add_0_r. auto.
  - cbn in Hj. destruct (IH _ _ _ _ _ Hr j x Hj) as (y' & t1 & t2 & Hf & Hl).
    exists y', t1, t2. rewrite Nat.add_succ_r. auto.
Qed.

End MapFacts.

Lemma prop_ok (v : value) (k : string) o s :
  Js.is_nullish v = false -> exists x, Env.prop v k o s = (Ok x, s).
Proof. destruct v; try discriminate; intros _; cbn; eauto. Qed.

Lemma prop_get_opt (v : value) (k : string) o s x s' :
  Env.prop v k o s = (Ok x, s') -> x = Js.get_opt v k /\ s' = s.
Proof.
  unfold Env.prop, Js.get_opt. destruct (Js.get v k); cbn; intros H; inversion H; auto.
Qed.


(** ** [checkZone.ts]: the shape of the response *)

Section CheckZoneFacts.

Import CheckZone.

Lemma generateMockViolation_ok (vessel : value) o s :
  Js.is_nullish vessel = false ->
  exists row s', generateMockViolation vessel o s = (Ok row, s').
Proof.
  intros Hv. unfold generateMockViolation.
  unfold Env.bind at 1. cbn [Env.Math_random].
  unfold Env.bind at 1. cbn [Env.Math_random].
  set (hi := Num.gt _ (Num.lit (7 # 10))). destruct hi.
  - unfold Env.bind at 1. cbn [Env.ret].
    destruct (prop_ok vessel "vessel_id" o
                {| Env.draws := S (S (Env.draws s)); Env.reads := Env.reads s |} Hv)
      as (x & Hx).
    rewrite (bind_ok _ _ _ _ _ _ Hx).
    unfold Env.bind at 1. cbn [Env.now_iso].
    destruct (prop_ok vessel "longitude" o
                {| Env.draws := S (S (Env.draws s)); Env.reads := S (Env.reads s) |} Hv)
      as (x1 & Hx1).
    cbn [Env.draws Env.reads]. rewrite (bind_ok _ _ _ _ _ _ Hx1).
    destruct (prop_ok vessel "latitude" o
                {| Env.draws := S (S (Env.draws s)); Env.reads := S (Env.reads s) |} Hv)
      as (x2 & Hx2).
    rewrite (bind_ok _ _ _ _ _ _ Hx2). unfold Env.ret. eauto.
  - unfold Env.bind at 1. unfold Env.bind at 1. cbn [Env.Math_random Env.ret].
    cbn [Env.draws Env.reads].
    destruct (prop_ok vessel "vessel_id" o
                {| Env.draws := S (S (S (Env.draws s))); Env.reads := Env.reads s |} Hv)
      as (x & Hx).
    rewrite (bind_ok _ _ _ _ _ _ Hx).
    unfold Env.bind at 1. cbn [Env.now_iso].
    destruct (prop_ok vessel "longitude" o
                {| Env.draws := S (S (S (Env.draws s))); Env.reads := S (Env.reads s) |} Hv)
      as (x1 & Hx1).
    cbn [Env.draws Env.reads]. rewrite (bind_ok _ _ _ _ _ _ Hx1).
    destruct (prop_ok vessel "latitude" o
                {| Env.draws := S (S (S (Env.draws s))); Env.reads := S (Env.reads s) |} Hv)
      as (x2 & Hx2).
    rewrite (bind_ok _ _ _ _ _ _ Hx2). unfold Env.ret. eauto.
Qed.

Lemma formatErrorResponse_ok (items : list value) (err : error) o s :
  Forall (fun v => Js.is_nullish v = false) items ->
  exists r s', formatErrorResponse (VArr items) err o s = (Ok r, s')
    /\ success r = false
    /\ total_vessels r = length items
    /\ length (results r) = length items
    /\ violations r = VInt (Z.of_nat (length (results r)))
    /\ error_message r = Some (Err.message_of err).
Proof.
  intros Hall. unfold formatErrorResponse, map_any, Env.mapi.
  destruct (mapi_from_total (fun _ x => generateMockViolation x) items) with (i := 0%nat) (o := o) (s := s)
    as (rows & s1 & Hrows).
  { intros j x o' s' Hin. apply generateMockViolation_ok.
    rewrite Forall_forall in Hall. apply Hall. now apply list_elem_of_In. }
  rewrite (bind_ok _ _ _ _ _ _ Hrows).
  cbn [length_any]. unfold Env.bind, Env.ret.
  eexists _, s1. split; [reflexivity|]. cbn.
  pose proof (mapi_from_length _ _ _ _ _ _ _ Hrows) as Hlen.
  repeat split; auto.
Qed.

Lemma formatAPIResponse_inv (result : value) (items : list value) o s r s' :
  formatAPIResponse result (VArr items) o s = (Ok r, s') ->
  success r = true
  /\ total_vessels r = length items
  /\ error_message r = None
  /\ violations r = Js.or (Js.get_opt result "violations") (VInt 0)
  /\ mpa_violations r = Js.or (Js.get_opt result "mpa_violations") (VInt 0)
  /\ eez_violations r = Js.or (Js.get_opt result "eez_violations") (VInt 0)
  /\ exists entries, Js.get_opt result "results" = VArr entries
                     /\ length (results r) = length entries.
Proof.
  unfold formatAPIResponse.
  destruct (negb (Js.truthy (Js.get_opt result "results"))); [discriminate|].
  intros H. apply bind_ok_inv in H as (n & s1 & Hn & H).
  cbn in Hn. inversion Hn; subst n s1; clear Hn.
  apply bind_ok_inv in H as (rows & s2 & Hrows & H).
  unfold Env.ret in H. inversion H; subst; clear H. cbn.
  repeat split.
  unfold map_any in Hrows.
  destruct (Js.get_opt result "results") eqn:E; try discriminate.
  exists items0. split; [reflexivity|].
  eapply mapi_from_length, Hrows.
Qed.

End CheckZoneFacts.

(** Where no element of the array is [null] or [undefined] (the array
    may be empty, the coordinates may be invalid, the service may answer
    anything or fail), [checkZone] does not throw: it returns a response
    whose [total_vessels] is the length of the array; on the error branch
    [success] is false and [error] is a string, on the success branch
    there is no [error]. *)
Theorem checkZone_always_resolves
    (api : value -> outcome error value) (o : Env.oracle) (vessels : list value) :
  Forall (fun v => Js.is_nullish v = false) vessels ->
  exists r,
    Env.run (CheckZone.checkZone api (VArr vessels)) o = Ok r
    /\ total_vessels r = length vessels
    /\ (success r = true -> error_message r = None)
    /\ (success r = false -> exists msg, error_message r = Some msg).
Proof.
  intros Hall. unfold Env.run, CheckZone.checkZone, Env.catch.
  match goal with |- context [match ?m o Env.start with _ => _ end] =>
    destruct (m o Env.start) as [[r|e] s1] eqn:E end.
  - exists r. split; [reflexivity|].
    apply bind_ok_inv in E as (items & s2 & _ & E).
    apply bind_ok_inv in E as (reqs & s3 & _ & E).
    apply bind_ok_inv in E as (result & s4 & _ & E).
    apply formatAPIResponse_inv in E as (Hs & Hn & He & _).
    split; [exact Hn | split; [auto | congruence]].
  - destruct (formatErrorResponse_ok vessels e o s1 Hall)
      as (r & s' & Hr & Hs & Hn & _ & _ & He).
    exists r. rewrite Hr. split; [reflexivity|].
    split; [exact Hn | split; [congruence | eauto]].
Qed.

Lemma checkZone_always_resolves_witness :
  let api : value -> outcome error value := fun _ => Throw (JsError "Network Error") in
  let o := Env.mkOracle (fun _ => 0%Q) (fun _ => "2024-01-15T10:30:00.000Z") in
  let vessels := [VObj [("latitude", VInt 999); ("longitude", VInt 12)]] in
  exists r,
    Env.run (CheckZone.checkZone api (VArr vessels)) o = Ok r
    /\ total_vessels r = 1%nat.
Proof.
  intros api o vessels.
  assert (Hall : Forall (fun v => Js.is_nullish v = false) vessels).
  { repeat constructor. }
  destruct (checkZone_always_resolves api o vessels Hall) as (r & Hr & Hn & _).
  exists r. split; [exact Hr | exact Hn].
Defined.

(** A [null] element is not a vessel: the fallback dereferences it and
    the rejection escapes. *)
Lemma checkZone_null_element_rejects :
  Env.run (CheckZone.checkZone (fun _ => Ok VNull) (VArr [VNull]))
    (Env.mkOracle (fun _ => 0%Q) (fun _ => ""))
  = Throw (TypeError "Cannot read properties of null").
Proof. vm_compute. reflexivity. Qed.


(** ** The single-coordinate [checkZone]: rows and tallies *)

Section SingleFacts.

Import SingleCoordinate.

Lemma lookup_assign_eq (k : string) (v : value) (fields : list (string * value)) :
  Js.lookup k (Js.assign k v fields) = v.
Proof.
  induction fields as [|[k' v'] r IH]; cbn.
  - unfold Str.eqb. now rewrite String.eqb_refl.
  - destruct (Str.eqb k' k) eqn:E; cbn; rewrite ?E; [|exact IH].
    unfold Str.eqb. now rewrite String.eqb_refl.
Qed.

Lemma lookup_assign_ne (k k' : string) (v : value) (fields : list (string * value)) :
  Str.eqb k' k = false -> Js.lookup k (Js.assign k' v fields) = Js.lookup k fields.
Proof.
  intros Hne. induction fields as [|[k0 v0] r IH]; cbn.
  - now rewrite Hne.
  - destruct (Str.eqb k0 k') eqn:E; cbn.
    + apply String.eqb_eq in E. subst k0. now rewrite Hne.
    + destruct (Str.eqb k0 k); [reflexivity | exact IH].
Qed.

Lemma mock_row_inv first index vessel o s row s' :
  mock_row first index vessel o s = (Ok row, s') ->
  exists inMPA inEEZ isFishing in_port,
    row = row_of vessel inMPA inEEZ isFishing in_port index.
Proof.
  intros H. unfold mock_row in H.
  apply bind_ok_inv in H as (inMPA & s1 & _ & H).
  apply bind_ok_inv in H as (r & s2 & _ & H).
  apply bind_ok_inv in H as (behavior & s3 & _ & H).
  apply bind_ok_inv in H as (isFishing & s4 & _ & H).
  apply bind_ok_inv in H as (r' & s5 & _ & H).
  unfold Env.ret in H. inversion H. unfold row_of. eauto.
Qed.


Lemma mock_row_ok first index vessel o s :
  Js.is_nullish vessel = false ->
  exists row s', mock_row first index vessel o s = (Ok row, s').
Proof.
  intros Hv. unfold mock_row.
  assert (H1 : exists inMPA s1,
             (match index, first with
              | O, Some v => Env.ret v
              | _, _ => Env.bind Env.Math_random (fun r =>
                          Env.ret (VBool (Num.gt r (Num.lit (7 # 10)))))
              end) o s = (Ok inMPA, s1)).
  { destruct index, first; cbn; eauto. }
  destruct H1 as (inMPA & s1 & H1). rewrite (bind_ok _ _ _ _ _ _ H1).
  unfold Env.bind at 1. cbn [Env.Math_random].
  unfold Env.bind at 1.
  match goal with |- context [Env.prop vessel "behavior" o ?st] =>
    destruct (prop_ok vessel "behavior" o st Hv) as (b & Hb) end.
  rewrite Hb.
  destruct (Js.is_str b "fishing"); cbn; eauto.
Qed.

Lemma checkZone_inv api data o s r s' :
  checkZone api data o s = (Ok r, s') ->
  exists ok err mockResults,
    r = respond ok err data mockResults
    /\ length mockResults = length data
    /\ (forall i vessel row,
          data !! i = Some vessel -> mockResults !! i = Some row ->
          exists inMPA inEEZ isFishing in_port,
            row = row_of vessel inMPA inEEZ isFishing in_port i).
Proof.
  unfold checkZone, Env.catch.
  match goal with |- context [match ?m o s with _ => _ end] =>
    destruct (m o s) as [[r0|e] s1] eqn:E end.
  - intros H. inversion H; subst r0 s1; clear H.
    apply bind_ok_inv in E as (firstVessel & s2 & _ & E).
    apply bind_ok_inv in E as (u & s3 & _ & E).
    apply bind_ok_inv in E as (result & s4 & _ & E).
    apply bind_ok_inv in E as (rows & s5 & Hrows & E).
    unfold Env.ret in E. inversion E; subst; clear E.
    exists true, None, rows. split; [reflexivity|].
    split; [eapply mapi_from_length, Hrows|].
    intros i vessel row Hv Hr.
    destruct (mapi_from_lookup _ _ _ _ _ _ _ Hrows i vessel Hv) as (y & t1 & t2 & Hf & Hy).
    rewrite Hr in Hy. inversion Hy; subst y.
    apply bind_ok_inv in Hf as (first & t3 & _ & Hf).
    eapply mock_row_inv, Hf.
  - intros H. apply bind_ok_inv in H as (rows & s2 & Hrows & H).
    unfold Env.ret in H. inversion H; subst; clear H.
    exists false, (Some (Err.message_of e)), rows. split; [reflexivity|].
    split; [eapply mapi_from_length, Hrows|].
    intros i vessel row Hv Hr.
    destruct (mapi_from_lookup _ _ _ _ _ _ _ Hrows i vessel Hv) as (y & t1 & t2 & Hf & Hy).
    rewrite Hr in Hy. inversion Hy; subst y.
    eapply mock_row_inv, Hf.
Qed.


End SingleFacts.


Lemma formatErrorResponse_inv (items : list value) (err : error) o s r s' :
  CheckZone.formatErrorResponse (VArr items) err o s = (Ok r, s') ->
  success r = false
  /\ total_vessels r = length items
  /\ length (results r) = length items
  /\ violations r = VInt (Z.of_nat (length (results r)))
  /\ mpa_violations r = count (CheckZone.is_high_in "mpa") (results r)
  /\ eez_violations r = count (CheckZone.is_high_in "eez") (results r).
Proof.
  unfold CheckZone.formatErrorResponse. intros H.
  apply bind_ok_inv in H as (rows & s1 & Hrows & H).
  apply bind_ok_inv in H as (n & s2 & Hn & H).
  cbn in Hn. inversion Hn; subst n s2; clear Hn.
  unfold Env.ret in H. inversion H; subst; clear H. cbn.
  pose proof (mapi_from_length _ _ _ _ _ _ _ Hrows) as Hlen.
  repeat split; auto.
Qed.




(** C2, as the code has it.  The single-coordinate [checkZone] computes
    the three tallies from the rows it returns, on the success and on the
    failure path; [checkZone.ts] copies the service's tallies on success
    (0 when absent) and counts every mock row as a violation on failure. *)
Theorem tallies_of_the_response :
  (forall api o data r,
      Env.run (SingleCoordinate.checkZone api data) o = Ok r ->
      violations r = count SingleCoordinate.is_illegal (results r)
      /\ mpa_violations r = count SingleCoordinate.is_mpa_violation (results r)
      /\ eez_violations r = count SingleCoordinate.is_eez_violation (results r))
  /\ (forall result vessels o s r s',
        CheckZone.formatAPIResponse result (VArr vessels) o s = (Ok r, s') ->
        violations r = Js.or (Js.get_opt result "violations") (VInt 0)
        /\ mpa_violations r = Js.or (Js.get_opt result "mpa_violations") (VInt 0)
        /\ eez_violations r = Js.or (Js.get_opt result "eez_violations") (VInt 0))
  /\ (forall vessels err o s r s',
        CheckZone.formatErrorResponse (VArr vessels) err o s = (Ok r, s') ->
        violations r = VInt (Z.of_nat (length (results r)))
        /\ mpa_violations r = count (CheckZone.is_high_in "mpa") (results r)
        /\ eez_violations r = count (CheckZone.is_high_in "eez") (results r)).
Proof.
  split; [|split].
  - intros api o data r Hrun. unfold Env.run in Hrun.
    destruct (SingleCoordinate.checkZone api data o Env.start) as [[r0|e] s'] eqn:E;
      cbn in Hrun; [|discriminate].
    inversion Hrun; subst r0.
    destruct (checkZone_inv _ _ _ _ _ _ E) as (ok & err & rows & -> & _).
    repeat split.
  - intros result vessels o s r s' H.
    apply formatAPIResponse_inv in H as (_ & _ & _ & Hv & Hm & He & _). auto.
  - intros vessels err o s r s' H.
    apply formatErrorResponse_inv in H as (_ & _ & _ & Hv & Hm & He). auto.
Qed.

Lemma tallies_of_the_response_witness :
  (exists r,
      Env.run (SingleCoordinate.checkZone failing_service four_vessels) high_draws = Ok r
      /\ violations r = count SingleCoordinate.is_illegal (results r))
  /\ (exists r,
        Env.run (CheckZone.formatAPIResponse (VObj [("results", VArr [])]) (VArr four_vessels))
          low_draws = Ok r
        /\ violations r = VInt 0)
  /\ (exists r,
        Env.run (CheckZone.formatErrorResponse (VArr four_vessels) (JsError "down"))
          low_draws = Ok r
        /\ violations r = VInt (Z.of_nat (length (results r)))).
Proof.
  destruct tallies_of_the_response as (HA & HB & HC).
  split; [|split].
  - assert (Hrun : exists r,
               Env.run (SingleCoordinate.checkZone failing_service four_vessels) high_draws
               = Ok r).
    { eexists. vm_compute. reflexivity. }
    destruct Hrun as (r & Hr). exists r. split; [exact Hr|].
    exact (proj1 (HA failing_service high_draws four_vessels r Hr)).
  - assert (Hrun : exists r s',
               CheckZone.formatAPIResponse (VObj [("results", VArr [])]) (VArr four_vessels)
                 low_draws Env.start = (Ok r, s')).
    { eexists _, _. vm_compute. reflexivity. }
    destruct Hrun as (r & s' & Hr). exists r. unfold Env.run. rewrite Hr.
    split; [reflexivity|].
    exact (proj1 (HB _ _ _ _ _ _ Hr)).
  - assert (Hrun : exists r s',
               CheckZone.formatErrorResponse (VArr four_vessels) (JsError "down")
                 low_draws Env.start = (Ok r, s')).
    { eexists _, _. vm_compute. reflexivity. }
    destruct Hrun as (r & s' & Hr). exists r. unfold Env.run. rewrite Hr.
    split; [reflexivity|].
    exact (proj1 (HC _ _ _ _ _ _ Hr)).
Defined.

(** C2 as stated fails in [checkZone.ts].  On success the service's
    [violations] (3 here) is passed on beside a single row, which the page
    flags as illegal fishing; on failure every mock row is counted (4 here)
    while none of them is flagged. *)
Lemma backend_tallies_are_passed_on :
  (exists r page,
      Env.run (CheckZone.checkZone partial_service (VArr four_vessels)) low_draws = Ok r
      /\ Env.run (mapApiResponseToLocalFormat r) low_draws = Ok page
      /\ local_violations page = VInt 3
      /\ count SingleCoordinate.is_illegal (local_results page) = VInt 1)
  /\ (exists r page,
        Env.run (CheckZone.checkZone failing_service (VArr four_vessels)) low_draws = Ok r
        /\ success r = false
        /\ Env.run (mapApiResponseToLocalFormat r) low_draws = Ok page
        /\ local_violations page = VInt 4
        /\ count SingleCoordinate.is_illegal (local_results page) = VInt 0).
Proof.
  split.
  - eexists _, _. split; [vm_compute; reflexivity|].
    split; [vm_compute; reflexivity|]. split; vm_compute; reflexivity.
  - eexists _, _. split; [vm_compute; reflexivity|].
    split; [reflexivity|].
    split; [vm_compute; reflexivity|]. split; vm_compute; reflexivity.
Qed.


(** ** Export of an empty collection *)

(** C8, as the code has it.  [convertToCSV] returns the empty string for an
    empty collection, and [downloadData] then hands [downloadFile] a CSV
    file with an empty body; nothing is thrown.  The guard is in the
    caller: [handleExport] does nothing when there are no rows. *)
Theorem empty_export_yields_empty_file
    (o : Env.oracle) (fname : string) (stamp : option bool)
    (n : nat) (v m e : value) (format : Download.file_type) :
  Download.convertToCSV (VArr []) = Ok ""
  /\ (exists name,
        Env.run (Download.downloadData (VArr [])
                   (Download.mkOptions fname (Some Download.csv) stamp)) o
        = Ok (Download.downloadFile name "" "text/csv"))
  /\ Env.run (ZoneViolation.handleExport (Some (mkLocal n v m e [])) format) o = Ok None.
Proof.
  split; [reflexivity | split; [|reflexivity]].
  unfold Env.run, Download.downloadData, Env.catch.
  destruct stamp as [[|]|]; cbn; eauto.
Qed.

(** C8 as stated fails: exporting the empty list as CSV raises nothing and
    produces a file that holds the byte-order mark only. *)
Lemma empty_export_raises_nothing :
  Download.convertToCSV (VArr []) = Ok ""
  /\ Env.run (Download.downloadData (VArr [])
                (Download.mkOptions "zone-violations" (Some Download.csv) (Some true)))
       low_draws
     = Ok (Download.mkDownload "zone-violations_2024-01-15.csv" Download.BOM
             "text/csv;charset=utf-8").
Proof. split; vm_compute; reflexivity. Qed.

(** ** Coordinates of the vessels that survive ingestion *)

(** C9 fails on the manual CSV path when the header names a coordinate
    column twice: the first [latitude] column is validated, the last one is
    stored.  The row below is accepted with latitude 999. *)
Theorem duplicate_coordinate_column_is_not_validated :
  ZoneViolation.parse_csv
    ("latitude,longitude,latitude" +:+ String Str.LF "10,20,999")
  = ZoneViolation.Vessels [VObj [("latitude", VInt 999); ("longitude", VInt 20)]] []
  /\ Num.le (Num.of_Z 999) (Num.of_Z 90) = false.
Proof. split; vm_compute; reflexivity. Qed.


(** ** Splitting and joining text *)

Section StringFacts.

Lemma append_cons (x : ascii) (a b : string) : String x a +:+ b = String x (a +:+ b).
Proof. reflexivity. Qed.

Lemma append_empty (b : string) : "" +:+ b = b.
Proof. reflexivity. Qed.

Lemma append_assoc (a b c : string) : (a +:+ b) +:+ c = a +:+ (b +:+ c).
Proof.
  induction a as [|x a IH]; rewrite ?append_empty, ?append_cons; [reflexivity|].
  f_equal. exact IH.
Qed.

Lemma occurrences_app (c : ascii) (a b : string) :
  occurrences c (a +:+ b) = (occurrences c a + occurrences c b)%nat.
Proof.
  induction a as [|x a IH]; rewrite ?append_empty, ?append_cons; cbn [occurrences];
    [reflexivity | rewrite IH; lia].
Qed.

Lemma split_nonempty (c : ascii) (s : string) : Str.split c s <> [].
Proof.
  destruct s as [|a r]; cbn; [discriminate|].
  destruct (Ascii.eqb a c); [discriminate|].
  destruct (Str.split c r); discriminate.
Qed.

Lemma split_length (c : ascii) (s : string) :
  length (Str.split c s) = S (occurrences c s).
Proof.
  induction s as [|a r IH]; cbn; [reflexivity|].
  destruct (Ascii.eqb a c); cbn; [now rewrite IH|].
  destruct (Str.split c r) eqn:E; [now apply split_nonempty in E | exact IH].
Qed.

Lemma split_free (c : ascii) (s : string) :
  occurrences c s = 0%nat -> Str.split c s = [s].
Proof.
  induction s as [|a r IH]; cbn; [reflexivity|].
  destruct (Ascii.eqb a c); [discriminate|]. cbn. intros H. now rewrite IH.
Qed.

Lemma split_app_sep (c : ascii) (x r : string) :
  occurrences c x = 0%nat ->
  Str.split c (x +:+ String c r) = x :: Str.split c r.
Proof.
  induction x as [|a x IH]; rewrite ?append_empty, ?append_cons; cbn [Str.split occurrences].
  - now rewrite Ascii.eqb_refl.
  - destruct (Ascii.eqb a c); [discriminate|]. cbn [Nat.add]. intros H. now rewrite IH.
Qed.

Lemma join_cons2 (sep x y : string) (r : list string) :
  Str.join sep (x :: y :: r) = x +:+ sep +:+ Str.join sep (y :: r).
Proof. reflexivity. Qed.

Lemma split_join (c : ascii) (l : list string) :
  l <> [] ->
  Forall (fun s => occurrences c s = 0%nat) l ->
  Str.split c (Str.join (String c "") l) = l.
Proof.
  induction l as [|x [|y r] IH]; intros Hne Hall; [congruence | |].
  - cbn [Str.join]. apply split_free. now inversion Hall.
  - rewrite join_cons2, append_cons, append_empty.
    inversion Hall; subst. rewrite split_app_sep by assumption.
    f_equal. apply IH; [discriminate | assumption].
Qed.

Lemma occurrences_join (c : ascii) (l : list string) :
  occurrences c (Str.join (String c "") l)
  = (pred (length l) + list_sum (map (occurrences c) l))%nat.
Proof.
  induction l as [|x [|y r] IH]; [reflexivity | |].
  - cbn [Str.join length pred map]. unfold list_sum. cbn [fold_right]. lia.
  - rewrite join_cons2, !occurrences_app, IH. cbn [occurrences length pred map].
    rewrite Ascii.eqb_refl. unfold list_sum. cbn [fold_right]. lia.
Qed.

Lemma occurrences_join_other (c d : ascii) (l : list string) :
  Ascii.eqb d c = false ->
  Forall (fun s => occurrences c s = 0%nat) l ->
  occurrences c (Str.join (String d "") l) = 0%nat.
Proof.
  intros Hd. induction l as [|x [|y r] IH]; intros Hall; [reflexivity | |].
  - cbn. now inversion Hall.
  - rewrite join_cons2, !occurrences_app. inversion Hall; subst.
    rewrite IH by assumption. cbn [occurrences]. rewrite Hd. lia.
Qed.

Lemma list_sum_zero (l : list nat) : list_sum l = 0%nat -> Forall (fun n => n = 0%nat) l.
Proof.
  induction l as [|n l IH]; intros H; [constructor|].
  change (n + list_sum l = 0)%nat in H.
  constructor; [lia | apply IH; lia].
Qed.

(** Splitting a joined line gives the pieces back exactly when the number
    of fields is unchanged. *)
Lemma split_join_same_length (c : ascii) (l : list string) :
  l <> [] ->
  length (Str.split c (Str.join (String c "") l)) = length l ->
  Str.split c (Str.join (String c "") l) = l.
Proof.
  intros Hne Hlen. apply split_join; [exact Hne|].
  rewrite split_length, occurrences_join in Hlen.
  assert (Hz : list_sum (map (occurrences c) l) = 0%nat).
  { destruct l; [congruence | cbn in *; lia]. }
  apply list_sum_zero in Hz. rewrite Forall_map in Hz. exact Hz.
Qed.

(** *** Trimming *)

Lemma ends_with_app (c : ascii) (a s : string) : ends_with c s -> ends_with c (a +:+ s).
Proof. intros (b & ->). exists (a +:+ b). symmetry. apply append_assoc. Qed.

Lemma ends_with_join (c : ascii) (sep : string) (l : list string) :
  l <> [] -> Forall (ends_with c) l -> ends_with c (Str.join sep l).
Proof.
  induction l as [|x [|y r] IH]; intros Hne Hall; [congruence | |].
  - cbn. now inversion Hall.
  - rewrite join_cons2. inversion Hall; subst.
    do 2 apply ends_with_app. apply IH; [discriminate | assumption].
Qed.

Lemma append_not_empty (a : string) (c : ascii) : Str.eqb (a +:+ String c "") "" = false.
Proof. destruct a; reflexivity. Qed.

Lemma trimEnd_ends_with (c : ascii) (s : string) :
  Str.is_white c = false -> ends_with c s -> Str.trimEnd s = s.
Proof.
  intros Hc (body & ->).
  induction body as [|a b IH]; rewrite ?append_empty, ?append_cons; cbn [Str.trimEnd].
  - now rewrite Hc.
  - rewrite IH, append_not_empty, andb_false_r. reflexivity.
Qed.

Lemma trim_visible_ends (c d : ascii) (r : string) :
  Str.is_white c = false -> Str.is_white d = false ->
  ends_with d (String c r) -> Str.trim (String c r) = String c r.
Proof.
  intros Hc Hd He. unfold Str.trim. cbn [Str.trimStart]. rewrite Hc.
  eapply trimEnd_ends_with; eassumption.
Qed.

(** *** A quoted cell is not a number *)

Lemma trim_quoted (r : string) :
  exists r', Str.trim (String Str.quote r) = String Str.quote r'.
Proof. unfold Str.trim. cbn. eauto. Qed.

Lemma radix_literal_quoted (r : string) :
  NumStr.radix_literal (String Str.quote r) = None.
Proof. destruct r; reflexivity. Qed.

Lemma unsigned_decimal_quoted (r : string) :
  NumStr.unsigned_decimal (String Str.quote r) = None.
Proof. reflexivity. Qed.

Lemma StringToNumber_quoted (r : string) :
  NumStr.StringToNumber (String Str.quote r) = NaN.
Proof.
  unfold NumStr.StringToNumber.
  destruct (trim_quoted r) as (r' & ->).
  rewrite radix_literal_quoted.
  change (NumStr.split_sign (String Str.quote r')) with (false, String Str.quote r').
  change (Str.eqb (String Str.quote r') "") with false.
  change (Str.eqb (String Str.quote r') "Infinity") with false.
  cbv iota beta. now rewrite unsigned_decimal_quoted.
Qed.

End StringFacts.


(** ** Reading an exported CSV back *)

Section RoundTripFacts.

Lemma cell_quoted (v : value) : quoted (Download.cell v).
Proof. unfold quoted, Download.cell. rewrite append_cons. eauto. Qed.

Lemma get_key_some (row : value) (k : string) :
  Js.is_nullish row = false -> exists v, Js.get_key row k = Some v.
Proof. destruct row; try discriminate; intros _; cbn; eauto. Qed.

Lemma cell_at_quoted (row : value) (k : string) :
  Js.is_nullish row = false -> quoted (cell_at row k).
Proof.
  intros H. unfold cell_at. destruct (get_key_some row k H) as (v & ->).
  apply cell_quoted.
Qed.

Lemma row_cells_ok (headers : list string) (row : value) :
  Js.is_nullish row = false ->
  Download.row_cells headers row = Ok (map (cell_at row) headers).
Proof.
  intros H. induction headers as [|h hs IH]; [reflexivity|].
  cbn [Download.row_cells map]. unfold cell_at at 1.
  destruct (get_key_some row h H) as (v & ->). now rewrite IH.
Qed.

Lemma rows_of_ok (headers : list string) (data : list value) :
  Forall (fun row => Js.is_nullish row = false) data ->
  Download.rows_of headers data = Ok (map (line_of headers) data).
Proof.
  induction 1 as [|row data Hrow _ IH]; [reflexivity|].
  cbn [Download.rows_of map]. rewrite (row_cells_ok _ _ Hrow), IH. reflexivity.
Qed.

Lemma quoted_ends (s : string) : quoted s -> ends_with Str.quote s.
Proof. intros (b & ->). exists (String Str.quote b). reflexivity. Qed.

Lemma nth_quoted (cells : list string) (i : nat) :
  Forall quoted cells -> (i < length cells)%nat -> quoted (nth i cells "").
Proof.
  intros Hall Hi. rewrite Forall_forall in Hall. apply Hall.
  apply list_elem_of_In, nth_In, Hi.
Qed.

Lemma trimmed_quoted_is_nan (s : string) :
  quoted s -> NumStr.StringToNumber (Str.trim s) = NaN.
Proof.
  intros (b & ->). destruct (trim_quoted (b +:+ String Str.quote "")) as (r' & ->).
  apply StringToNumber_quoted.
Qed.

(** A line of quoted cells is rejected: either the number of columns is
    off, or the latitude cell, quotes included, is not a number. *)
Lemma parse_line_rejects_quoted
    (headers : list string) (latIndex lonIndex lineNum : nat) (cells : list string) :
  cells <> [] ->
  Forall quoted cells ->
  length headers = length cells ->
  (latIndex < length headers)%nat ->
  exists t,
    ZoneViolation.parse_line headers latIndex lonIndex lineNum
      (Str.join (String Str.comma "") cells) = inl t.
Proof.
  intros Hne Hq Hlen Hlat. unfold ZoneViolation.parse_line.
  rewrite length_map.
  destruct (length (Str.split Str.comma (Str.join (String Str.comma "") cells))
            =? length headers)%nat eqn:E; cbn [negb]; [|eauto].
  apply Nat.eqb_eq in E. rewrite Hlen in E.
  rewrite (split_join_same_length _ _ Hne E).
  change "" with (Str.trim "") at 1. rewrite map_nth.
  rewrite trimmed_quoted_is_nan; [cbn; eauto|].
  apply nth_quoted; [exact Hq | lia].
Qed.

Lemma imap_all_left {A B C : Type} (l : list A) :
  forall f : nat -> A -> B + C,
    (forall i x, In x l -> exists t, f i x = inl t) ->
    ZoneViolation.rights (imap f l) = []
    /\ length (ZoneViolation.lefts (imap f l)) = length l.
Proof.
  induction l as [|x l IH]; intros f Hf; [split; reflexivity|].
  destruct (Hf 0%nat x (or_introl eq_refl)) as (t & Ht).
  destruct (IH (f ∘ S)) as (Hr & Hl).
  { intros i y Hy. apply Hf. now right. }
  cbn [imap ZoneViolation.rights ZoneViolation.lefts]. rewrite Ht.
  cbn [length]. rewrite Hr, Hl. split; reflexivity.
Qed.

Lemma indexOf_lt (x : string) (l : list string) (i : nat) :
  Str.indexOf x l = Some i -> (i < length l)%nat.
Proof.
  revert i. induction l as [|y r IH]; intros i; cbn; [discriminate|].
  destruct (Str.eqb y x).
  - intros H. inversion H. lia.
  - destruct (Str.indexOf x r); cbn; [|discriminate].
    intros H. inversion H. specialize (IH _ eq_refl). lia.
Qed.

Lemma join_starts (sep : string) (c : ascii) (k : string) (ks : list string) :
  exists tail, Str.join sep (String c k :: ks) = String c tail.
Proof.
  destruct ks as [|y r]; [cbn; eauto|].
  rewrite join_cons2, append_cons. eauto.
Qed.

Lemma clean_key_inv (k : string) :
  clean_key k = true ->
  (exists c r, k = String c r /\ Str.is_white c = false)
  /\ occurrences Str.comma k = 0%nat
  /\ occurrences Str.LF k = 0%nat.
Proof.
  unfold clean_key, free_of. rewrite !andb_true_iff, !Nat.eqb_eq.
  intros ((H1 & H2) & H3). repeat split; auto.
  destruct k as [|c r]; [discriminate|].
  exists c, r. split; [reflexivity|]. now apply negb_true_iff.
Qed.

End RoundTripFacts.


Section ExportedText.

Variables (headers : list string) (data : list value).

Hypothesis headers_present : headers <> [].
Hypothesis data_present : data <> [].
Hypothesis headers_clean : forallb clean_key headers = true.
Hypothesis data_single_line : forallb (single_line headers) data = true.

Let header_line : string := Str.join (String Str.comma "") headers.
Let lines : list string := map (line_of headers) data.
Let text : string := Str.join (String Str.LF "") (header_line :: lines).

Lemma data_not_nullish : Forall (fun row => Js.is_nullish row = false) data.
Proof.
  rewrite Forall_forall. intros row Hin.
  rewrite forallb_forall in data_single_line.
  apply list_elem_of_In, data_single_line in Hin.
  unfold single_line in Hin. apply andb_true_iff in Hin as (H & _).
  now apply negb_true_iff.
Qed.

Lemma cells_quoted (row : value) :
  In row data -> Forall quoted (map (cell_at row) headers).
Proof.
  intros Hin. rewrite Forall_map, Forall_forall. intros h _.
  apply cell_at_quoted.
  pose proof data_not_nullish as H. rewrite Forall_forall in H.
  apply H. now apply list_elem_of_In.
Qed.

Lemma cells_present (row : value) : map (cell_at row) headers <> [].
Proof. destruct headers; [now elim headers_present | discriminate]. Qed.

Lemma header_line_free_of_LF : occurrences Str.LF header_line = 0%nat.
Proof.
  apply occurrences_join_other; [reflexivity|].
  rewrite Forall_forall. intros k Hk.
  rewrite forallb_forall in headers_clean.
  apply list_elem_of_In, headers_clean in Hk. now apply clean_key_inv in Hk.
Qed.

Lemma headers_free_of_comma : Forall (fun k => occurrences Str.comma k = 0%nat) headers.
Proof.
  rewrite Forall_forall. intros k Hk.
  rewrite forallb_forall in headers_clean.
  apply list_elem_of_In, headers_clean in Hk. now apply clean_key_inv in Hk.
Qed.

Lemma lines_free_of_LF : Forall (fun l => occurrences Str.LF l = 0%nat) lines.
Proof.
  unfold lines. rewrite Forall_map, Forall_forall. intros row Hin.
  unfold line_of. apply (occurrences_join_other Str.LF Str.comma); [reflexivity|].
  rewrite Forall_map, Forall_forall. intros h Hh.
  rewrite forallb_forall in data_single_line.
  apply list_elem_of_In, data_single_line in Hin.
  unfold single_line in Hin. apply andb_true_iff in Hin as (_ & Hcells).
  rewrite forallb_forall in Hcells.
  apply list_elem_of_In, Hcells in Hh. now apply Nat.eqb_eq.
Qed.

Lemma lines_end_quoted : Forall (ends_with Str.quote) lines.
Proof.
  unfold lines. rewrite Forall_map, Forall_forall. intros row Hin.
  apply ends_with_join; [apply cells_present|].
  eapply Forall_impl; [apply cells_quoted; now apply list_elem_of_In|].
  intros s. apply quoted_ends.
Qed.

Lemma lines_present : lines <> [].
Proof. unfold lines. destruct data; [now elim data_present | discriminate]. Qed.

Lemma text_trim : Str.trim text = text /\ Str.eqb text "" = false.
Proof.
  assert (Hstart : exists c tail, text = String c tail /\ Str.is_white c = false).
  { destruct headers as [|k ks] eqn:Eh; [now elim headers_present|].
    assert (Hk : clean_key k = true).
    { pose proof headers_clean as H. cbn in H. now apply andb_true_iff in H. }
    apply clean_key_inv in Hk as ((c & r & -> & Hc) & _).
    destruct (join_starts (String Str.comma "") c r ks) as (t1 & Ht1).
    unfold text, header_line. rewrite Ht1.
    destruct (join_starts (String Str.LF "") c t1 lines) as (t2 & Ht2).
    rewrite Ht2. eauto. }
  destruct Hstart as (c & tail & Htext & Hc).
  assert (Hend : ends_with Str.quote text).
  { unfold text. destruct lines as [|l ls] eqn:El; [now elim lines_present|].
    rewrite join_cons2. do 2 apply ends_with_app.
    apply ends_with_join; [discriminate|]. rewrite <- El. apply lines_end_quoted. }
  rewrite Htext in *. split; [|reflexivity].
  eapply trim_visible_ends; [exact Hc | | exact Hend]. reflexivity.
Qed.

Lemma text_lines : Str.split Str.LF text = header_line :: lines.
Proof.
  unfold text. apply split_join; [discriminate|].
  constructor; [apply header_line_free_of_LF | apply lines_free_of_LF].
Qed.

Lemma header_fields : Str.split Str.comma header_line = headers.
Proof. apply split_join; [exact headers_present | apply headers_free_of_comma]. Qed.

(** No line of the exported text is accepted by the page's CSV parser. *)
Lemma exported_text_is_rejected :
  ZoneViolation.parse_csv text = ZoneViolation.MissingColumns
  \/ exists toasts,
       ZoneViolation.parse_csv text = ZoneViolation.NoValidRows toasts
       /\ length toasts = length data.
Proof.
  unfold ZoneViolation.parse_csv.
  destruct text_trim as (-> & ->). rewrite text_lines.
  assert (Hlen : (length (header_line :: lines) <? 2)%nat = false).
  { destruct lines eqn:E; [now elim lines_present | reflexivity]. }
  rewrite Hlen. cbn [hd tl]. rewrite header_fields.
  set (names := map (fun h => Str.toLowerCase (Str.trim h)) headers).
  destruct (Str.indexOf "latitude" names) as [latIndex|] eqn:Elat; [|now left].
  destruct (Str.indexOf "longitude" names) as [lonIndex|] eqn:Elon; [|now left].
  right.
  destruct (imap_all_left (B := ZoneViolation.toast) (C := value) lines
              (ZoneViolation.parse_line names latIndex lonIndex)) as (Hr & Hl).
  { intros i line Hin. unfold lines in Hin. apply in_map_iff in Hin as (row & <- & Hrow).
    unfold line_of. apply parse_line_rejects_quoted.
    - apply cells_present.
    - now apply cells_quoted.
    - unfold names. now rewrite !length_map.
    - eapply indexOf_lt, Elat. }
  rewrite Hr. eexists. split; [reflexivity|].
  rewrite Hl. unfold lines. apply length_map.
Qed.

End ExportedText.

(** C7, as the code has it.  [convertToCSV] wraps every cell in double
    quotes and the page's CSV parser does not take them off, so an
    exported result list is not read back: for records whose property
    names are plain (no comma, no line break, no leading white space) and
    whose cells hold no line break, the parser finds no valid row in the
    exported text (or no coordinate columns at all). *)
Theorem exported_csv_is_not_read_back
    (first : value) (rest : list value) (headers : list string) :
  Js.keys first = Some headers ->
  headers <> [] ->
  forallb clean_key headers = true ->
  forallb (single_line headers) (first :: rest) = true ->
  exists text,
    Download.convertToCSV (VArr (first :: rest)) = Ok text
    /\ (ZoneViolation.parse_csv text = ZoneViolation.MissingColumns
        \/ exists toasts,
             ZoneViolation.parse_csv text = ZoneViolation.NoValidRows toasts
             /\ length toasts = length (first :: rest)).
Proof.
  intros Hkeys Hne Hclean Hdata.
  assert (Hdata_ne : first :: rest <> []) by discriminate.
  exists (Str.join (String Str.LF "")
            (Str.join (String Str.comma "") headers :: map (line_of headers) (first :: rest))).
  split.
  - unfold Download.convertToCSV. rewrite Hkeys.
    rewrite rows_of_ok; [reflexivity|].
    exact (data_not_nullish headers (first :: rest) Hdata).
  - exact (exported_text_is_rejected headers (first :: rest) Hne Hdata_ne Hclean Hdata).
Qed.

Lemma exported_csv_is_not_read_back_witness :
  exists text,
    Download.convertToCSV (VArr sample_results) = Ok text
    /\ (ZoneViolation.parse_csv text = ZoneViolation.MissingColumns
        \/ exists toasts,
             ZoneViolation.parse_csv text = ZoneViolation.NoValidRows toasts
             /\ length toasts = 1%nat).
Proof.
  apply (exported_csv_is_not_read_back (hd VNull sample_results) (tl sample_results)
           ["vessel_id"; "timestamp"; "latitude"; "longitude"; "behavior";
            "in_mpa"; "in_eez"; "in_port"; "risk_level"; "illegal_fishing"]).
  - reflexivity.
  - discriminate.
  - vm_compute. reflexivity.
  - vm_compute. reflexivity.
Defined.

(** C7 as stated fails: the one-row result list below is exported as a
    header line and a line of quoted cells, and reading that text back
    yields no vessel, the row being refused for its coordinates. *)
Lemma exported_row_is_refused_on_reading :
  exists text,
    Download.convertToCSV (VArr sample_results) = Ok text
    /\ ZoneViolation.parse_csv text
       = ZoneViolation.NoValidRows [ZoneViolation.InvalidCoordinates 2].
Proof.
  eexists. split.
  - vm_compute. reflexivity.
  - vm_compute. reflexivity.
Qed.


(** ** Where the coordinate invariant does hold *)

Section RangeFacts.

Lemma range_check (x : number) (a b : Z) :
  Num.isNaN x = false ->
  Num.lt x (Num.of_Z a) = false ->
  Num.gt x (Num.of_Z b) = false ->
  exists q, x = Fin q /\ (inject_Z a <= q)%Q /\ (q <= inject_Z b)%Q.
Proof.
  destruct x as [| | |q]; cbn; try discriminate. intros _ Ha Hb.
  exists q. split; [reflexivity|].
  apply negb_false_iff in Ha, Hb. now rewrite !Qle_bool_iff in *.
Qed.

Lemma range_checks (lat lon : number) :
  Num.isNaN lat || Num.isNaN lon
  || Num.lt lat (Num.of_Z (-90)) || Num.gt lat (Num.of_Z 90)
  || Num.lt lon (Num.of_Z (-180)) || Num.gt lon (Num.of_Z 180) = false ->
  exists p q, lat = Fin p /\ lon = Fin q
    /\ (inject_Z (-90) <= p)%Q /\ (p <= inject_Z 90)%Q
    /\ (inject_Z (-180) <= q)%Q /\ (q <= inject_Z 180)%Q.
Proof.
  rewrite !orb_false_iff. intros (((((H1 & H2) & H3) & H4) & H5) & H6).
  destruct (range_check lat _ _ H1 H3 H4) as (p & -> & ? & ?).
  destruct (range_check lon _ _ H2 H5 H6) as (q & -> & ? & ?).
  exists p, q. repeat split; assumption.
Qed.

Lemma transform_in_range (row : value) o s v s' :
  VesselData.transform row o s = (Ok (Some v), s') -> in_range v.
Proof.
  unfold VesselData.transform. intros H.
  apply bind_ok_inv in H as (lat & s1 & _ & H).
  match type of H with context [if ?c then _ else _] => destruct c eqn:E end;
    unfold Env.ret in H; inversion H; subst; clear H.
  apply range_checks in E as (p & q & Hp & Hq & Hr).
  exists p, q. rewrite <- Hp, <- Hq. split; [reflexivity | split; [reflexivity | exact Hr]].
Qed.

Lemma mapi_from_elem {A B : Type} (f : nat -> A -> Env.M B) (items : list A) :
  forall i o s ys s',
    Env.mapi_from f i items o s = (Ok ys, s') ->
    forall y, In y ys -> exists j x s1 s2, f j x o s1 = (Ok y, s2).
Proof.
  induction items as [|x r IH]; intros i o s ys s' H y Hy; cbn [Env.mapi_from] in H.
  - unfold Env.ret in H. inversion H; subst. destruct Hy.
  - apply bind_ok_inv in H as (y0 & s1 & Hy0 & H).
    apply bind_ok_inv in H as (ys' & s2 & Hr & H).
    unfold Env.ret in H. inversion H; subst. destruct Hy as [<- | Hy]; [eauto 6|].
    eapply IH; eassumption.
Qed.

(** Every vessel [processVesselData] returns has coordinates in range. *)
Lemma processVesselData_in_range (input : VesselData.payload) o vessels :
  Env.run (VesselData.processVesselData input) o = Ok vessels ->
  Forall in_range vessels.
Proof.
  unfold Env.run, VesselData.processVesselData, Env.catch.
  match goal with |- context [match ?m o Env.start with _ => _ end] =>
    destruct (m o Env.start) as [[r|e] s1] eqn:E end; cbn; [|discriminate].
  intros H. inversion H; subst r; clear H.
  apply bind_ok_inv in E as (data & s2 & _ & E).
  apply bind_ok_inv in E as (found & s3 & Hmap & E).
  unfold Env.ret in E. inversion E; subst; clear E.
  rewrite Forall_forall. intros v Hv.
  unfold VesselData.somes in Hv. apply list_elem_of_omap in Hv as (x & Hx & Hsome).
  cbn in Hsome. subst x.
  unfold VesselData.map_array in Hmap. destruct data; try discriminate.
  apply list_elem_of_In in Hx.
  destruct (mapi_from_elem _ _ _ _ _ _ _ Hmap _ Hx) as (j & row & t1 & t2 & Ht).
  eapply transform_in_range, Ht.
Qed.

(** *** The manual CSV path, when no column name is repeated *)

Lemma fill_other (k : string) (headers values : list string) :
  forall obj, ~ In k headers ->
    Js.lookup k (ZoneViolation.fill headers values obj) = Js.lookup k obj.
Proof.
  revert values. induction headers as [|h hs IH]; intros values obj Hk; [reflexivity|].
  assert (Hne : Str.eqb h k = false).
  { apply String.eqb_neq. intros ->. apply Hk. now left. }
  assert (Hk' : ~ In k hs) by (intros H; apply Hk; now right).
  destruct values as [|v vs]; cbn [ZoneViolation.fill];
    rewrite IH by assumption; now apply lookup_assign_ne.
Qed.

Lemma fill_coordinate (k : string) (headers : list string) :
  forall (values : list string) obj i,
    NoDup headers ->
    Str.indexOf k headers = Some i ->
    length values = length headers ->
    Str.eqb k "latitude" || Str.eqb k "longitude" = true ->
    Js.lookup k (ZoneViolation.fill headers values obj)
    = VNum (NumStr.StringToNumber (nth i values "")).
Proof.
  induction headers as [|h hs IH]; intros values obj i Hnd Hi Hlen Hk; [discriminate|].
  destruct values as [|v vs]; [discriminate|].
  apply NoDup_cons in Hnd as (Hh & Hnd). cbn [Str.indexOf] in Hi.
  cbn [ZoneViolation.fill].
  destruct (Str.eqb h k) eqn:E.
  - apply String.eqb_eq in E. subst h. inversion Hi; subst i.
    rewrite fill_other by (now rewrite <- list_elem_of_In).
    rewrite lookup_assign_eq, Hk. reflexivity.
  - destruct (Str.indexOf k hs) as [j|] eqn:Ej; [|discriminate].
    cbn in Hi. inversion Hi; subst i.
    rewrite (IH vs _ j Hnd eq_refl); [reflexivity | | exact Hk].
    cbn in Hlen. lia.
Qed.

Lemma parse_line_in_range headers latIndex lonIndex lineNum line v :
  NoDup headers ->
  Str.indexOf "latitude" headers = Some latIndex ->
  Str.indexOf "longitude" headers = Some lonIndex ->
  ZoneViolation.parse_line headers latIndex lonIndex lineNum line = inr v ->
  in_range v.
Proof.
  intros Hnd Hlat Hlon. unfold ZoneViolation.parse_line.
  set (values := map Str.trim (Str.split Str.comma line)).
  destruct (length values =? length headers)%nat eqn:Elen; cbn [negb]; [|discriminate].
  apply Nat.eqb_eq in Elen.
  set (lat := NumStr.StringToNumber (nth latIndex values "")).
  set (lon := NumStr.StringToNumber (nth lonIndex values "")).
  destruct (Num.isNaN lat || Num.isNaN lon) eqn:Enan; [discriminate|].
  match goal with |- (if ?c then _ else _) = _ -> _ => destruct c eqn:Erange end;
    [discriminate|].
  intros H. inversion H; subst v; clear H.
  destruct (range_checks lat lon) as (p & q & Hp & Hq & Hr).
  { rewrite Enan. cbn [orb]. exact Erange. }
  exists p, q. unfold Js.get_opt. cbn [Js.get].
  rewrite (fill_coordinate "latitude" headers values [] latIndex Hnd Hlat Elen eq_refl).
  rewrite (fill_coordinate "longitude" headers values [] lonIndex Hnd Hlon Elen eq_refl).
  fold lat lon. rewrite Hp, Hq. split; [reflexivity | split; [reflexivity | exact Hr]].
Qed.

Lemma rights_imap_elem {A B C : Type} (l : list A) :
  forall (f : nat -> A -> B + C) c,
    In c (ZoneViolation.rights (imap f l)) -> exists i x, f i x = inr c.
Proof.
  induction l as [|x l IH]; intros f c Hc; [destruct Hc|].
  cbn [imap ZoneViolation.rights] in Hc.
  destruct (f 0%nat x) as [b|c0] eqn:E.
  - destruct (IH (f ∘ S) c Hc) as (i & y & Hy). eauto.
  - destruct Hc as [<- | Hc]; [eauto|].
    destruct (IH (f ∘ S) c Hc) as (i & y & Hy). eauto.
Qed.

(** Every row the manual CSV path accepts has coordinates in range,
    provided the header names no column twice. *)
Lemma manual_rows_in_range (csvData : string) data toasts :
  NoDup (header_names csvData) ->
  ZoneViolation.parse_csv csvData = ZoneViolation.Vessels data toasts ->
  Forall in_range data.
Proof.
  unfold ZoneViolation.parse_csv, header_names. intros Hnd.
  destruct (Str.eqb (Str.trim csvData) ""); [discriminate|].
  destruct (length (Str.split Str.LF (Str.trim csvData)) <? 2)%nat; [discriminate|].
  set (names := map _ _) in *.
  destruct (Str.indexOf "latitude" names) as [latIndex|] eqn:Elat; [|discriminate].
  destruct (Str.indexOf "longitude" names) as [lonIndex|] eqn:Elon; [|discriminate].
  destruct (ZoneViolation.rights _) eqn:Er; [discriminate|].
  intros H. inversion H; subst; clear H.
  rewrite Forall_forall. intros row Hrow. apply list_elem_of_In in Hrow.
  rewrite <- Er in Hrow. apply rights_imap_elem in Hrow as (i & line & Hline).
  eapply parse_line_in_range; eassumption.
Qed.

End RangeFacts.


(** * Further properties of the code *)

(** ** The cache *)

(** X1.  A value stored by [set] at time [t] with a time to live [ttl] is
    what [get] returns, cache untouched, at every time up to [t + ttl];
    after that [get] returns [null] and the entry is gone.  Reading
    another key is not affected by the [set]. *)
Theorem cache_set_then_get
    (cache : ApiClient.ApiCache.t) (key other : string) (data : value) (ttl t now : Z) :
  let stored := ApiClient.ApiCache.set key data ttl t cache in
  (now <= t + ttl -> ApiClient.ApiCache.get key now stored = (data, stored))
  /\ (t + ttl < now -> ApiClient.ApiCache.get key now stored = (VNull, delete key cache))
  /\ (other <> key ->
      fst (ApiClient.ApiCache.get other now stored)
      = fst (ApiClient.ApiCache.get other now cache)).
Proof.
  intros stored. subst stored. unfold ApiClient.ApiCache.get, ApiClient.ApiCache.set.
  split; [|split].
  - intros H. rewrite lookup_insert_eq.
    destruct (now >? t + ttl) eqn:E; [lia | reflexivity].
  - intros H. rewrite lookup_insert_eq.
    destruct (now >? t + ttl) eqn:E; [|lia]. now rewrite delete_insert_eq.
  - intros H. rewrite lookup_insert_ne by congruence.
    destruct (cache !! other) as [[d ts]|]; [|reflexivity].
    destruct (now >? ts); reflexivity.
Qed.

Lemma cache_set_then_get_witness :
  let stored := ApiClient.ApiCache.set "k" (VInt 7) 1000 50 ApiClient.ApiCache.empty in
  ApiClient.ApiCache.get "k" 1050 stored = (VInt 7, stored)
  /\ ApiClient.ApiCache.get "k" 1051 stored = (VNull, delete "k" ApiClient.ApiCache.empty)
  /\ fst (ApiClient.ApiCache.get "j" 60 stored) = VNull.
Proof.
  intros stored.
  destruct (cache_set_then_get ApiClient.ApiCache.empty "k" "j" (VInt 7) 1000 50 1050)
    as (H1 & _ & _).
  destruct (cache_set_then_get ApiClient.ApiCache.empty "k" "j" (VInt 7) 1000 50 1051)
    as (_ & H2 & _).
  destruct (cache_set_then_get ApiClient.ApiCache.empty "k" "j" (VInt 7) 1000 50 60)
    as (_ & _ & H3).
  split; [apply H1; lia | split; [apply H2; lia |]].
  unfold stored. rewrite H3; [reflexivity | discriminate].
Defined.

(** ** Retry *)

Section RetryBounds.

Import ApiClient.

Context {T : Type}.

Lemma retry_extends (fn : nat -> outcome error T) (retries : nat) :
  forall delay tr, 0 < delay <= MAX_RETRY_DELAY ->
    exists ext,
      snd (retryRequest fn retries delay tr) = tr ++ ext
      /\ (1 <= attempts ext <= S retries)%nat
      /\ S (length (delays ext)) = attempts ext
      /\ Forall (fun d => delay <= d <= MAX_RETRY_DELAY) (delays ext).
Proof.
  induction retries as [|r IH]; intros delay tr Hd; cbn [retryRequest].
  - exists [Attempt].
    destruct (fn (attempts tr)) as [v|[m|m|e|x]]; cbn [snd];
      try destruct (no_retry e); repeat split; cbn; auto.
  - destruct (fn (attempts tr)) as [v|[m|m|e|x]];
      try (exists [Attempt]; repeat split; cbn; auto; lia).
    destruct (no_retry e); [exists [Attempt]; repeat split; cbn; auto; lia|].
    destruct (IH (Z.min (delay * 2) MAX_RETRY_DELAY) (tr ++ [Attempt; Sleep delay]))
      as (ext & Hext & Ha & Hl & Hf).
    { unfold MAX_RETRY_DELAY in *. lia. }
    exists (Attempt :: Sleep delay :: ext).
    rewrite Hext, <- app_assoc. split; [reflexivity|].
    change (attempts (Attempt :: Sleep delay :: ext)) with (S (attempts ext)).
    change (delays (Attempt :: Sleep delay :: ext)) with (delay :: delays ext).
    cbn [length]. repeat split; try lia.
    constructor; [lia|].
    eapply Forall_impl; [exact Hf|]. cbn. intros d Hdd.
    unfold MAX_RETRY_DELAY in *. lia.
Qed.

End RetryBounds.

(** X2.  Whatever the underlying call does, [retryRequest] calls it at
    least once and at most [retries + 1] times, waits exactly once between
    two calls, and with a first delay in (0, 5000] no wait is shorter than
    the first delay or longer than [MAX_RETRY_DELAY]. *)
Theorem retry_stays_within_budget
    (T : Type) (fn : nat -> outcome error T) (retries : nat) (delay : Z) :
  0 < delay <= ApiClient.MAX_RETRY_DELAY ->
  let tr := snd (ApiClient.retryRequest fn retries delay []) in
  (1 <= ApiClient.attempts tr <= retries + 1)%nat
  /\ S (length (ApiClient.delays tr)) = ApiClient.attempts tr
  /\ Forall (fun d => delay <= d <= ApiClient.MAX_RETRY_DELAY) (ApiClient.delays tr).
Proof.
  intros Hd tr.
  destruct (retry_extends fn retries delay [] Hd) as (ext & Hext & Ha & Hl & Hf).
  subst tr. rewrite Hext. cbn [app]. repeat split; try lia; assumption.
Qed.

Lemma retry_stays_within_budget_witness :
  let fn : nat -> outcome error value :=
    fun i => if (i <? 2)%nat then Throw (ApiErr (ApiClient.intercept (Some 503) VNull))
             else Ok (VStr "ok") in
  let tr := snd (ApiClient.retryRequest fn ApiClient.MAX_RETRIES
                   ApiClient.INITIAL_RETRY_DELAY []) in
  (1 <= ApiClient.attempts tr <= 4)%nat
  /\ S (length (ApiClient.delays tr)) = ApiClient.attempts tr.
Proof.
  intros fn tr.
  destruct (retry_stays_within_budget value fn ApiClient.MAX_RETRIES
              ApiClient.INITIAL_RETRY_DELAY) as (H1 & H2 & _).
  - unfold ApiClient.INITIAL_RETRY_DELAY, ApiClient.MAX_RETRY_DELAY. lia.
  - split; [exact H1 | exact H2].
Defined.

Section RetryRecovery.

Import ApiClient.

Context {T : Type}.

Lemma delays_schedule_prefix (k : nat) :
  forall delay ext, delays ext = [] ->
    delays (fold_right (fun d acc => Attempt :: Sleep d :: acc) ext (backoff k delay))
    = backoff k delay.
Proof.
  induction k as [|k IH]; intros delay ext He; cbn [backoff fold_right]; [exact He|].
  change (delays (Attempt :: Sleep delay :: ?l)) with (delay :: delays l).
  now rewrite IH.
Qed.

Lemma retry_recovers_from (fn : nat -> outcome error T) (v : T) (k : nat) :
  forall retries delay tr,
    (k <= retries)%nat ->
    (forall i, (i < k)%nat -> eligible_failure fn (attempts tr + i)) ->
    fn (attempts tr + k)%nat = Ok v ->
    retryRequest fn retries delay tr
    = (Ok v, tr ++ fold_right (fun d acc => Attempt :: Sleep d :: acc) [Attempt]
                     (backoff k delay)).
Proof.
  induction k as [|k IH]; intros retries delay tr Hk Hfail Hok.
  - rewrite Nat.add_0_r in Hok. destruct retries; cbn [retryRequest]; now rewrite Hok.
  - destruct retries as [|r]; [lia|].
    destruct (Hfail 0%nat ltac:(lia)) as (e & He & Hn). rewrite Nat.add_0_r in He.
    cbn [retryRequest]. rewrite He, Hn.
    rewrite (IH r _ (tr ++ [Attempt; Sleep delay])).
    + cbn [backoff fold_right]. now rewrite <- app_assoc.
    + lia.
    + intros i Hi. rewrite attempts_app. change (attempts [Attempt; Sleep delay]) with 1%nat.
      replace (attempts tr + 1 + i)%nat with (attempts tr + S i)%nat by lia.
      apply Hfail. lia.
    + rewrite attempts_app. change (attempts [Attempt; Sleep delay]) with 1%nat.
      now replace (attempts tr + 1 + k)%nat with (attempts tr + S k)%nat by lia.
Qed.

End RetryRecovery.

(** X3.  When the first [k] calls fail with errors that may be retried and
    call [k] succeeds, with [k] within the retry budget, [retryRequest]
    returns that result after exactly [k + 1] calls, having waited the
    first [k] back-off delays. *)
Theorem retry_recovers_after_failures
    (T : Type) (fn : nat -> outcome error T) (v : T) (k retries : nat) (delay : Z) :
  (k <= retries)%nat ->
  (forall i, (i < k)%nat ->
     exists e, fn i = Throw (ApiErr e) /\ fail_fast (Err.status e) = false) ->
  fn k = Ok v ->
  let run := ApiClient.retryRequest fn retries delay [] in
  fst run = Ok v
  /\ ApiClient.attempts (snd run) = S k
  /\ ApiClient.delays (snd run) = backoff k delay.
Proof.
  intros Hk Hfail Hok run. subst run.
  rewrite (retry_recovers_from fn v k retries delay []); [| exact Hk | exact Hfail | exact Hok].
  cbn [fst snd app]. split; [reflexivity|]. split.
  - clear. revert delay. induction k as [|k IH]; intros delay; [reflexivity|].
    cbn [backoff fold_right].
    change (ApiClient.attempts (ApiClient.Attempt :: ApiClient.Sleep delay :: ?l))
      with (S (ApiClient.attempts l)).
    now rewrite IH.
  - now apply delays_schedule_prefix.
Qed.

Lemma retry_recovers_after_failures_witness :
  let fn : nat -> outcome error value :=
    fun i => if (i <? 2)%nat then Throw (ApiErr (ApiClient.intercept (Some 503) VNull))
             else Ok (VStr "ok") in
  let run := ApiClient.retryRequest fn ApiClient.MAX_RETRIES
               ApiClient.INITIAL_RETRY_DELAY [] in
  fst run = Ok (VStr "ok")
  /\ ApiClient.attempts (snd run) = 3%nat
  /\ ApiClient.delays (snd run) = [1000; 2000].
Proof.
  intros fn run.
  apply (retry_recovers_after_failures value fn (VStr "ok") 2 ApiClient.MAX_RETRIES
           ApiClient.INITIAL_RETRY_DELAY).
  - unfold ApiClient.MAX_RETRIES. lia.
  - intros i Hi. exists (ApiClient.intercept (Some 503) VNull).
    destruct i as [|[|i]]; [split; reflexivity | split; reflexivity | lia].
  - reflexivity.
Defined.


Section RetryEligibility.

Import ApiClient.

Context {T : Type}.

Lemma retry_at_least_once (fn : nat -> outcome error T) (retries : nat) :
  forall delay tr,
    exists ext, snd (retryRequest fn retries delay tr) = tr ++ ext
                /\ (1 <= attempts ext)%nat.
Proof.
  induction retries as [|r IH]; intros delay tr; cbn [retryRequest].
  - exists [Attempt].
    destruct (fn (attempts tr)) as [v|[m|m|e|x]]; cbn [snd];
      try destruct (no_retry e); split; cbn; auto.
  - destruct (fn (attempts tr)) as [v|[m|m|e|x]];
      try solve [exists [Attempt]; split; cbn; auto].
    destruct (no_retry e); [exists [Attempt]; split; cbn; auto|].
    destruct (IH (Z.min (delay * 2) MAX_RETRY_DELAY) (tr ++ [Attempt; Sleep delay]))
      as (ext & Hext & Ha).
    exists (Attempt :: Sleep delay :: ext). rewrite Hext, <- app_assoc.
    split; [reflexivity|].
    change (attempts (Attempt :: Sleep delay :: ext)) with (S (attempts ext)). lia.
Qed.

End RetryEligibility.

(** X4.  [retryRequest] calls the underlying function a second time
    exactly when some retry budget is left and the first call failed with
    an [ApiError] whose status is not 400, 401 or 403; a result, any other
    thrown value, and those three statuses end the request at the first
    call. *)
Theorem retried_exactly_when_eligible
    (T : Type) (fn : nat -> outcome error T) (retries : nat) (delay : Z) :
  (2 <= ApiClient.attempts (snd (ApiClient.retryRequest fn retries delay [])))%nat
  <-> (retries <> 0%nat
       /\ exists e, fn 0%nat = Throw (ApiErr e) /\ fail_fast (Err.status e) = false).
Proof.
  destruct retries as [|r]; cbn [ApiClient.retryRequest];
    change (ApiClient.attempts []) with 0%nat.
  - split; [|intros (H & _); congruence].
    destruct (fn 0%nat) as [v|[m|m|e|x]]; try destruct (ApiClient.no_retry e);
      cbn; lia.
  - destruct (fn 0%nat) as [v|[m|m|e|x]] eqn:E.
    1-3,5: split; [cbn; lia | intros (_ & e' & He & _); discriminate].
    destruct (ApiClient.no_retry e) eqn:Hn.
    + split; [cbn; lia|]. intros (_ & e' & He & Hf). inversion He; subst e'.
      unfold fail_fast in Hf. unfold ApiClient.no_retry in Hn. congruence.
    + split; [|].
      * intros _. split; [discriminate|]. exists e. split; [reflexivity | exact Hn].
      * intros _.
        destruct (retry_at_least_once fn r (Z.min (delay * 2) ApiClient.MAX_RETRY_DELAY)
                    ([] ++ [ApiClient.Attempt; ApiClient.Sleep delay]))
          as (ext & -> & Ha).
        rewrite attempts_app. cbn [app].
        change (ApiClient.attempts [ApiClient.Attempt; ApiClient.Sleep delay]) with 1%nat.
        lia.
Qed.

(** ** The endpoints *)

Section EndpointFacts.

Import ApiClient Endpoints.

Lemma intercept_status (st : option Z) (body : value) :
  Err.status (intercept st body) = st.
Proof. reflexivity. Qed.

Lemma get_live (cache : ApiCache.t) (key : string) (data : value) (expiry now : Z) :
  cache !! key = Some (data, expiry) -> now <= expiry ->
  ApiCache.get key now cache = (data, cache).
Proof.
  intros H Hn. unfold ApiCache.get. rewrite H.
  destruct (now >? expiry) eqn:E; [lia | reflexivity].
Qed.

Lemma get_miss_cache (cache : ApiCache.t) (key : string) (now : Z) :
  forall k, k <> key -> snd (ApiCache.get key now cache) !! k = cache !! k.
Proof.
  intros k Hk. unfold ApiCache.get.
  destruct (cache !! key) as [[d ts]|]; [|reflexivity].
  destruct (now >? ts); [|reflexivity]. cbn. now apply lookup_delete_ne.
Qed.

End EndpointFacts.

(** X5.  A POST endpoint ([predictBehavior], [checkZoneViolations],
    [batchAnalyze]) whose every attempt fails with a status other than 400,
    401 and 403, or with no response at all (time-out, network failure),
    is attempted 4 times with waits of 1000, 2000 and 4000 ms, and the
    [ApiError] of the last attempt, carrying its status, is what the caller
    gets. *)
Theorem post_retries_transient_failures
    (request : value) (http : value -> nat -> outcome (option Z * value) value) :
  (forall i, exists st body, http request i = Throw (st, body) /\ fail_fast st = false) ->
  let run := Endpoints.post request http in
  (exists st body,
      http request 3%nat = Throw (st, body)
      /\ fst run = Throw (ApiErr (ApiClient.intercept st body))
      /\ Err.status (ApiClient.intercept st body) = st)
  /\ ApiClient.attempts (snd run) = 4%nat
  /\ ApiClient.delays (snd run) = [1000; 2000; 4000].
Proof.
  intros Hall run. subst run. unfold Endpoints.post.
  rewrite retry_all_failing.
  - cbn [fst snd]. split; [|split; reflexivity].
    destruct (Hall 3%nat) as (st & body & H3 & _). exists st, body.
    split; [exact H3|]. split; [|reflexivity].
    change (ApiClient.attempts [] + ApiClient.MAX_RETRIES)%nat with 3%nat.
    unfold Endpoints.body_of, ApiClient.via_interceptor. now rewrite H3.
  - intros i. destruct (Hall i) as (st & body & Hi & Hf).
    exists (ApiClient.intercept st body). split.
    + unfold Endpoints.body_of, ApiClient.via_interceptor. now rewrite Hi.
    + exact Hf.
Qed.

Lemma post_retries_transient_failures_witness :
  let http : value -> nat -> outcome (option Z * value) value :=
    fun _ i => Throw (if Nat.even i then None else Some 429, VNull) in
  let run := Endpoints.batchAnalyze (VObj []) http in
  ApiClient.attempts (snd run) = 4%nat
  /\ ApiClient.delays (snd run) = [1000; 2000; 4000].
Proof.
  intros http run.
  destruct (post_retries_transient_failures (VObj []) http) as (_ & H).
  - intros i. exists (if Nat.even i then None else Some 429), VNull.
    split; [reflexivity|]. destruct (Nat.even i); reflexivity.
  - exact H.
Defined.

(** X6.  [healthCheck] is served from the cache for 30 seconds: after a
    call that went to the network at time [t1] and got a truthy body, a
    call at any time up to [t1 + 30000] returns the same body without a
    single network attempt and leaves the cache as it is.  A falsy body
    (an empty string, [0], [null]) is stored but never served: the next
    call goes to the network again. *)
Theorem healthCheck_is_cached_for_30_seconds
    (http http' : nat -> outcome (option Z * value) value)
    (t0 t1 t2 t3 : Z) (cache cache1 : ApiClient.ApiCache.t)
    (data : value) (tr : list ApiClient.event) :
  Js.truthy (fst (ApiClient.ApiCache.get "health-check" t0 cache)) = false ->
  Endpoints.healthCheck http t0 t1 cache = (Ok data, cache1, tr) ->
  t2 <= t1 + 30000 ->
  (Js.truthy data = true ->
     Endpoints.healthCheck http' t2 t3 cache1 = (Ok data, cache1, []))
  /\ (Js.truthy data = false ->
        (1 <= ApiClient.attempts (snd (Endpoints.healthCheck http' t2 t3 cache1)))%nat).
Proof.
  intros Hmiss Hrun Ht. unfold Endpoints.healthCheck in Hrun.
  destruct (ApiClient.ApiCache.get "health-check" t0 cache) as [cached cache0] eqn:Eg.
  cbn [fst] in Hmiss. rewrite Hmiss in Hrun.
  destruct (ApiClient.retryRequest (Endpoints.body_of http) ApiClient.MAX_RETRIES
              ApiClient.INITIAL_RETRY_DELAY []) as [[d|e] tr0] eqn:Er;
    inversion Hrun; subst; clear Hrun.
  assert (Hlive : ApiClient.ApiCache.get "health-check" t2
                    (ApiClient.ApiCache.set "health-check" data 30000 t1 cache0)
                  = (data, ApiClient.ApiCache.set "health-check" data 30000 t1 cache0)).
  { apply (get_live _ _ _ (t1 + 30000)); [apply lookup_insert_eq | exact Ht]. }
  split; intros Hd; unfold Endpoints.healthCheck; rewrite Hlive, Hd; [reflexivity|].
  destruct (retry_at_least_once (Endpoints.body_of http') ApiClient.MAX_RETRIES
              ApiClient.INITIAL_RETRY_DELAY []) as (ext & Hext & Ha).
  destruct (ApiClient.retryRequest (Endpoints.body_of http') ApiClient.MAX_RETRIES
              ApiClient.INITIAL_RETRY_DELAY []) as [[d'|e'] tr'];
    cbn [snd] in *; subst tr'; exact Ha.
Qed.

Lemma healthCheck_is_cached_for_30_seconds_witness :
  let up : nat -> outcome (option Z * value) value :=
    fun _ => Ok (VObj [("data", VObj [("status", VStr "healthy")])]) in
  let down : nat -> outcome (option Z * value) value :=
    fun _ => Throw (Some 503, VNull) in
  exists cache1 tr,
    Endpoints.healthCheck up 0 10 ApiClient.ApiCache.empty
    = (Ok (VObj [("status", VStr "healthy")]), cache1, tr)
    /\ Endpoints.healthCheck down 30010 30020 cache1
       = (Ok (VObj [("status", VStr "healthy")]), cache1, []).
Proof.
  intros up down.
  eexists _, _. split; [reflexivity|].
  apply (proj1 (healthCheck_is_cached_for_30_seconds up down 0 10 30010 30020
                  ApiClient.ApiCache.empty _ _ _ eq_refl eq_refl ltac:(lia))).
  reflexivity.
Defined.

(** X7.  The cache of [analyzeVessel] is keyed by the vessel id alone:
    once an analysis of a vessel went through with a truthy result, every
    call for the same id in the next [CACHE_TTL] ms returns that result
    without asking the service, whatever position data it is given. *)
Theorem analyzeVessel_ignores_new_data
    (vesselId : string) (data data' : value)
    (http http' : value -> nat -> outcome (option Z * value) value)
    (t0 t1 t2 t3 : Z) (cache cache1 : ApiClient.ApiCache.t)
    (result : value) (tr : list ApiClient.event) :
  Js.truthy (fst (ApiClient.ApiCache.get ("vessel-analysis-" +:+ vesselId) t0 cache)) = false ->
  Endpoints.analyzeVessel vesselId data http t0 t1 cache = (Ok result, cache1, tr) ->
  Js.truthy result = true ->
  t2 <= t1 + ApiClient.CACHE_TTL ->
  Endpoints.analyzeVessel vesselId data' http' t2 t3 cache1 = (Ok result, cache1, []).
Proof.
  intros Hmiss Hrun Hres Ht. unfold Endpoints.analyzeVessel in Hrun.
  destruct (ApiClient.ApiCache.get ("vessel-analysis-" +:+ vesselId) t0 cache)
    as [cached cache0] eqn:Eg.
  cbn [fst] in Hmiss. rewrite Hmiss in Hrun.
  match type of Hrun with context [ApiClient.retryRequest ?f ?n ?d ?l] =>
    destruct (ApiClient.retryRequest f n d l) as [[r|e] tr0] eqn:Er end;
    inversion Hrun; subst; clear Hrun.
  unfold Endpoints.analyzeVessel.
  rewrite (get_live _ _ result (t1 + ApiClient.CACHE_TTL));
    [now rewrite Hres | apply lookup_insert_eq | exact Ht].
Qed.

Lemma analyzeVessel_ignores_new_data_witness :
  let http : value -> nat -> outcome (option Z * value) value :=
    fun request _ => Ok (VObj [("data", VObj [("echo", request)])]) in
  exists result cache1 tr,
    Endpoints.analyzeVessel "V1" (VArr [VInt 1]) http 0 5 ApiClient.ApiCache.empty
    = (Ok result, cache1, tr)
    /\ Endpoints.analyzeVessel "V1" (VArr [VInt 2]) http 100 105 cache1
       = (Ok result, cache1, []).
Proof.
  intros http. eexists _, _, _. split; [reflexivity|].
  apply (analyzeVessel_ignores_new_data "V1" (VArr [VInt 1]) (VArr [VInt 2]) http http
           0 5 100 105 ApiClient.ApiCache.empty _ _ _ eq_refl eq_refl eq_refl).
  unfold ApiClient.CACHE_TTL. lia.
Defined.


Section FetchFacts.

Import ApiClient.

Lemma vessel_row_ok_in_range (row : value) : vessel_row_ok row = true -> in_range row.
Proof.
  unfold vessel_row_ok. intros H. rewrite !andb_true_iff in H.
  destruct H as ((((((_ & Hlat) & Hlon) & H1) & H2) & H3) & H4).
  apply typeof_number in Hlat as (a & Ea). apply typeof_number in Hlon as (b & Eb).
  rewrite Ea, Eb in *. cbn [Js.ToNumber] in *.
  destruct a as [| | |p]; try discriminate. destruct b as [| | |q]; try discriminate.
  exists p, q. unfold Num.ge, Num.le, Num.of_Z in H1, H2, H3, H4.
  rewrite Qle_bool_iff in H1, H2, H3, H4. repeat split; assumption.
Qed.

Lemma fetchCSV_inv (url : string) http t0 t1 (cache : ApiCache.t) data cache1 tr :
  Js.truthy (fst (ApiCache.get ("csv-" +:+ url) t0 cache)) = false ->
  fetchCSV url http t0 t1 cache = (Ok data, cache1, tr) ->
  validateVesselData data = true
  /\ cache1 = ApiCache.set ("csv-" +:+ url) data CACHE_TTL t1
                (snd (ApiCache.get ("csv-" +:+ url) t0 cache)).
Proof.
  intros Hmiss Hrun. unfold fetchCSV in Hrun.
  destruct (ApiCache.get ("csv-" +:+ url) t0 cache) as [cached cache0].
  cbn [fst snd] in *. rewrite Hmiss in Hrun.
  match type of Hrun with context [retryRequest ?f ?n ?d ?l] =>
    destruct (retryRequest f n d l) as [[response|e] tr0] end; [|discriminate].
  destruct (Js.get response "data") as [body|]; [|discriminate].
  destruct (Js.get body "csv_data") as [d|]; [|discriminate].
  destruct (validateVesselData d) eqn:Ev; cbn [negb] in Hrun; [|discriminate].
  inversion Hrun; subst. auto.
Qed.

End FetchFacts.

(** X8.  What [fetchCSV] returns from the network is an array in which
    every row has number-typed, finite coordinates with latitude in
    [-90, 90] and longitude in [-180, 180], and that array is stored under
    the URL's key until [CACHE_TTL] after the store. *)
Theorem fetchCSV_returns_validated_rows
    (url : string) (http : nat -> outcome (option Z * value) value) (t0 t1 : Z)
    (cache cache1 : ApiClient.ApiCache.t) (data : value) (tr : list ApiClient.event) :
  Js.truthy (fst (ApiClient.ApiCache.get ("csv-" +:+ url) t0 cache)) = false ->
  ApiClient.fetchCSV url http t0 t1 cache = (Ok data, cache1, tr) ->
  exists rows,
    data = VArr rows
    /\ Forall in_range rows
    /\ cache1 !! ("csv-" +:+ url) = Some (data, t1 + ApiClient.CACHE_TTL).
Proof.
  intros Hmiss Hrun.
  destruct (fetchCSV_inv _ _ _ _ _ _ _ _ Hmiss Hrun) as (Hv & ->).
  destruct data as [| | | | |rows|]; try discriminate.
  exists rows. split; [reflexivity|]. split.
  - cbn in Hv. rewrite forallb_forall in Hv. rewrite Forall_forall.
    intros row Hrow. apply vessel_row_ok_in_range, Hv. now apply list_elem_of_In.
  - apply lookup_insert_eq.
Qed.

Lemma fetchCSV_returns_validated_rows_witness :
  let rows := [VObj [("latitude", VInt 55); ("longitude", VInt 12)]] in
  let http : nat -> outcome (option Z * value) value :=
    fun _ => Ok (VObj [("data", VObj [("csv_data", VArr rows)])]) in
  exists cache1 tr,
    ApiClient.fetchCSV "u" http 0 1 ApiClient.ApiCache.empty = (Ok (VArr rows), cache1, tr)
    /\ Forall in_range rows.
Proof.
  intros rows http. eexists _, _. split; [reflexivity|].
  destruct (fetchCSV_returns_validated_rows "u" http 0 1 ApiClient.ApiCache.empty
              _ _ _ eq_refl eq_refl) as (rows' & Hrows & Hr & _).
  inversion Hrows; subst rows'. exact Hr.
Defined.

(** X9.  [fetchCSV] is memoized per URL and caches successes only: after
    a fetch that went to the network at time [t1], a fetch of the same URL
    at any time up to [t1 + CACHE_TTL] returns the same rows with no
    network attempt; a fetch that throws (network failure, malformed body,
    rejected rows) stores nothing. *)
Theorem fetchCSV_is_memoized
    (url : string) (http http' : nat -> outcome (option Z * value) value)
    (t0 t1 t2 t3 : Z) (cache : ApiClient.ApiCache.t) :
  Js.truthy (fst (ApiClient.ApiCache.get ("csv-" +:+ url) t0 cache)) = false ->
  (forall data cache1 tr,
      ApiClient.fetchCSV url http t0 t1 cache = (Ok data, cache1, tr) ->
      t2 <= t1 + ApiClient.CACHE_TTL ->
      ApiClient.fetchCSV url http' t2 t3 cache1 = (Ok data, cache1, []))
  /\ (forall e cache1 tr,
        ApiClient.fetchCSV url http t0 t1 cache = (Throw e, cache1, tr) ->
        cache1 = snd (ApiClient.ApiCache.get ("csv-" +:+ url) t0 cache)).
Proof.
  intros Hmiss. split.
  - intros data cache1 tr Hrun Ht.
    destruct (fetchCSV_inv _ _ _ _ _ _ _ _ Hmiss Hrun) as (Hv & ->).
    unfold ApiClient.fetchCSV.
    rewrite (get_live _ _ data (t1 + ApiClient.CACHE_TTL));
      [| apply lookup_insert_eq | exact Ht].
    destruct data; try discriminate. reflexivity.
  - intros e cache1 tr Hrun. unfold ApiClient.fetchCSV in Hrun.
    destruct (ApiClient.ApiCache.get ("csv-" +:+ url) t0 cache) as [cached cache0].
    cbn [fst snd] in *. rewrite Hmiss in Hrun.
    match type of Hrun with context [ApiClient.retryRequest ?f ?n ?d ?l] =>
      destruct (ApiClient.retryRequest f n d l) as [[response|e0] tr0] end;
      [|now inversion Hrun].
    destruct (Js.get response "data") as [body|]; [|now inversion Hrun].
    destruct (Js.get body "csv_data") as [d|]; [|now inversion Hrun].
    destruct (ApiClient.validateVesselData d); cbn [negb] in Hrun; now inversion Hrun.
Qed.

Lemma fetchCSV_is_memoized_witness :
  let rows := VArr [VObj [("latitude", VInt 55); ("longitude", VInt 12)]] in
  let up : nat -> outcome (option Z * value) value :=
    fun _ => Ok (VObj [("data", VObj [("csv_data", rows)])]) in
  let down : nat -> outcome (option Z * value) value :=
    fun _ => Throw (None, VNull) in
  exists cache1 tr,
    ApiClient.fetchCSV "u" up 0 1 ApiClient.ApiCache.empty = (Ok rows, cache1, tr)
    /\ ApiClient.fetchCSV "u" down 300001 300002 cache1 = (Ok rows, cache1, [])
    /\ snd (fst (ApiClient.fetchCSV "u" down 0 1 ApiClient.ApiCache.empty))
       = ApiClient.ApiCache.empty.
Proof.
  intros rows up down. eexists _, _. split; [reflexivity|]. split.
  - apply (proj1 (fetchCSV_is_memoized "u" up down 0 1 300001 300002
                    ApiClient.ApiCache.empty eq_refl) _ _ _ eq_refl).
    unfold ApiClient.CACHE_TTL. lia.
  - destruct (ApiClient.fetchCSV "u" down 0 1 ApiClient.ApiCache.empty)
      as [[r c] tr'] eqn:E.
    assert (Hr : exists e, r = Throw e) by (inversion E; eauto).
    destruct Hr as (e & ->).
    exact (proj2 (fetchCSV_is_memoized "u" down down 0 1 0 0
                    ApiClient.ApiCache.empty eq_refl) _ _ _ E).
Defined.


(** ** [checkZone.ts]: validation, fallback and success *)

Lemma bind_throw_eq {A B : Type} (m : Env.M A) (k : A -> Env.M B) o s e s1 :
  m o s = (Throw e, s1) -> Env.bind m k o s = (Throw e, s1).
Proof. intros H. unfold Env.bind. now rewrite H. Qed.

Section CheckZoneMore.

Import CheckZone.

Lemma mapi_from_Forall2 {A B : Type} (R : A -> B -> Prop)
    (f : nat -> A -> Env.M B) (items : list A) :
  (forall j x o s y s', f j x o s = (Ok y, s') -> R x y) ->
  forall i o s ys s',
    Env.mapi_from f i items o s = (Ok ys, s') -> Forall2 R items ys.
Proof.
  intros HR. induction items as [|x r IH]; intros i o s ys s' H; cbn [Env.mapi_from] in H.
  - unfold Env.ret in H. inversion H. constructor.
  - apply bind_ok_inv in H as (y & s1 & Hy & H).
    apply bind_ok_inv in H as (ys' & s2 & Hr & H).
    unfold Env.ret in H. inversion H; subst. constructor; eauto.
Qed.

Lemma generateMockViolation_shape (vessel : value) o s row s' :
  generateMockViolation vessel o s = (Ok row, s') -> mock_of vessel row.
Proof.
  unfold generateMockViolation. intros H.
  apply bind_ok_inv in H as (r1 & s1 & _ & H).
  apply bind_ok_inv in H as (r2 & s2 & _ & H).
  apply bind_ok_inv in H as (severity & s3 & Hsev & H).
  apply bind_ok_inv in H as (vid & s4 & Hvid & H).
  apply bind_ok_inv in H as (ts & s5 & _ & H).
  apply bind_ok_inv in H as (lon & s6 & Hlon & H).
  apply bind_ok_inv in H as (lat & s7 & Hlat & H).
  apply prop_get_opt in Hvid as (-> & _).
  apply prop_get_opt in Hlon as (-> & _).
  apply prop_get_opt in Hlat as (-> & _).
  unfold Env.ret in H. inversion H; subst; clear H.
  exists (if Num.gt r1 (Num.lit (5 # 10)) then "mpa" else "eez"), severity, ts.
  split; [destruct (Num.gt r1 _); auto|]. split; [|reflexivity].
  destruct (Num.gt r2 (Num.lit (7 # 10))).
  - unfold Env.ret in Hsev. inversion Hsev; subst. auto.
  - apply bind_ok_inv in Hsev as (r3 & s8 & _ & Hsev).
    unfold Env.ret in Hsev.
    destruct (Num.gt r3 (Num.lit (5 # 10))); inversion Hsev; subst; auto.
Qed.

Lemma validate_all (items : list value) :
  forall k o s,
    Forall (fun v => passes v = true) items ->
    Env.mapi_from validate k items o s = (Ok (imap (fun j => request_entry (k + j)) items), s).
Proof.
  induction items as [|x r IH]; intros k o s Hall; [reflexivity|].
  inversion Hall as [|? ? Hx Hr]; subst. cbn [Env.mapi_from imap].
  unfold passes, coordinate_ok in Hx. apply andb_true_iff in Hx as (Ht & Hc).
  unfold Env.bind at 1. unfold validate at 1. rewrite Ht, Hc. cbn [negb orb Env.ret].
  rewrite (bind_ok _ _ _ _ _ _ (IH (S k) o s Hr)). unfold Env.ret.
  rewrite Nat.add_0_r. do 3 f_equal.
  apply imap_ext. intros j y _. cbn. f_equal. lia.
Qed.

Lemma validate_first_failure (items : list value) :
  forall k i bad o s,
    items !! i = Some bad ->
    passes bad = false ->
    (forall j v, (j < i)%nat -> items !! j = Some v -> passes v = true) ->
    Env.mapi_from validate k items o s
    = (Throw (JsError ("Invalid coordinates in vessel data at index "
                       +:+ Str.of_N (N.of_nat (k + i)))), s).
Proof.
  induction items as [|x r IH]; intros k i bad o s Hi Hbad Hbefore; [discriminate|].
  cbn [Env.mapi_from]. destruct i as [|i].
  - inversion Hi; subst x. unfold Env.bind at 1. unfold validate at 1.
    unfold passes, coordinate_ok in Hbad.
    rewrite Nat.add_0_r.
    destruct (Js.truthy bad); cbn [andb] in Hbad; cbn [negb orb]; [|reflexivity].
    rewrite Hbad. reflexivity.
  - assert (Hx : passes x = true) by (apply (Hbefore 0%nat); [lia | reflexivity]).
    unfold passes, coordinate_ok in Hx. apply andb_true_iff in Hx as (Ht & Hc).
    unfold Env.bind at 1. unfold validate at 1. rewrite Ht, Hc. cbn [negb orb Env.ret].
    replace (k + S i)%nat with (S k + i)%nat by lia.
    apply bind_throw_eq, (IH (S k) i bad o s Hi Hbad).
    intros j v Hj Hv. apply (Hbefore (S j) v); [lia | exact Hv].
Qed.

End CheckZoneMore.

Section CheckZoneRuns.

Import CheckZone.

Lemma passes_not_nullish (v : value) : passes v = true -> Js.is_nullish v = false.
Proof. destruct v; try reflexivity; discriminate. Qed.

Lemma formatErrorResponse_rows (items : list value) (err : error) o s r s' :
  formatErrorResponse (VArr items) err o s = (Ok r, s') ->
  Forall2 mock_of items (results r)
  /\ error_message r = Some (Err.message_of err)
  /\ processing_time r = VStr "0.00s".
Proof.
  unfold formatErrorResponse. intros H.
  apply bind_ok_inv in H as (rows & s1 & Hrows & H).
  apply bind_ok_inv in H as (n & s2 & Hn & H).
  unfold Env.ret in H. inversion H; subst; clear H. cbn. split; [|split; reflexivity].
  eapply mapi_from_Forall2; [|exact Hrows].
  intros j x o' t y t' Hy. eapply generateMockViolation_shape, Hy.
Qed.

(** The [try] block of [checkZone], up to the call of the service. *)
Lemma checkZone_invalid (api : value -> outcome error value) o (vessels : list value) i bad :
  vessels !! i = Some bad ->
  passes bad = false ->
  (forall j v, (j < i)%nat -> vessels !! j = Some v -> passes v = true) ->
  checkZone api (VArr vessels) o Env.start
  = formatErrorResponse (VArr vessels)
      (JsError ("Invalid coordinates in vessel data at index " +:+ Str.of_N (N.of_nat i)))
      o Env.start.
Proof.
  intros Hi Hbad Hbefore. unfold checkZone, Env.catch.
  destruct vessels as [|x r]; [discriminate|].
  unfold Env.bind at 1. cbn [Env.ret].
  erewrite bind_throw_eq; [reflexivity|].
  exact (validate_first_failure (x :: r) 0 i bad o Env.start Hi Hbad Hbefore).
Qed.

Lemma checkZone_valid (api : value -> outcome error value) o (vessels : list value) :
  vessels <> [] ->
  Forall (fun v => passes v = true) vessels ->
  checkZone api (VArr vessels) o Env.start
  = match api (request_for vessels) with
    | Ok result =>
        Env.catch (formatAPIResponse result (VArr vessels))
          (fun err => formatErrorResponse (VArr vessels) err) o Env.start
    | Throw e => formatErrorResponse (VArr vessels) e o Env.start
    end.
Proof.
  intros Hne Hall. unfold checkZone, Env.catch.
  destruct vessels as [|x r]; [congruence|].
  unfold Env.bind at 1. cbn [Env.ret].
  pose proof (validate_all (x :: r) 0 o Env.start Hall) as Hv.
  unfold Env.bind at 1.
  change (Env.mapi (fun index vessel => _) (x :: r) o Env.start)
    with (Env.mapi_from validate 0 (x :: r) o Env.start).
  rewrite Hv. unfold Env.bind at 1, Env.lift.
  change (VObj [("vessels", VArr (imap (fun j => request_entry (0 + j)) (x :: r)))])
    with (request_for (x :: r)).
  destruct (api (request_for (x :: r))) as [result|e]; reflexivity.
Qed.

End CheckZoneRuns.

(** X10.  Validation in [checkZone] is strict and reports the first
    offender: when the vessel at index [i] is the first one that is falsy or
    whose coordinates fail [isValidCoordinate], the response has [success]
    false, the error [Invalid coordinates in vessel data at index i], and
    one mock violation per submitted vessel; the service's answer plays no
    part in it. *)
Theorem checkZone_reports_first_invalid_vessel
    (api api' : value -> outcome error value) (o : Env.oracle)
    (vessels : list value) (i : nat) (bad : value) :
  Forall (fun v => Js.is_nullish v = false) vessels ->
  vessels !! i = Some bad ->
  passes bad = false ->
  (forall j v, (j < i)%nat -> vessels !! j = Some v -> passes v = true) ->
  exists r,
    Env.run (CheckZone.checkZone api (VArr vessels)) o = Ok r
    /\ success r = false
    /\ error_message r
       = Some ("Invalid coordinates in vessel data at index " +:+ Str.of_N (N.of_nat i))
    /\ total_vessels r = length vessels
    /\ Forall2 mock_of vessels (results r)
    /\ Env.run (CheckZone.checkZone api' (VArr vessels)) o = Ok r.
Proof.
  intros Hnn Hi Hbad Hbefore. unfold Env.run.
  rewrite (checkZone_invalid api o vessels i bad Hi Hbad Hbefore).
  rewrite (checkZone_invalid api' o vessels i bad Hi Hbad Hbefore).
  destruct (formatErrorResponse_ok vessels
              (JsError ("Invalid coordinates in vessel data at index "
                        +:+ Str.of_N (N.of_nat i))) o Env.start Hnn)
    as (r & s' & Hr & Hs & Hn & _ & _ & He).
  exists r. rewrite Hr. cbn [fst].
  destruct (formatErrorResponse_rows _ _ _ _ _ _ Hr) as (Hrows & _).
  repeat split; auto.
Qed.

Lemma checkZone_reports_first_invalid_vessel_witness :
  let vessels := [VObj [("latitude", VInt 10); ("longitude", VInt 20)];
                  VObj [("latitude", VInt 999); ("longitude", VInt 20)];
                  VObj [("latitude", VStr "north"); ("longitude", VInt 20)]] in
  exists r,
    Env.run (CheckZone.checkZone partial_service (VArr vessels)) low_draws = Ok r
    /\ success r = false
    /\ error_message r = Some "Invalid coordinates in vessel data at index 1".
Proof.
  intros vessels.
  destruct (checkZone_reports_first_invalid_vessel partial_service failing_service
              low_draws vessels 1 (VObj [("latitude", VInt 999); ("longitude", VInt 20)]))
    as (r & Hr & Hs & He & _).
  - repeat constructor.
  - reflexivity.
  - vm_compute. reflexivity.
  - intros j v Hj Hv. destruct j as [|j]; [|lia].
    inversion Hv; subst v. vm_compute. reflexivity.
  - exists r. split; [exact Hr | split; [exact Hs | exact He]].
Defined.

(** X11.  When every vessel passes validation and the service call fails,
    or answers without a [results] list, [checkZone] still returns a
    response: [success] is false, [error] is the message of the failure
    (respectively [Invalid API response format]), every submitted vessel
    gets a mock violation, and [violations] is the number of vessels. *)
Theorem checkZone_falls_back_when_service_fails
    (api : value -> outcome error value) (o : Env.oracle) (vessels : list value) (msg : string) :
  vessels <> [] ->
  Forall (fun v => passes v = true) vessels ->
  (exists e, api (request_for vessels) = Throw e /\ Err.message_of e = msg)
  \/ (exists result, api (request_for vessels) = Ok result
                     /\ Js.truthy (Js.get_opt result "results") = false
                     /\ msg = "Invalid API response format") ->
  exists r,
    Env.run (CheckZone.checkZone api (VArr vessels)) o = Ok r
    /\ success r = false
    /\ error_message r = Some msg
    /\ Forall2 mock_of vessels (results r)
    /\ violations r = VInt (Z.of_nat (length vessels)).
Proof.
  intros Hne Hall Hfail. unfold Env.run. rewrite (checkZone_valid api o vessels Hne Hall).
  assert (Hnn : Forall (fun v => Js.is_nullish v = false) vessels).
  { eapply Forall_impl; [exact Hall|]. intros v. apply passes_not_nullish. }
  assert (Hfb : forall err, Err.message_of err = msg ->
            exists r, fst (CheckZone.formatErrorResponse (VArr vessels) err o Env.start) = Ok r
              /\ success r = false /\ error_message r = Some msg
              /\ Forall2 mock_of vessels (results r)
              /\ violations r = VInt (Z.of_nat (length vessels))).
  { intros err Hm.
    destruct (formatErrorResponse_ok vessels err o Env.start Hnn)
      as (r & s' & Hr & Hs & Hn & Hl & Hv & He).
    destruct (formatErrorResponse_rows _ _ _ _ _ _ Hr) as (Hrows & _).
    exists r. rewrite Hr. cbn [fst]. rewrite Hv, Hl, He, Hm. auto. }
  destruct Hfail as [(e & -> & Hm) | (result & -> & Hres & ->)].
  - apply Hfb, Hm.
  - unfold Env.catch, CheckZone.formatAPIResponse. rewrite Hres. cbn [negb Env.throw].
    apply Hfb. reflexivity.
Qed.

Lemma checkZone_falls_back_when_service_fails_witness :
  exists r,
    Env.run (CheckZone.checkZone failing_service (VArr four_vessels)) low_draws = Ok r
    /\ success r = false
    /\ error_message r = Some "Server error, please try again later"
    /\ violations r = VInt 4.
Proof.
  destruct (checkZone_falls_back_when_service_fails failing_service low_draws four_vessels
              "Server error, please try again later") as (r & Hr & Hs & He & _ & Hv).
  - discriminate.
  - repeat constructor.
  - left. eexists. split; reflexivity.
  - exists r. auto.
Defined.

Section CheckZoneSuccess.

Import CheckZone.

Lemma validate_ok_inv (items : list value) :
  forall k o s reqs s',
    Env.mapi_from validate k items o s = (Ok reqs, s') ->
    Forall (fun v => passes v = true) items.
Proof.
  induction items as [|x r IH]; intros k o s reqs s' H; [constructor|].
  cbn [Env.mapi_from] in H.
  apply bind_ok_inv in H as (y & s1 & Hy & H).
  apply bind_ok_inv in H as (ys & s2 & Hr & _).
  constructor; [|eapply IH, Hr].
  unfold validate in Hy. unfold passes, coordinate_ok.
  destruct (Js.truthy x); [|discriminate].
  destruct (isValidCoordinate _ _); [reflexivity | discriminate].
Qed.

Lemma isValidCoordinate_range (a b : value) :
  isValidCoordinate a b = true ->
  exists p q, Js.ToNumber a = Fin p /\ Js.ToNumber b = Fin q
    /\ (inject_Z (-90) <= p)%Q /\ (p <= inject_Z 90)%Q
    /\ (inject_Z (-180) <= q)%Q /\ (q <= inject_Z 180)%Q.
Proof.
  unfold isValidCoordinate. intros H. rewrite !andb_true_iff in H.
  destruct H as (((((_ & _) & H1) & H2) & H3) & H4).
  destruct (Js.ToNumber a) as [| | |p]; try discriminate.
  destruct (Js.ToNumber b) as [| | |q]; try discriminate.
  exists p, q. unfold Num.ge, Num.le, Num.of_Z in H1, H2, H3, H4.
  rewrite Qle_bool_iff in H1, H2, H3, H4. repeat split; assumption.
Qed.

Lemma request_entry_in_range (index : nat) (vessel : value) :
  passes vessel = true -> in_range (request_entry index vessel).
Proof.
  unfold passes, coordinate_ok. intros H. apply andb_true_iff in H as (_ & H).
  apply isValidCoordinate_range in H as (p & q & Hp & Hq & Hr).
  exists p, q. rewrite <- Hp, <- Hq.
  split; [reflexivity | split; [reflexivity | exact Hr]].
Qed.

Lemma formatAPIResponse_rows (result : value) (items : list value) o s r s' :
  formatAPIResponse result (VArr items) o s = (Ok r, s') ->
  exists entries,
    Js.get_opt result "results" = VArr entries
    /\ Forall2 formatted_from entries (results r).
Proof.
  unfold formatAPIResponse.
  destruct (negb (Js.truthy (Js.get_opt result "results"))); [discriminate|].
  intros H. apply bind_ok_inv in H as (n & s1 & _ & H).
  apply bind_ok_inv in H as (rows & s2 & Hrows & H).
  unfold Env.ret in H. inversion H; subst; clear H. cbn [results].
  unfold map_any in Hrows.
  destruct (Js.get_opt result "results") as [| | | | |entries|]; try discriminate.
  exists entries. split; [reflexivity|].
  eapply mapi_from_Forall2; [|exact Hrows].
  intros j v o' t row t' Hrow. cbn beta in Hrow.
  apply bind_ok_inv in Hrow as (vid & t1 & Hvid & Hrow).
  apply bind_ok_inv in Hrow as (ts & t2 & _ & Hrow).
  apply prop_get_opt in Hvid as (-> & _).
  unfold Env.ret in Hrow. inversion Hrow; subst; clear Hrow.
  repeat split.
Qed.

End CheckZoneSuccess.

(** X12.  [checkZone] reports success only for a non-empty batch in which
    every vessel passed validation and which the service answered with a
    [results] list: the request it sent holds, per vessel, coordinates
    converted to numbers that lie in range, and the rows of the response
    are the service's entries, in order, with [mpa], [low], [[0, 0]] and
    the empty string standing in for a missing zone type, severity,
    location and details. *)
Theorem checkZone_success_means_valid_batch
    (api : value -> outcome error value) (o : Env.oracle) (vessels : list value)
    (r : ZoneCheckResponse) :
  Env.run (CheckZone.checkZone api (VArr vessels)) o = Ok r ->
  success r = true ->
  vessels <> []
  /\ Forall (fun v => passes v = true) vessels
  /\ Forall in_range (imap request_entry vessels)
  /\ exists result entries,
       api (request_for vessels) = Ok result
       /\ Js.get_opt result "results" = VArr entries
       /\ Forall2 formatted_from entries (results r).
Proof.
  intros Hrun Hs. unfold Env.run, CheckZone.checkZone, Env.catch in Hrun.
  match type of Hrun with context [match ?m o Env.start with _ => _ end] =>
    destruct (m o Env.start) as [[r0|e] s1] eqn:E end.
  - cbn [fst] in Hrun. inversion Hrun; subst r0; clear Hrun.
    apply bind_ok_inv in E as (items & s2 & Hitems & E).
    destruct vessels as [|x rest]; [discriminate|].
    unfold Env.ret in Hitems. inversion Hitems; subst items s2; clear Hitems.
    apply bind_ok_inv in E as (reqs & s3 & Hreqs & E).
    change (Env.mapi (fun index vessel => _) (x :: rest) o Env.start)
      with (Env.mapi_from validate 0 (x :: rest) o Env.start) in Hreqs.
    pose proof (validate_ok_inv _ _ _ _ _ _ Hreqs) as Hall.
    rewrite (validate_all (x :: rest) 0 o Env.start Hall) in Hreqs.
    inversion Hreqs; subst reqs s3; clear Hreqs.
    apply bind_ok_inv in E as (result & s4 & Hapi & E).
    unfold Env.lift in Hapi. inversion Hapi as [[Hres Hst]]; clear Hapi.
    apply formatAPIResponse_rows in E as (entries & He & Hrows).
    split; [discriminate|]. split; [exact Hall|]. split.
    + rewrite Forall_forall. intros req Hreq.
      apply list_elem_of_lookup in Hreq as (j & Hj).
      rewrite list_lookup_imap in Hj.
      destruct ((x :: rest) !! j) as [v|] eqn:Ev; [|discriminate].
      cbn in Hj. inversion Hj; subst req. apply request_entry_in_range.
      rewrite Forall_forall in Hall. apply Hall. eapply list_elem_of_lookup_2, Ev.
    + exists result, entries. auto.
  - destruct (CheckZone.formatErrorResponse (VArr vessels) e o s1) as [[r1|e1] s2] eqn:F;
      cbn in Hrun; [|discriminate].
    inversion Hrun; subst r1.
    apply formatErrorResponse_inv in F as (Hf & _). congruence.
Qed.

Lemma checkZone_success_means_valid_batch_witness :
  exists r,
    Env.run (CheckZone.checkZone partial_service (VArr four_vessels)) low_draws = Ok r
    /\ Forall in_range (imap request_entry four_vessels)
    /\ exists result entries,
         partial_service (request_for four_vessels) = Ok result
         /\ Js.get_opt result "results" = VArr entries
         /\ Forall2 formatted_from entries (results r).
Proof.
  assert (Hrun : exists r,
             Env.run (CheckZone.checkZone partial_service (VArr four_vessels)) low_draws
             = Ok r /\ success r = true).
  { eexists. split; vm_compute; reflexivity. }
  destruct Hrun as (r & Hr & Hs). exists r. split; [exact Hr|].
  destruct (checkZone_success_means_valid_batch partial_service low_draws four_vessels r Hr Hs)
    as (_ & _ & Hreq & Hrest).
  split; [exact Hreq | exact Hrest].
Defined.


(** ** The fallback response and what the page makes of it *)

Section FallbackFacts.

Lemma prop_eq (v : value) (k : string) o s :
  Js.is_nullish v = false -> Env.prop v k o s = (Ok (Js.get_opt v k), s).
Proof. destruct v; try discriminate; reflexivity. Qed.

Lemma at_index_eq (v : value) (i : nat) o s :
  Js.is_nullish v = false -> Env.at_index v i o s = (Ok (item v i), s).
Proof. destruct v; try discriminate; reflexivity. Qed.

Lemma mapi_from_pure {A B : Type} (f : nat -> A -> Env.M B) (g : A -> B) (items : list A) :
  forall i o s,
    (forall j x, In x items -> f j x o s = (Ok (g x), s)) ->
    Env.mapi_from f i items o s = (Ok (map g items), s).
Proof.
  induction items as [|x r IH]; intros i o s Hf; [reflexivity|].
  cbn [Env.mapi_from map].
  rewrite (bind_ok _ _ _ _ _ _ (Hf i x (or_introl eq_refl))).
  rewrite (bind_ok _ _ _ _ _ _ (IH (S i) o s (fun j y Hy => Hf j y (or_intror Hy)))).
  reflexivity.
Qed.

Lemma mapApiResponseToLocalFormat_rows (response : ZoneCheckResponse) o s :
  Forall (fun d => Js.is_nullish d = false
                   /\ Js.is_nullish (Js.get_opt d "location") = false)
    (results response) ->
  mapApiResponseToLocalFormat response o s
  = (Ok {| local_total_vessels := total_vessels response;
           local_violations := violations response;
           local_mpa_violations := mpa_violations response;
           local_eez_violations := eez_violations response;
           local_results := map local_row (results response) |}, s).
Proof.
  intros Hall. unfold mapApiResponseToLocalFormat, Env.mapi.
  rewrite (bind_ok _ _ _ _ (map local_row (results response)) s); [reflexivity|].
  apply mapi_from_pure. intros j d Hd.
  rewrite Forall_forall in Hall. apply list_elem_of_In, Hall in Hd as (Hn & Hl).
  rewrite (bind_ok _ _ _ _ _ _ (prop_eq d "vessel_id" o s Hn)).
  rewrite (bind_ok _ _ _ _ _ _ (prop_eq d "location" o s Hn)).
  rewrite (bind_ok _ _ _ _ _ _ (at_index_eq _ 0 o s Hl)).
  rewrite (bind_ok _ _ _ _ _ _ (at_index_eq _ 1 o s Hl)).
  reflexivity.
Qed.

Lemma mock_zones (vessel row : value) :
  mock_of vessel row ->
  Js.is_nullish row = false
  /\ Js.is_nullish (Js.get_opt row "location") = false
  /\ item (Js.get_opt row "location") 0 = Js.get_opt vessel "longitude"
  /\ item (Js.get_opt row "location") 1 = Js.get_opt vessel "latitude"
  /\ (if is_high row then 1 else 0)%nat
     = ((if CheckZone.is_high_in "mpa" row then 1 else 0)
        + (if CheckZone.is_high_in "eez" row then 1 else 0))%nat.
Proof.
  intros (zone & severity & ts & Hz & Hsev & ->).
  repeat split.
  destruct Hz as [-> | ->]; destruct Hsev as [-> | [-> | ->]]; reflexivity.
Qed.

Lemma count_split (rows : list value) :
  Forall (fun row => exists vessel, mock_of vessel row) rows ->
  length (List.filter is_high rows)
  = (length (List.filter (CheckZone.is_high_in "mpa") rows)
     + length (List.filter (CheckZone.is_high_in "eez") rows))%nat.
Proof.
  induction 1 as [|row rows (vessel & Hrow) _ IH]; [reflexivity|].
  destruct (mock_zones _ _ Hrow) as (_ & _ & _ & _ & Hc).
  cbn [List.filter].
  destruct (is_high row), (CheckZone.is_high_in "mpa" row),
    (CheckZone.is_high_in "eez" row); cbn [length] in *; lia.
Qed.

Lemma Forall2_right {A B : Type} (R : A -> B -> Prop) (l : list A) (l' : list B) :
  Forall2 R l l' -> Forall (fun y => exists x, R x y) l'.
Proof. induction 1; constructor; eauto. Qed.

Lemma fallback_table_rows_exist
    (vessels : list value) (err : error) o s (r : ZoneCheckResponse) s' o' t :
  CheckZone.formatErrorResponse (VArr vessels) err o s = (Ok r, s') ->
  exists page, mapApiResponseToLocalFormat r o' t = (Ok page, t).
Proof.
  intros H. destruct (formatErrorResponse_rows _ _ _ _ _ _ H) as (Hrows & _).
  eexists. apply mapApiResponseToLocalFormat_rows.
  eapply Forall_impl; [exact (Forall2_right _ _ _ Hrows)|].
  intros row (vessel & Hm). destruct (mock_zones _ _ Hm) as (H1 & H2 & _). auto.
Qed.

End FallbackFacts.

(** X13.  In the fallback response of [checkZone.ts], [violations] counts
    every submitted vessel, while [mpa_violations] and [eez_violations]
    count only the mock rows of high severity, each under its zone: their
    sum is the number of high-severity rows and never exceeds
    [violations]. *)
Theorem fallback_tallies_count_high_severity
    (vessels : list value) (err : error) o s (r : ZoneCheckResponse) s' :
  CheckZone.formatErrorResponse (VArr vessels) err o s = (Ok r, s') ->
  exists m e : nat,
    mpa_violations r = VInt (Z.of_nat m)
    /\ eez_violations r = VInt (Z.of_nat e)
    /\ violations r = VInt (Z.of_nat (length vessels))
    /\ (m + e)%nat = length (List.filter is_high (results r))
    /\ (m + e <= length vessels)%nat.
Proof.
  intros H.
  destruct (formatErrorResponse_inv _ _ _ _ _ _ H) as (_ & _ & Hl & Hv & Hm & He).
  destruct (formatErrorResponse_rows _ _ _ _ _ _ H) as (Hrows & _).
  exists (length (List.filter (CheckZone.is_high_in "mpa") (results r))),
    (length (List.filter (CheckZone.is_high_in "eez") (results r))).
  split; [exact Hm | split; [exact He | split; [now rewrite Hv, Hl|]]].
  rewrite <- (count_split (results r) (Forall2_right _ _ _ Hrows)).
  split; [reflexivity|]. rewrite <- Hl. apply filter_length_le.
Qed.

Lemma fallback_tallies_count_high_severity_witness :
  exists r m e,
    Env.run (CheckZone.formatErrorResponse (VArr four_vessels) (JsError "down")) high_draws
    = Ok r
    /\ mpa_violations r = VInt (Z.of_nat m)
    /\ eez_violations r = VInt (Z.of_nat e)
    /\ (m + e <= 4)%nat.
Proof.
  assert (Hrun : exists r s',
             CheckZone.formatErrorResponse (VArr four_vessels) (JsError "down")
               high_draws Env.start = (Ok r, s')).
  { eexists _, _. vm_compute. reflexivity. }
  destruct Hrun as (r & s' & Hr).
  destruct (fallback_tallies_count_high_severity _ _ _ _ _ _ Hr)
    as (m & e & Hm & He & _ & _ & Hle).
  exists r, m, e. unfold Env.run. rewrite Hr. auto.
Defined.

(** X14.  The page reads a violation's [location] as [latitude,
    longitude], whereas the mock violations of [checkZone.ts] store
    [longitude, latitude]: in the table made from a fallback response,
    every row's latitude is the vessel's longitude and its longitude the
    vessel's latitude.  The rows flagged as illegal fishing are the
    high-severity ones, while the [violations] passed on counts every
    vessel. *)
Theorem fallback_table_swaps_coordinates
    (vessels : list value) (err : error) o s (r : ZoneCheckResponse) s' o' t :
  CheckZone.formatErrorResponse (VArr vessels) err o s = (Ok r, s') ->
  exists page,
    mapApiResponseToLocalFormat r o' t = (Ok page, t)
    /\ local_violations page = VInt (Z.of_nat (length vessels))
    /\ Forall2 (fun vessel row =>
                  Js.get_opt row "latitude" = Js.get_opt vessel "longitude"
                  /\ Js.get_opt row "longitude" = Js.get_opt vessel "latitude")
         vessels (local_results page)
    /\ length (List.filter SingleCoordinate.is_illegal (local_results page))
       = length (List.filter is_high (results r)).
Proof.
  intros H.
  destruct (formatErrorResponse_inv _ _ _ _ _ _ H) as (_ & _ & Hl & Hv & _).
  destruct (formatErrorResponse_rows _ _ _ _ _ _ H) as (Hrows & _).
  eexists. split.
  - apply mapApiResponseToLocalFormat_rows.
    eapply Forall_impl; [exact (Forall2_right _ _ _ Hrows)|].
    intros row (vessel & Hm). destruct (mock_zones _ _ Hm) as (H1 & H2 & _). auto.
  - cbn [local_violations local_results]. split; [now rewrite Hv, Hl|]. split.
    + clear -Hrows. induction Hrows as [|vessel row vs rows Hm _ IH]; [constructor|].
      cbn [map]. constructor; [|exact IH].
      destruct (mock_zones _ _ Hm) as (_ & _ & H3 & H4 & _).
      unfold local_row, Js.get_opt. cbn [Js.get]. split; [exact H3 | exact H4].
    + clear. induction (results r) as [|row rows IH]; [reflexivity|].
      cbn [map List.filter].
      change (SingleCoordinate.is_illegal (local_row row)) with (is_high row).
      destruct (is_high row); cbn [length]; now rewrite IH.
Qed.

Lemma fallback_table_swaps_coordinates_witness :
  exists r page,
    Env.run (CheckZone.formatErrorResponse (VArr four_vessels) (JsError "down")) low_draws
    = Ok r
    /\ Env.run (mapApiResponseToLocalFormat r) low_draws = Ok page
    /\ Forall2 (fun vessel row =>
                  Js.get_opt row "latitude" = Js.get_opt vessel "longitude"
                  /\ Js.get_opt row "longitude" = Js.get_opt vessel "latitude")
         four_vessels (local_results page).
Proof.
  assert (Hrun : exists r s',
             CheckZone.formatErrorResponse (VArr four_vessels) (JsError "down")
               low_draws Env.start = (Ok r, s')).
  { eexists _, _. vm_compute. reflexivity. }
  destruct Hrun as (r & s' & Hr).
  destruct (fallback_table_swaps_coordinates _ _ _ _ _ _ low_draws Env.start Hr)
    as (page & Hp & _ & Hrows & _).
  exists r, page. unfold Env.run. rewrite Hr, Hp. auto.
Defined.


(** ** The single-coordinate [checkZone]: what a run settles *)

Section SingleRuns.

Import SingleCoordinate.

Lemma row_of_fields vessel inMPA inEEZ isFishing in_port index :
  let row := row_of vessel inMPA inEEZ isFishing in_port index in
  Js.get_opt row "in_mpa" = inMPA
  /\ Js.get_opt row "in_eez" = VBool inEEZ
  /\ Js.get_opt row "illegal_fishing" = Js.and inMPA (VBool isFishing)
  /\ Js.get_opt row "risk_level"
     = VStr (if Js.truthy (Js.and inMPA (VBool isFishing)) then "high"
             else if inEEZ && isFishing then "medium" else "low").
Proof.
  unfold row_of, Js.get_opt. cbn [Js.get].
  repeat split;
    rewrite ?lookup_assign_ne by reflexivity; apply lookup_assign_eq.
Qed.

Lemma row_of_flags vessel inMPA inEEZ isFishing in_port index :
  let row := row_of vessel inMPA inEEZ isFishing in_port index in
  is_eez_violation row = false
  /\ is_mpa_violation row = is_illegal row
  /\ is_illegal row = Js.is_str (Js.get_opt row "risk_level") "high"
  /\ (is_illegal row = true -> Js.truthy (Js.get_opt row "in_mpa") = true).
Proof.
  intros row.
  destruct (row_of_fields vessel inMPA inEEZ isFishing in_port index)
    as (H1 & H2 & H3 & H4).
  fold row in H1, H2, H3, H4.
  unfold is_eez_violation, is_mpa_violation, is_illegal.
  rewrite H1, H2, H3, H4. unfold Js.and.
  destruct (Js.truthy inMPA) eqn:E; cbn [Js.truthy].
  - destruct inEEZ, isFishing; cbn; rewrite ?E; auto.
  - rewrite E. destruct inEEZ; cbn; rewrite ?E; repeat split; try discriminate;
      destruct isFishing; reflexivity.
Qed.

Lemma filter_none {A : Type} (p : A -> bool) (l : list A) :
  Forall (fun x => p x = false) l -> List.filter p l = [].
Proof. induction 1 as [|x l Hx _ IH]; cbn; [|rewrite Hx]; auto. Qed.

Lemma filter_same {A : Type} (p q : A -> bool) (l : list A) :
  Forall (fun x => p x = q x) l -> List.filter p l = List.filter q l.
Proof. induction 1 as [|x l Hx _ IH]; cbn; [|rewrite Hx, IH]; auto. Qed.

Lemma checkZone_rows api data o s r s' :
  checkZone api data o s = (Ok r, s') ->
  exists ok err mockResults,
    r = respond ok err data mockResults
    /\ Forall (fun row => exists vessel inMPA inEEZ isFishing in_port i,
                 row = row_of vessel inMPA inEEZ isFishing in_port i) mockResults.
Proof.
  intros H. destruct (checkZone_inv _ _ _ _ _ _ H) as (ok & err & rows & -> & Hl & Hrows).
  exists ok, err, rows. split; [reflexivity|].
  apply Forall_lookup. intros i row Hi.
  destruct (lookup_lt_is_Some_2 data i) as (vessel & Hv).
  { rewrite <- Hl. eapply lookup_lt_Some, Hi. }
  destruct (Hrows i vessel row Hv Hi) as (a & b & c & d & ->). eauto 7.
Qed.

Lemma prop_ok_inv (v : value) (k : string) o s x s' :
  Env.prop v k o s = (Ok x, s') -> Js.is_nullish v = false.
Proof. destruct v; cbn; intros H; try discriminate; reflexivity. Qed.

Lemma checkZone_try api first rest o s :
  Forall (fun v => Js.is_nullish v = false) (first :: rest) ->
  Js.truthy first = true ->
  isValidCoordinate (Js.get_opt first "latitude") (Js.get_opt first "longitude") = true ->
  forall result,
    api (single_request first) = Ok result ->
    Js.is_nullish result = false ->
    exists rows s',
      checkZone api (first :: rest) o s
      = (Ok (respond true None (first :: rest) rows), s').
Proof.
  intros Hall Ht Hv result Hapi Hres. unfold checkZone, Env.catch.
  rewrite (bind_ok _ _ _ _ first s eq_refl).
  rewrite (bind_ok _ _ _ _ tt s) by (now rewrite Ht, Hv).
  fold (single_request first). rewrite (bind_ok _ _ _ _ result s)
    by (unfold Env.lift; now rewrite Hapi).
  match goal with |- context [Env.mapi ?f (first :: rest)] =>
    destruct (mapi_from_total f (first :: rest)) with (i := 0%nat) (o := o) (s := s)
      as (rows & s1 & Hrows) end.
  { intros j x o' t Hin.
    assert (Hx : Js.is_nullish x = false).
    { rewrite Forall_forall in Hall. apply Hall. now apply list_elem_of_In. }
    destruct j.
    - rewrite (bind_ok _ _ _ _ _ _
                 (bind_ok _ _ _ _ _ _ (prop_eq result "is_violation" o' t Hres))).
      apply mock_row_ok, Hx.
    - rewrite (bind_ok _ _ _ _ None t eq_refl). apply mock_row_ok, Hx. }
  unfold Env.mapi. rewrite (bind_ok _ _ _ _ _ _ Hrows). unfold Env.ret. eauto.
Qed.

End SingleRuns.

(** X15.  The single-coordinate [checkZone] never reports an EEZ
    violation: a row is flagged [illegal_fishing] only together with
    [in_mpa], so [eez_violations] is 0 and [mpa_violations] equals
    [violations] in every response, on the success and on the failure
    path; a row's [risk_level] is [high] exactly when it is flagged. *)
Theorem single_checkZone_never_counts_eez
    (api : value -> outcome error value) (data : list value) o s
    (r : ZoneCheckResponse) s' :
  SingleCoordinate.checkZone api data o s = (Ok r, s') ->
  eez_violations r = VInt 0
  /\ mpa_violations r = violations r
  /\ Forall (fun row =>
               SingleCoordinate.is_illegal row
               = Js.is_str (Js.get_opt row "risk_level") "high"
               /\ (SingleCoordinate.is_illegal row = true ->
                   Js.truthy (Js.get_opt row "in_mpa") = true))
       (results r).
Proof.
  intros H. destruct (checkZone_rows _ _ _ _ _ _ H) as (ok & err & rows & -> & Hrows).
  cbn [eez_violations mpa_violations violations results SingleCoordinate.respond].
  unfold count. split; [|split].
  - rewrite filter_none; [reflexivity|].
    eapply Forall_impl; [exact Hrows|].
    intros row (v & a & b & c & d & i & ->). apply row_of_flags.
  - rewrite (filter_same SingleCoordinate.is_mpa_violation SingleCoordinate.is_illegal);
      [reflexivity|].
    eapply Forall_impl; [exact Hrows|].
    intros row (v & a & b & c & d & i & ->). apply row_of_flags.
  - eapply Forall_impl; [exact Hrows|].
    intros row (v & a & b & c & d & i & ->).
    destruct (row_of_flags v a b c d i) as (_ & _ & H3 & H4). split; assumption.
Qed.

Lemma single_checkZone_never_counts_eez_witness :
  exists r,
    Env.run (SingleCoordinate.checkZone failing_service four_vessels) high_draws = Ok r
    /\ eez_violations r = VInt 0
    /\ mpa_violations r = violations r.
Proof.
  assert (Hrun : exists r s',
             SingleCoordinate.checkZone failing_service four_vessels high_draws Env.start
             = (Ok r, s')).
  { eexists _, _. vm_compute. reflexivity. }
  destruct Hrun as (r & s' & Hr).
  destruct (single_checkZone_never_counts_eez _ _ _ _ _ _ Hr) as (H1 & H2 & _).
  exists r. unfold Env.run. rewrite Hr. auto.
Defined.

(** X16.  The single-coordinate [checkZone] validates the first vessel
    only.  For vessels that are objects, the response has [success] true
    exactly when the list is not empty, its first vessel is truthy with
    coordinates passing [isValidCoordinate], and the service answers the
    request made of those coordinates with a value that is not null or
    undefined; the coordinates of the other vessels are never looked at. *)
Theorem single_checkZone_validates_first_vessel_only
    (api : value -> outcome error value) (data : list value) o s
    (r : ZoneCheckResponse) s' :
  Forall (fun v => Js.is_nullish v = false) data ->
  SingleCoordinate.checkZone api data o s = (Ok r, s') ->
  success r = true
  <-> exists first rest result,
        data = first :: rest
        /\ Js.truthy first = true
        /\ SingleCoordinate.isValidCoordinate
             (Js.get_opt first "latitude") (Js.get_opt first "longitude") = true
        /\ api (single_request first) = Ok result
        /\ Js.is_nullish result = false.
Proof.
  intros Hall H. split.
  - intros Hs. revert H. unfold SingleCoordinate.checkZone, Env.catch.
    match goal with |- context [match ?m o s with _ => _ end] =>
      destruct (m o s) as [[r0|e] s1] eqn:E end.
    + intros _.
      apply bind_ok_inv in E as (first & s2 & Hf & E).
      destruct data as [|x rest]; [discriminate|].
      unfold Env.ret in Hf. inversion Hf; subst first s2; clear Hf.
      apply bind_ok_inv in E as (u & s3 & Hg & E).
      destruct (Js.truthy x) eqn:Ht; [|discriminate].
      destruct (SingleCoordinate.isValidCoordinate _ _) eqn:Hv; [|discriminate].
      apply bind_ok_inv in E as (result & s4 & Hr & E).
      unfold Env.lift in Hr. inversion Hr as [[Hapi Hs4]].
      apply bind_ok_inv in E as (rows & s5 & Hrows & _).
      destruct (mapi_from_lookup _ _ _ _ _ _ _ Hrows 0%nat x eq_refl)
        as (y & t1 & t2 & Hy & _).
      apply bind_ok_inv in Hy as (fst & t3 & Hfst & _).
      apply bind_ok_inv in Hfst as (v & t4 & Hp & _).
      exists x, rest, result. repeat split; try assumption.
      eapply prop_ok_inv, Hp.
    + intros H. apply bind_ok_inv in H as (rows & s2 & _ & H).
      unfold Env.ret in H. inversion H; subst. discriminate.
  - intros (first & rest & result & -> & Ht & Hv & Hapi & Hres).
    destruct (checkZone_try api first rest o s Hall Ht Hv result Hapi Hres)
      as (rows & s1 & Hrun).
    rewrite Hrun in H. inversion H. reflexivity.
Qed.

Lemma single_checkZone_validates_first_vessel_only_witness :
  exists r,
    Env.run (SingleCoordinate.checkZone partial_service second_out_of_range) low_draws
    = Ok r
    /\ success r = true.
Proof.
  assert (Hrun : exists r s',
             SingleCoordinate.checkZone partial_service second_out_of_range
               low_draws Env.start = (Ok r, s')).
  { eexists _, _. vm_compute. reflexivity. }
  destruct Hrun as (r & s' & Hr).
  assert (Hall : Forall (fun v => Js.is_nullish v = false) second_out_of_range)
    by (repeat constructor).
  exists r. unfold Env.run. rewrite Hr. split; [reflexivity|].
  apply (single_checkZone_validates_first_vessel_only _ _ _ _ _ _ Hall Hr).
  eexists _, _, _. split; [reflexivity|].
  split; [reflexivity|]. split; [vm_compute; reflexivity|].
  split; [reflexivity|reflexivity].
Defined.

(** X17.  Every row of the single-coordinate [checkZone] is the vessel
    itself plus six properties: any other property of the vessel
    (coordinates, speed, behaviour) is found unchanged in its row, on the
    success and on the failure path. *)
Theorem single_rows_keep_vessel_properties
    (api : value -> outcome error value) (data : list value) o s
    (r : ZoneCheckResponse) s' (i : nat) (fields : list (string * value))
    (k : string) :
  SingleCoordinate.checkZone api data o s = (Ok r, s') ->
  data !! i = Some (VObj fields) ->
  ~ In k row_keys ->
  exists row,
    results r !! i = Some row
    /\ Js.get_opt row k = Js.get_opt (VObj fields) k.
Proof.
  intros H Hi Hk.
  destruct (checkZone_inv _ _ _ _ _ _ H) as (ok & err & rows & -> & Hl & Hrows).
  destruct (lookup_lt_is_Some_2 rows i) as (row & Hrow).
  { rewrite Hl. eapply lookup_lt_Some, Hi. }
  exists row. split; [exact Hrow|].
  destruct (Hrows i _ row Hi Hrow) as (a & b & c & d & ->).
  unfold row_of, Js.get_opt. cbn [Js.get Js.spread].
  assert (Hne : forall k', In k' row_keys -> Str.eqb k' k = false).
  { intros k' Hin. unfold Str.eqb. apply String.eqb_neq. intros <-. exact (Hk Hin). }
  rewrite !lookup_assign_ne; [reflexivity| | | | | |]; apply Hne; cbn; auto 10.
Qed.

Lemma single_rows_keep_vessel_properties_witness :
  exists r row,
    Env.run (SingleCoordinate.checkZone failing_service four_vessels) high_draws = Ok r
    /\ results r !! 2%nat = Some row
    /\ Js.get_opt row "latitude" = VNum (Num.lit (54345678 # 1000000)).
Proof.
  assert (Hrun : exists r s',
             SingleCoordinate.checkZone failing_service four_vessels high_draws Env.start
             = (Ok r, s')).
  { eexists _, _. vm_compute. reflexivity. }
  destruct Hrun as (r & s' & Hr).
  destruct (single_rows_keep_vessel_properties _ _ _ _ _ _ 2%nat _ "latitude" Hr eq_refl)
    as (row & Hrow & Hk).
  { cbn. intros [H|[H|[H|[H|[H|[H|[]]]]]]]; discriminate. }
  exists r, row. unfold Env.run. rewrite Hr. auto.
Defined.

Lemma mock_row_first v vessel o s row s' :
  SingleCoordinate.mock_row (Some v) 0 vessel o s = (Ok row, s') ->
  exists inEEZ isFishing in_port, row = row_of vessel v inEEZ isFishing in_port 0.
Proof.
  intros H. unfold SingleCoordinate.mock_row in H.
  apply bind_ok_inv in H as (inMPA & s1 & Hm & H).
  unfold Env.ret in Hm. inversion Hm; subst inMPA s1; clear Hm.
  apply bind_ok_inv in H as (r & s2 & _ & H).
  apply bind_ok_inv in H as (behavior & s3 & _ & H).
  apply bind_ok_inv in H as (isFishing & s4 & _ & H).
  apply bind_ok_inv in H as (r' & s5 & _ & H).
  unfold Env.ret in H. inversion H. unfold row_of. eauto.
Qed.

(** X18.  The service's answer reaches the response of the
    single-coordinate [checkZone] in one place only: when [success] is
    true, the first row's [in_mpa] is the [is_violation] property of the
    answer to the first vessel's coordinates, and that row is flagged as
    illegal fishing only if [is_violation] is truthy. *)
Theorem single_first_row_takes_service_verdict
    (api : value -> outcome error value) (data : list value) o s
    (r : ZoneCheckResponse) s' :
  SingleCoordinate.checkZone api data o s = (Ok r, s') ->
  success r = true ->
  exists first result row,
    data !! 0%nat = Some first
    /\ api (single_request first) = Ok result
    /\ results r !! 0%nat = Some row
    /\ Js.get_opt row "in_mpa" = Js.get_opt result "is_violation"
    /\ (SingleCoordinate.is_illegal row = true ->
        Js.truthy (Js.get_opt result "is_violation") = true).
Proof.
  unfold SingleCoordinate.checkZone, Env.catch.
  match goal with |- context [match ?m o s with _ => _ end] =>
    destruct (m o s) as [[r0|e] s1] eqn:E end.
  - intros H _. inversion H; subst r0 s1; clear H.
    apply bind_ok_inv in E as (first & s2 & Hf & E).
    destruct data as [|x rest]; [discriminate|].
    unfold Env.ret in Hf. inversion Hf; subst first s2; clear Hf.
    apply bind_ok_inv in E as (u & s3 & _ & E).
    apply bind_ok_inv in E as (result & s4 & Hr & E).
    unfold Env.lift in Hr. inversion Hr as [[Hapi Hs4]].
    apply bind_ok_inv in E as (rows & s5 & Hrows & E).
    unfold Env.ret in E. inversion E; subst r s'; clear E.
    destruct (mapi_from_lookup _ _ _ _ _ _ _ Hrows 0%nat x eq_refl)
      as (y & t1 & t2 & Hy & Hy0).
    apply bind_ok_inv in Hy as (fst & t3 & Hfst & Hy).
    apply bind_ok_inv in Hfst as (v & t4 & Hp & Hfst).
    unfold Env.ret in Hfst. inversion Hfst; subst fst t3; clear Hfst.
    apply prop_get_opt in Hp as (-> & ->).
    apply mock_row_first in Hy as (b & c & d & ->).
    exists x, result. eexists. split; [reflexivity|]. split; [exact Hapi|].
    split; [exact Hy0|].
    destruct (row_of_fields x (Js.get_opt result "is_violation") b c d 0) as (H1 & _).
    destruct (row_of_flags x (Js.get_opt result "is_violation") b c d 0)
      as (_ & _ & _ & H4).
    split; [exact H1|]. intros Hi. rewrite <- H1. exact (H4 Hi).
  - intros H. apply bind_ok_inv in H as (rows & s2 & _ & H).
    unfold Env.ret in H. inversion H; subst. discriminate.
Qed.

Lemma single_first_row_takes_service_verdict_witness :
  exists r first result row,
    Env.run (SingleCoordinate.checkZone violating_service second_out_of_range) low_draws
    = Ok r
    /\ violating_service (single_request first) = Ok result
    /\ results r !! 0%nat = Some row
    /\ Js.get_opt row "in_mpa" = VBool true
    /\ SingleCoordinate.is_illegal row = true
    /\ Js.truthy (Js.get_opt result "is_violation") = true.
Proof.
  assert (Hrun : exists r s',
             SingleCoordinate.checkZone violating_service second_out_of_range
               low_draws Env.start = (Ok r, s')
             /\ success r = true
             /\ (forall row, results r !! 0%nat = Some row ->
                  SingleCoordinate.is_illegal row = true)).
  { eexists _, _. split; [vm_compute; reflexivity|]. split; [reflexivity|].
    intros row Hrow. vm_compute in Hrow. inversion Hrow. vm_compute. reflexivity. }
  destruct Hrun as (r & s' & Hr & Hs & Hflag).
  destruct (single_first_row_takes_service_verdict _ _ _ _ _ _ Hr Hs)
    as (first & result & row & _ & Hapi & Hrow & Hmpa & Hverdict).
  exists r, first, result, row. unfold Env.run. rewrite Hr.
  split; [reflexivity|]. split; [exact Hapi|]. split; [exact Hrow|].
  pose proof (Hflag row Hrow) as Hill.
  split; [|split; [exact Hill | exact (Hverdict Hill)]].
  rewrite Hmpa. unfold violating_service in Hapi. inversion Hapi. reflexivity.
Defined.


(** ** The map: which vessels are drawn *)

Section MapFacts.

Lemma lt_as_le (x : number) (c : Q) :
  Num.isNaN x = false -> Num.lt x (Fin c) = negb (Num.le (Fin c) x).
Proof. destruct x; intros H; try discriminate; reflexivity. Qed.

Lemma gt_as_le (x : number) (c : Q) :
  Num.isNaN x = false -> Num.gt x (Fin c) = negb (Num.le x (Fin c)).
Proof. destruct x; intros H; try discriminate; reflexivity. Qed.

Lemma range_test (lat lng : number) :
  (if Num.isNaN lat || Num.isNaN lng then false
   else if Num.lt lat (Num.of_Z (-90)) || Num.gt lat (Num.of_Z 90)
           || Num.lt lng (Num.of_Z (-180)) || Num.gt lng (Num.of_Z 180)
   then false else true)
  = negb (Num.isNaN lat) && negb (Num.isNaN lng)
    && Num.ge lat (Num.of_Z (-90)) && Num.le lat (Num.of_Z 90)
    && Num.ge lng (Num.of_Z (-180)) && Num.le lng (Num.of_Z 180).
Proof.
  destruct (Num.isNaN lat) eqn:Ea; [reflexivity|].
  destruct (Num.isNaN lng) eqn:Eb; [reflexivity|].
  unfold Num.of_Z. rewrite !lt_as_le, !gt_as_le by assumption.
  unfold Num.ge. cbn [negb orb andb].
  destruct (Num.le (Fin (inject_Z (-90))) lat), (Num.le lat (Fin (inject_Z 90))),
    (Num.le (Fin (inject_Z (-180))) lng), (Num.le lng (Fin (inject_Z 180)));
    reflexivity.
Qed.

Lemma drawable_passes (v : value) : MapView.drawable v = passes v.
Proof.
  unfold MapView.drawable, passes, coordinate_ok, CheckZone.isValidCoordinate.
  destruct (Js.truthy v); [|reflexivity]. cbn [negb orb andb].
  destruct (Js.get_opt v "latitude") eqn:Ea; cbn [MapView.is_undefined orb];
    try reflexivity;
    (destruct (Js.get_opt v "longitude") eqn:Eb; cbn [MapView.is_undefined orb];
     [ destruct (negb (Num.isNaN (Js.ToNumber _))); reflexivity
     | apply range_test .. ]).
Qed.

Lemma passes_on_globe (v : value) :
  passes v = true -> on_globe (MapView.marker_position v).
Proof.
  unfold passes. intros H. apply andb_true_iff in H as (_ & H).
  apply isValidCoordinate_range in H as (lat & lon & Ha & Hb & Hr).
  exists lat, lon. unfold MapView.marker_position. rewrite Ha, Hb. split; [reflexivity|].
  exact Hr.
Qed.

Lemma filter_all {A : Type} (p : A -> bool) (l : list A) :
  Forall (fun x => p x = true) l -> List.filter p l = l.
Proof. induction 1 as [|x l Hx _ IH]; cbn; [|rewrite Hx, IH]; auto. Qed.

Lemma in_range_passes (v : value) : in_range v -> passes v = true.
Proof.
  intros (lat & lon & Ha & Hb & H1 & H2 & H3 & H4).
  assert (Hv : Js.truthy v = true).
  { destruct v; try reflexivity; cbn in Ha; discriminate. }
  unfold passes, coordinate_ok, CheckZone.isValidCoordinate.
  rewrite Hv, Ha, Hb. cbn [Js.ToNumber Num.isNaN negb andb].
  unfold Num.ge, Num.le, Num.of_Z.
  apply Qle_bool_iff in H1, H2, H3, H4. now rewrite H1, H2, H3, H4.
Qed.

End MapFacts.

(** X19.  The filter of [MapView] and the validation of [checkZone.ts]
    accept the same vessels: a vessel is drawn on the map exactly when it
    is truthy and its coordinates pass [isValidCoordinate], although the
    two are written differently (a missing coordinate is tested apart on
    the map, the ranges are tested by exclusion). *)
Theorem map_filter_agrees_with_isValidCoordinate (v : value) :
  MapView.drawable v
  = Js.truthy v
    && CheckZone.isValidCoordinate (Js.get_opt v "latitude") (Js.get_opt v "longitude").
Proof. exact (drawable_passes v). Qed.

(** X20.  The map is never centred or marked off the globe: whatever
    list it is given, every vessel it keeps has a marker position with
    finite latitude in [-90, 90] and longitude in [-180, 180], and so has
    the centre of the map, which is the first kept vessel's position, or
    (20, 0) when none is kept. *)
Theorem map_centre_is_on_the_globe (vessels : value) (valid : list value) :
  MapView.validVessels vessels = Ok valid ->
  on_globe (MapView.mapCenter valid)
  /\ Forall (fun v => on_globe (MapView.marker_position v)) valid.
Proof.
  intros H.
  assert (Hall : Forall (fun v => on_globe (MapView.marker_position v)) valid).
  { destruct vessels; cbn in H; try discriminate; inversion H; subst; [constructor..|].
    apply Forall_forall. intros v Hv. apply list_elem_of_In, filter_In in Hv as (_ & Hv).
    rewrite drawable_passes in Hv. apply passes_on_globe, Hv. }
  split; [|exact Hall].
  destruct valid as [|first rest].
  - exists (inject_Z 20), (inject_Z 0). split; [reflexivity|].
    unfold Qle; cbn; lia.
  - inversion Hall; subst. assumption.
Qed.

Lemma map_centre_is_on_the_globe_witness :
  exists valid,
    MapView.validVessels (VArr second_out_of_range) = Ok valid
    /\ on_globe (MapView.mapCenter valid).
Proof.
  eexists. split; [reflexivity|].
  apply (map_centre_is_on_the_globe (VArr second_out_of_range)). reflexivity.
Defined.

(** X21.  What [processVesselData] returns is drawn in full: every
    vessel it keeps passes the filter of [MapView], so the map shows as
    many markers as vessels were ingested. *)
Theorem ingested_vessels_are_all_drawn
    (input : VesselData.payload) o (vessels : list value) :
  Env.run (VesselData.processVesselData input) o = Ok vessels ->
  MapView.validVessels (VArr vessels) = Ok vessels.
Proof.
  intros H. apply processVesselData_in_range in H.
  cbn [MapView.validVessels]. f_equal. apply filter_all.
  eapply Forall_impl; [exact H|].
  intros v Hv. rewrite drawable_passes. apply in_range_passes, Hv.
Qed.

Lemma ingested_vessels_are_all_drawn_witness :
  exists vessels,
    Env.run (VesselData.processVesselData (VesselData.CsvRows ais_rows)) low_draws
    = Ok vessels
    /\ length vessels = 1%nat
    /\ MapView.validVessels (VArr vessels) = Ok vessels.
Proof.
  assert (Hrun : exists vessels,
             Env.run (VesselData.processVesselData (VesselData.CsvRows ais_rows)) low_draws
             = Ok vessels /\ length vessels = 1%nat).
  { eexists. split; [vm_compute; reflexivity | reflexivity]. }
  destruct Hrun as (vessels & Hr & Hl).
  exists vessels. split; [exact Hr|]. split; [exact Hl|].
  exact (ingested_vessels_are_all_drawn _ _ _ Hr).
Defined.

(** X22.  After a fallback the map loses the vessels of the far east and
    west: the table row made of a mock violation carries the vessel's
    longitude as its latitude, so a vessel whose longitude is above 90 or
    below -90, valid as it is, has a row that the filter of [MapView]
    drops. *)
Theorem fallback_hides_vessels_beyond_90_degrees
    (vessels : list value) (err : error) o s (r : ZoneCheckResponse) s'
    o' t (page : LocalZoneResults) t' (i : nat) (vessel : value) :
  CheckZone.formatErrorResponse (VArr vessels) err o s = (Ok r, s') ->
  mapApiResponseToLocalFormat r o' t = (Ok page, t') ->
  vessels !! i = Some vessel ->
  Num.gt (Js.ToNumber (Js.get_opt vessel "longitude")) (Num.of_Z 90)
  || Num.lt (Js.ToNumber (Js.get_opt vessel "longitude")) (Num.of_Z (-90)) = true ->
  exists row,
    local_results page !! i = Some row
    /\ Js.get_opt row "latitude" = Js.get_opt vessel "longitude"
    /\ MapView.drawable row = false.
Proof.
  intros H Hpage Hi Hwide.
  destruct (formatErrorResponse_rows _ _ _ _ _ _ H) as (Hrows & _).
  rewrite mapApiResponseToLocalFormat_rows in Hpage.
  2:{ eapply Forall_impl; [exact (Forall2_right _ _ _ Hrows)|].
      intros row (v & Hm). destruct (mock_zones _ _ Hm) as (H1 & H2 & _). auto. }
  inversion Hpage; subst page t'; clear Hpage. cbn [local_results].
  destruct (Forall2_lookup_l _ _ _ _ _ Hrows Hi) as (mock & Hmock & Hm).
  exists (local_row mock). split; [now rewrite list_lookup_fmap, Hmock|].
  destruct (mock_zones _ _ Hm) as (_ & _ & H3 & _).
  assert (Hlat : Js.get_opt (local_row mock) "latitude" = Js.get_opt vessel "longitude").
  { unfold local_row, Js.get_opt at 1. cbn [Js.get]. exact H3. }
  split; [exact Hlat|].
  unfold MapView.drawable. rewrite Hlat.
  destruct (negb (Js.truthy (local_row mock)) || _ || _); [reflexivity|].
  destruct (Num.isNaN _ || Num.isNaN _); [reflexivity|].
  apply orb_true_iff in Hwide as [Hw | Hw]; rewrite Hw; cbn [orb]; [|reflexivity].
  now rewrite orb_true_r.
Qed.

Lemma fallback_hides_vessels_beyond_90_degrees_witness :
  exists r page row,
    Env.run (CheckZone.formatErrorResponse (VArr [pacific_vessel]) (JsError "down"))
      low_draws = Ok r
    /\ Env.run (mapApiResponseToLocalFormat r) low_draws = Ok page
    /\ local_results page !! 0%nat = Some row
    /\ MapView.drawable pacific_vessel = true
    /\ MapView.drawable row = false.
Proof.
  assert (Hrun : exists r s',
             CheckZone.formatErrorResponse (VArr [pacific_vessel]) (JsError "down")
               low_draws Env.start = (Ok r, s')).
  { eexists _, _. vm_compute. reflexivity. }
  destruct Hrun as (r & s' & Hr).
  assert (Hpage : exists page t',
             mapApiResponseToLocalFormat r low_draws Env.start = (Ok page, t')).
  { destruct (fallback_table_rows_exist _ _ _ _ _ _ low_draws Env.start Hr)
      as (page & Hp). eauto. }
  destruct Hpage as (page & t' & Hp).
  destruct (fallback_hides_vessels_beyond_90_degrees _ _ _ _ _ _ _ _ _ _ 0%nat
              pacific_vessel Hr Hp eq_refl)
    as (row & Hrow & _ & Hd); [vm_compute; reflexivity|].
  exists r, page, row. unfold Env.run. rewrite Hr, Hp.
  split; [reflexivity|]. split; [reflexivity|]. split; [exact Hrow|].
  split; [vm_compute; reflexivity | exact Hd].
Defined.


(** ** The prediction table, the switches and the export buttons *)

Section PredictionFacts.

Import Prediction.

Lemma parse_row_short (line : string) :
  (length (Str.split tab line) < 5)%nat -> parse_row line = Throw type_error.
Proof.
  unfold parse_row.
  destruct (Str.split tab line) as [|a [|b [|c [|d [|e r]]]]]; cbn [length];
    intros H; try reflexivity; lia.
Qed.

Lemma parse_row_long (line : string) :
  (5 <= length (Str.split tab line))%nat -> exists row, parse_row line = Ok row.
Proof.
  unfold parse_row.
  destruct (Str.split tab line) as [|a [|b [|c [|d [|e r]]]]]; cbn [length];
    intros H; try lia; eauto.
Qed.

Lemma parse_row_throws (line : string) (e : error) :
  parse_row line = Throw e -> e = type_error.
Proof.
  unfold parse_row.
  destruct (Str.split tab line) as [|a [|b [|c [|d [|f r]]]]];
    intros H; inversion H; reflexivity.
Qed.

Lemma parse_rows_short (lines : list string) :
  Exists (fun l => (length (Str.split tab l) < 5)%nat) lines ->
  parse_rows lines = Throw type_error.
Proof.
  induction 1 as [l r Hl | l r _ IH]; cbn [parse_rows].
  - now rewrite (parse_row_short l Hl).
  - destruct (parse_row l) as [row|e] eqn:E.
    + now rewrite IH.
    + now rewrite (parse_row_throws _ _ E).
Qed.

Lemma parse_rows_long (lines : list string) :
  Forall (fun l => (5 <= length (Str.split tab l))%nat) lines ->
  exists rows, parse_rows lines = Ok rows /\ length rows = length lines.
Proof.
  induction 1 as [|l r Hl _ (rows & IH & Hlen)]; cbn [parse_rows]; [eauto|].
  destruct (parse_row_long l Hl) as (row & ->). rewrite IH.
  exists (row :: rows). cbn [length]. auto.
Qed.

End PredictionFacts.

(** X23.  [formatPredictionResults] starts at the first line that begins
    with Vessel, whatever that line is, and needs five tab-separated
    fields on every line that is not blank from there on: one such line
    with fewer fields makes it throw a TypeError, and otherwise it returns
    one record per line that is not blank, the starting line included.
    The text [PredictionPage] ships with has the line Vessels Analyzed:4
    before its table, so the page throws on its own data. *)
Theorem formatPredictionResults_needs_five_fields (rawData : string) (rest : list string) :
  Prediction.from_first (Prediction.startsWith "Vessel") (Str.split Str.LF rawData)
  = Some rest ->
  (Exists short_line rest ->
   Prediction.formatPredictionResults rawData = Throw Prediction.type_error)
  /\ (~ Exists short_line rest ->
      exists rows,
        Prediction.formatPredictionResults rawData = Ok rows
        /\ length rows = length (List.filter Prediction.nonblank rest)).
Proof.
  intros Hrest. unfold Prediction.formatPredictionResults. rewrite Hrest. split.
  - intros Hshort. apply parse_rows_short.
    apply Exists_exists in Hshort as (l & Hin & Hnb & Hlen).
    apply Exists_exists. exists l. split; [|exact Hlen].
    apply list_elem_of_In. apply filter_In. split; [now apply list_elem_of_In | exact Hnb].
  - intros Hnone. apply parse_rows_long.
    apply Forall_forall. intros l Hin.
    apply list_elem_of_In, filter_In in Hin as (Hin & Hnb).
    destruct (Nat.le_gt_cases 5 (length (Str.split Prediction.tab l))) as [H|H]; [exact H|].
    exfalso. apply Hnone. apply Exists_exists. exists l.
    split; [now apply list_elem_of_In | split; assumption].
Qed.

Lemma formatPredictionResults_needs_five_fields_witness :
  Prediction.formatPredictionResults Prediction.predictionData
  = Throw Prediction.type_error.
Proof.
  apply (formatPredictionResults_needs_five_fields Prediction.predictionData
           (skipn 4 (Str.split Str.LF Prediction.predictionData))).
  - vm_compute. reflexivity.
  - apply Exists_cons_hd. split; [vm_compute; reflexivity | vm_compute; lia].
Defined.

(** X24.  [handleLayerToggle] changes the layer it is given and no
    other: every other layer keeps its value, and toggling the same layer
    twice leaves it at the truth value it had (a layer that was not set
    ends up false, not unset). *)
Theorem layer_toggle_is_local (layer other : string) (prev : list (string * value)) :
  Js.lookup layer (Buttons.handleLayerToggle layer prev)
  = VBool (negb (Js.truthy (Js.lookup layer prev)))
  /\ Js.lookup layer (Buttons.handleLayerToggle layer (Buttons.handleLayerToggle layer prev))
     = VBool (Js.truthy (Js.lookup layer prev))
  /\ (other <> layer ->
      Js.lookup other (Buttons.handleLayerToggle layer prev) = Js.lookup other prev).
Proof.
  unfold Buttons.handleLayerToggle. split; [apply lookup_assign_eq|]. split.
  - rewrite !lookup_assign_eq. cbn [Js.truthy]. now rewrite negb_involutive.
  - intros Hne. apply lookup_assign_ne. unfold Str.eqb. apply String.eqb_neq.
    intros ->. now apply Hne.
Qed.

Lemma layer_toggle_is_local_witness :
  Js.lookup "eez"
    (Buttons.handleLayerToggle "mpa" [("mpa", VBool true); ("eez", VBool true)])
  = VBool true.
Proof.
  apply (proj2 (proj2 (layer_toggle_is_local "mpa" "eez"
                         [("mpa", VBool true); ("eez", VBool true)]))).
  discriminate.
Defined.

Section DownloadFacts.

Import Download.

Lemma row_cells_throws headers obj e :
  row_cells headers obj = Throw e -> e = type_error /\ Js.is_nullish obj = true.
Proof.
  induction headers as [|h hs IH]; cbn [row_cells]; [discriminate|].
  destruct (Js.get_key obj h) eqn:Ek.
  - destruct (row_cells hs obj); [discriminate|].
    intros H. inversion H; subst. now apply IH.
  - intros H. inversion H. split; [reflexivity|].
    destruct obj; try discriminate; reflexivity.
Qed.

Lemma row_cells_null h hs obj :
  Js.is_nullish obj = true -> row_cells (h :: hs) obj = Throw type_error.
Proof. destruct obj; try discriminate; reflexivity. Qed.

Lemma rows_of_throws headers data e :
  rows_of headers data = Throw e ->
  e = type_error /\ Exists (fun r => Js.is_nullish r = true) data.
Proof.
  induction data as [|obj rest IH]; cbn [rows_of]; [discriminate|].
  destruct (row_cells headers obj) eqn:Ec.
  - destruct (rows_of headers rest); [discriminate|].
    intros H. inversion H; subst. destruct (IH eq_refl) as (-> & Hex).
    split; [reflexivity | now apply Exists_cons_tl].
  - intros H. inversion H; subst. apply row_cells_throws in Ec as (-> & Hn).
    split; [reflexivity | now apply Exists_cons_hd].
Qed.

Lemma rows_of_null h hs data :
  Exists (fun r => Js.is_nullish r = true) data ->
  rows_of (h :: hs) data = Throw type_error.
Proof.
  induction 1 as [obj rest Hn | obj rest _ IH]; cbn [rows_of].
  - now rewrite (row_cells_null h hs obj Hn).
  - destruct (row_cells (h :: hs) obj) as [cs|e] eqn:Ec.
    + now rewrite IH.
    + apply row_cells_throws in Ec as (-> & _). reflexivity.
Qed.

Lemma rows_of_no_header data :
  exists rows, rows_of [] data = Ok rows.
Proof.
  induction data as [|obj rest (rows & IH)]; cbn [rows_of row_cells]; [eauto|].
  rewrite IH. eauto.
Qed.

Lemma convertToCSV_throws data e :
  convertToCSV data = Throw e -> e = type_error.
Proof.
  unfold convertToCSV.
  destruct data as [| | | | |[|first rest]|]; try discriminate.
  destruct (Js.keys first) as [headers|]; [|intros H; now inversion H].
  destruct (rows_of headers (first :: rest)) eqn:Er; [discriminate|].
  apply rows_of_throws in Er as (-> & _). intros H. now inversion H.
Qed.

End DownloadFacts.

(** X25.  [convertToCSV] fails on null records and on nothing else: for
    a non-empty array it throws (a TypeError) exactly when the first
    record is null or undefined, or when the first record has at least one
    property and some later record is null or undefined. *)
Theorem convertToCSV_fails_exactly_on_null_records (first : value) (rest : list value) :
  Download.convertToCSV (VArr (first :: rest)) = Throw Download.type_error
  <-> Js.is_nullish first = true
      \/ (Js.keys first <> Some []
          /\ Exists (fun r => Js.is_nullish r = true) rest).
Proof.
  unfold Download.convertToCSV. split.
  - destruct (Js.keys first) as [headers|] eqn:Ek.
    + destruct (Download.rows_of headers (first :: rest)) as [rows|e] eqn:Er;
        [discriminate|].
      intros _. pose proof (rows_of_throws _ _ _ Er) as (_ & Hex).
      inversion Hex as [? ? Hn | ? ? Hn]; subst; [now left|].
      destruct (Js.is_nullish first) eqn:En; [now left|].
      right. split; [|exact Hn]. intros Hk. inversion Hk; subst headers.
      destruct (rows_of_no_header (first :: rest)) as (rows & Hrows). congruence.
    + intros _. left. destruct first; try discriminate; reflexivity.
  - intros [Hn | (Hk & Hex)].
    + destruct first; try discriminate; reflexivity.
    + destruct (Js.keys first) as [[|h hs]|] eqn:Ek; [congruence| |reflexivity].
      rewrite rows_of_null; [reflexivity | now apply Exists_cons_tl].
Qed.

(** X26.  [downloadData] hides the cause of a failure and fails on CSV
    only: whatever it throws is the error Failed to download data, it
    throws only when a CSV file is asked for and [convertToCSV] throws on
    the data, and a JSON download always yields a file. *)
Theorem downloadData_fails_on_csv_only
    (data : value) (options : Download.DownloadOptions) o s :
  (forall e s',
     Download.downloadData data options o s = (Throw e, s') ->
     e = JsError "Failed to download data"
     /\ Download.type options = Some Download.csv
     /\ Download.convertToCSV data = Throw Download.type_error)
  /\ (Download.type options <> Some Download.csv ->
      exists d s', Download.downloadData data options o s = (Ok d, s')).
Proof.
  unfold Download.downloadData, Env.catch, Env.bind.
  destruct (Download.type options) as [[|]|] eqn:Et.
  - split; [|intros _].
    + destruct (Download.includeTimestamp options) as [[|]|]; cbn; discriminate.
    + destruct (Download.includeTimestamp options) as [[|]|]; cbn; eauto.
  - split; [|congruence].
    intros e s'.
    destruct (Download.includeTimestamp options) as [[|]|]; cbn;
      unfold Env.lift;
      (destruct (Download.convertToCSV data) as [text|e0] eqn:Ec; cbn;
       [discriminate|]);
      intros H; inversion H; subst;
      apply convertToCSV_throws in Ec as ->; auto.
  - split; [|intros _].
    + destruct (Download.includeTimestamp options) as [[|]|]; cbn; discriminate.
    + destruct (Download.includeTimestamp options) as [[|]|]; cbn; eauto.
Qed.

Lemma downloadData_fails_on_csv_only_witness :
  exists d,
    Env.run (Download.downloadData (VArr [VNull])
               (Download.mkOptions "report" (Some Download.json) None)) low_draws
    = Ok d.
Proof.
  destruct (proj2 (downloadData_fails_on_csv_only (VArr [VNull])
                     (Download.mkOptions "report" (Some Download.json) None)
                     low_draws Env.start))
    as (d & s' & Hd); [discriminate|].
  exists d. unfold Env.run. now rewrite Hd.
Defined.

(** X27.  The export entry of [ExportButton] never throws: a failed
    download leaves no file and is not reported to [onExport], which is
    called only after a file was produced; the download button of the map
    has no such guard and hands the failure on. *)
Theorem export_button_swallows_failures
    (data : value) (filename : string) (has_onExport : bool)
    (format : Download.file_type) o s :
  exists c s',
    Buttons.handleExport data filename has_onExport format o s = (Ok c, s')
    /\ (Buttons.notified c = true ->
        has_onExport = true /\ exists d, Buttons.file c = Some d)
    /\ (Buttons.file c = None
        <-> exists e s1,
              Buttons.handleDownload data filename format o s = (Throw e, s1)).
Proof.
  unfold Buttons.handleExport, Buttons.handleDownload, Env.catch, Env.bind.
  destruct (Download.downloadData data _ o s) as [[d|e] s1] eqn:E; cbn.
  - eexists _, _. split; [reflexivity|]. cbn. split; [eauto|].
    split; [discriminate | intros (e & s2 & H); discriminate].
  - eexists _, _. split; [reflexivity|]. cbn. split; [discriminate|].
    split; eauto.
Qed.


(** ** Ingestion and export: accounting *)

Section IngestFacts.

Lemma lefts_rights_length {A B : Type} (l : list (A + B)) :
  (length (ZoneViolation.lefts l) + length (ZoneViolation.rights l))%nat = length l.
Proof.
  induction l as [|[a|b] l IH]; cbn [ZoneViolation.lefts ZoneViolation.rights length]; lia.
Qed.

Lemma lefts_imap_elem {A B C : Type} (l : list A) :
  forall (f : nat -> A -> B + C) b,
    In b (ZoneViolation.lefts (imap f l)) ->
    exists i x, (i < length l)%nat /\ f i x = inl b.
Proof.
  induction l as [|x l IH]; intros f b Hb; [destruct Hb|].
  cbn [imap ZoneViolation.lefts] in Hb.
  destruct (f 0%nat x) as [b0|c] eqn:E.
  - destruct Hb as [<- | Hb]; [exists 0%nat, x; cbn; split; [lia | exact E]|].
    destruct (IH (f ∘ S) b Hb) as (i & y & Hi & Hy).
    exists (S i), y. cbn. split; [lia | exact Hy].
  - destruct (IH (f ∘ S) b Hb) as (i & y & Hi & Hy).
    exists (S i), y. cbn. split; [lia | exact Hy].
Qed.

Lemma parse_line_toast headers latIndex lonIndex lineNum line t :
  ZoneViolation.parse_line headers latIndex lonIndex lineNum line = inl t ->
  toast_line t = (lineNum + 2)%nat.
Proof.
  unfold ZoneViolation.parse_line.
  destruct (negb _); [intros H; inversion H; reflexivity|].
  destruct (_ || _); [intros H; inversion H; reflexivity|].
  destruct (_ || _); [intros H; inversion H; reflexivity | discriminate].
Qed.

Lemma at_index_inv (v : value) (i : nat) o s x s' :
  Env.at_index v i o s = (Ok x, s') -> x = item v i /\ s' = s.
Proof.
  unfold Env.at_index, item. destruct (Js.index v i); cbn; intros H; inversion H; auto.
Qed.

End IngestFacts.

(** X28.  The manual input accounts for every line below the header:
    each one is either kept as a vessel or answered by one error toast
    that names its line, counted from 1 with the header as line 1; when
    the check goes on, at least one vessel was kept. *)
Theorem manual_lines_are_kept_or_reported
    (csvData : string) (data : list value) (toasts : list ZoneViolation.toast) :
  ZoneViolation.parse_csv csvData = ZoneViolation.Vessels data toasts ->
  data <> []
  /\ (length data + length toasts)%nat = length (data_lines csvData)
  /\ Forall (fun t => (2 <= toast_line t <= length (data_lines csvData) + 1)%nat) toasts.
Proof.
  unfold ZoneViolation.parse_csv, data_lines.
  destruct (Str.eqb (Str.trim csvData) ""); [discriminate|].
  destruct (length (Str.split Str.LF (Str.trim csvData)) <? 2)%nat; [discriminate|].
  set (names := map _ _).
  destruct (Str.indexOf "latitude" names) as [latIndex|]; [|discriminate].
  destruct (Str.indexOf "longitude" names) as [lonIndex|]; [|discriminate].
  set (rows := imap _ _).
  destruct (ZoneViolation.rights rows) eqn:Er; [discriminate|].
  intros H. inversion H; subst data toasts; clear H.
  split; [discriminate|]. split.
  - rewrite <- Er, Nat.add_comm, lefts_rights_length. unfold rows. apply length_imap.
  - apply Forall_forall. intros t Ht. apply list_elem_of_In in Ht.
    unfold rows in Ht. apply lefts_imap_elem in Ht as (i & line & Hi & Hline).
    apply parse_line_toast in Hline. lia.
Qed.

Lemma manual_lines_are_kept_or_reported_witness :
  exists data toasts,
    ZoneViolation.parse_csv
      (String.concat (String Str.LF "")
         ["latitude,longitude,behavior,vessel_id";
          "55.123456,12.123456,fishing,VESSEL001";
          "999,12.234567,transit,VESSEL002"])
    = ZoneViolation.Vessels data toasts
    /\ (length data + length toasts)%nat = 2%nat.
Proof.
  assert (H : exists data toasts,
             ZoneViolation.parse_csv
               (String.concat (String Str.LF "")
                  ["latitude,longitude,behavior,vessel_id";
                   "55.123456,12.123456,fishing,VESSEL001";
                   "999,12.234567,transit,VESSEL002"])
             = ZoneViolation.Vessels data toasts).
  { eexists _, _. vm_compute. reflexivity. }
  destruct H as (data & toasts & H).
  exists data, toasts. split; [exact H|].
  destruct (manual_lines_are_kept_or_reported _ _ _ H) as (_ & Hl & _).
  rewrite Hl. vm_compute. reflexivity.
Defined.

(** X29.  For a GeoJSON feature, [processVesselData] takes the position
    from the geometry, longitude first: the vessel's latitude is
    [coordinates[1]] and its longitude [coordinates[0]], whatever [LAT]
    and [LON] the properties hold; the properties' [LATITUDE] and
    [LONGITUDE] are used only where the coordinate is null or missing. *)
Theorem geojson_position_comes_from_geometry
    (feature : value) (fields : list (string * value)) o s (row : value) s1
    (v : value) s2 :
  Js.get_opt feature "properties" = VObj fields ->
  VesselData.feature_row feature o s = (Ok row, s1) ->
  VesselData.transform row o s1 = (Ok (Some v), s2) ->
  Js.get_opt v "latitude"
  = VNum (Js.ToNumber
            (Js.nullish (item (Js.get_opt (Js.get_opt feature "geometry") "coordinates") 1)
               (Js.lookup "LATITUDE" fields)))
  /\ Js.get_opt v "longitude"
     = VNum (Js.ToNumber
               (Js.nullish (item (Js.get_opt (Js.get_opt feature "geometry") "coordinates") 0)
                  (Js.lookup "LONGITUDE" fields))).
Proof.
  intros Hprops Hrow Ht. unfold VesselData.feature_row in Hrow.
  apply bind_ok_inv in Hrow as (properties & t1 & Hp & Hrow).
  apply prop_get_opt in Hp as (-> & ->).
  apply bind_ok_inv in Hrow as (geometry & t2 & Hg & Hrow).
  apply prop_get_opt in Hg as (-> & ->).
  apply bind_ok_inv in Hrow as (coordinates & t3 & Hc & Hrow).
  apply prop_get_opt in Hc as (-> & ->).
  apply bind_ok_inv in Hrow as (lat & t4 & Hlat & Hrow).
  apply at_index_inv in Hlat as (-> & ->).
  apply bind_ok_inv in Hrow as (coordinates' & t5 & Hc & Hrow).
  apply prop_get_opt in Hc as (-> & ->).
  apply bind_ok_inv in Hrow as (lon & t6 & Hlon & Hrow).
  apply at_index_inv in Hlon as (-> & ->).
  unfold Env.ret in Hrow. inversion Hrow; subst row s1; clear Hrow.
  rewrite Hprops in Ht. cbn [Js.spread] in Ht.
  set (coords := Js.get_opt (Js.get_opt feature "geometry") "coordinates") in *.
  unfold VesselData.transform in Ht.
  apply bind_ok_inv in Ht as (lat' & t7 & Hlat & Ht).
  apply prop_get_opt in Hlat as (-> & ->).
  set (row := VObj _) in Ht.
  assert (E1 : Js.get_opt row "LAT" = item coords 1).
  { unfold row, Js.get_opt. cbn [Js.get].
    rewrite lookup_assign_ne by reflexivity. apply lookup_assign_eq. }
  assert (E2 : Js.get_opt row "LON" = item coords 0).
  { unfold row, Js.get_opt. cbn [Js.get]. apply lookup_assign_eq. }
  assert (E3 : Js.get_opt row "LATITUDE" = Js.lookup "LATITUDE" fields).
  { unfold row, Js.get_opt. cbn [Js.get]. now rewrite !lookup_assign_ne by reflexivity. }
  assert (E4 : Js.get_opt row "LONGITUDE" = Js.lookup "LONGITUDE" fields).
  { unfold row, Js.get_opt. cbn [Js.get]. now rewrite !lookup_assign_ne by reflexivity. }
  rewrite E1, E2, E3, E4 in Ht. clearbody row.
  match type of Ht with (if ?c then _ else _) _ _ = _ => destruct c end;
    [discriminate|].
  unfold Env.ret in Ht. inversion Ht; subst v. split; reflexivity.
Qed.

Lemma geojson_position_comes_from_geometry_witness :
  exists row v,
    Env.run (VesselData.feature_row geo_feature) low_draws = Ok row
    /\ Env.run (VesselData.transform row) low_draws = Ok (Some v)
    /\ Js.get_opt v "latitude" = VNum (Num.of_Z 55)
    /\ Js.get_opt v "longitude" = VNum (Num.of_Z 12).
Proof.
  assert (H : exists row v,
             VesselData.feature_row geo_feature low_draws Env.start = (Ok row, Env.start)
             /\ VesselData.transform row low_draws Env.start = (Ok (Some v), Env.start)).
  { eexists _, _. split.
    - vm_compute. reflexivity.
    - vm_compute. reflexivity. }
  destruct H as (row & v & Hrow & Hv).
  destruct (geojson_position_comes_from_geometry geo_feature _ _ _ _ _ _ _
              eq_refl Hrow Hv) as (Hlat & Hlon).
  exists row, v. unfold Env.run. rewrite Hrow, Hv.
  split; [reflexivity|]. split; [reflexivity|].
  split; [rewrite Hlat | rewrite Hlon]; vm_compute; reflexivity.
Defined.

(** X30.  The text [convertToCSV] writes has one line per record below
    one header line, and the header line splits at its commas into the
    property names of the first record, in their order; this holds when
    those names are plain (no comma, no line break, no leading white
    space) and no cell holds a line break.  Every cell is written between
    double quotes, so a line ends with a double quote. *)
Theorem exported_csv_has_one_line_per_record
    (first : value) (rest : list value) (headers : list string) :
  Js.keys first = Some headers ->
  headers <> [] ->
  forallb clean_key headers = true ->
  forallb (single_line headers) (first :: rest) = true ->
  exists text header_line lines,
    Download.convertToCSV (VArr (first :: rest)) = Ok text
    /\ Str.split Str.LF text = header_line :: lines
    /\ Str.split Str.comma header_line = headers
    /\ length lines = length (first :: rest)
    /\ Forall (ends_with Str.quote) lines.
Proof.
  intros Hkeys Hne Hclean Hdata.
  assert (Hdata_ne : first :: rest <> []) by discriminate.
  exists (Str.join (String Str.LF "")
            (Str.join (String Str.comma "") headers
               :: map (line_of headers) (first :: rest))),
    (Str.join (String Str.comma "") headers), (map (line_of headers) (first :: rest)).
  split; [|split; [|split; [|split]]].
  - unfold Download.convertToCSV. rewrite Hkeys.
    rewrite rows_of_ok; [reflexivity|].
    exact (data_not_nullish headers (first :: rest) Hdata).
  - apply text_lines; assumption.
  - apply header_fields; assumption.
  - apply length_map.
  - apply lines_end_quoted; assumption.
Qed.

Lemma exported_csv_has_one_line_per_record_witness :
  exists text header_line lines,
    Download.convertToCSV (VArr sample_results) = Ok text
    /\ Str.split Str.LF text = header_line :: lines
    /\ length lines = 1%nat.
Proof.
  destruct (exported_csv_has_one_line_per_record
              (hd VNull sample_results) (tl sample_results)
              ["vessel_id"; "timestamp"; "latitude"; "longitude"; "behavior";
               "in_mpa"; "in_eez"; "in_port"; "risk_level"; "illegal_fishing"])
    as (text & header_line & lines & H1 & H2 & _ & H4 & _).
  - reflexivity.
  - discriminate.
  - vm_compute. reflexivity.
  - vm_compute. reflexivity.
  - exists text, header_line, lines. auto.
Defined.


(** ** [checkZone.ts]: a [null] among the vessels *)

Section NullVessel.

Import CheckZone.

Lemma nullish_fails (v : value) : Js.is_nullish v = true -> passes v = false.
Proof. destruct v; try discriminate; reflexivity. Qed.

Lemma first_failure (vessels : list value) :
  Exists (fun v => passes v = false) vessels ->
  exists i bad,
    vessels !! i = Some bad
    /\ passes bad = false
    /\ (forall j v, (j < i)%nat -> vessels !! j = Some v -> passes v = true).
Proof.
  induction vessels as [|x r IH]; intros H; [inversion H|].
  destruct (passes x) eqn:Ex.
  - inversion H as [? ? Hx | ? ? Hr]; subst; [congruence|].
    destruct (IH Hr) as (i & bad & Hi & Hbad & Hbefore).
    exists (S i), bad. split; [exact Hi | split; [exact Hbad|]].
    intros [|j] v Hj Hv; [cbn in Hv; congruence|].
    apply (Hbefore j v); [lia | exact Hv].
  - exists 0%nat, x. split; [reflexivity | split; [exact Ex|]]. intros j v Hj. lia.
Qed.

Lemma generateMockViolation_null (v : value) o s :
  Js.is_nullish v = true ->
  exists s',
    generateMockViolation v o s
    = (Throw (TypeError ("Cannot read properties of " +:+ Js.ToString v)), s').
Proof.
  intros Hv. unfold generateMockViolation.
  unfold Env.bind at 1. cbn [Env.Math_random].
  unfold Env.bind at 1. cbn [Env.Math_random].
  assert (Hp : forall t,
             Env.prop v "vessel_id" o t
             = (Throw (TypeError ("Cannot read properties of " +:+ Js.ToString v)), t)).
  { intros t. destruct v; try discriminate; reflexivity. }
  destruct (Num.gt _ (Num.lit (7 # 10))).
  - unfold Env.bind at 1. cbn [Env.ret].
    eexists. apply bind_throw_eq, Hp.
  - unfold Env.bind at 1. unfold Env.bind at 1. cbn [Env.Math_random Env.ret].
    eexists. apply bind_throw_eq, Hp.
Qed.

Lemma mapi_from_throws {A B : Type} (f : nat -> A -> Env.M B) (e : error)
    (pre : list A) (x : A) (post : list A) :
  (forall j y o s, In y pre -> exists z s', f j y o s = (Ok z, s')) ->
  (forall j o s, exists s', f j x o s = (Throw e, s')) ->
  forall i o s, exists s', Env.mapi_from f i (pre ++ x :: post) o s = (Throw e, s').
Proof.
  intros Hpre Hx. induction pre as [|y pre IH]; intros i o s; cbn [app Env.mapi_from].
  - destruct (Hx i o s) as (s' & H). exists s'. apply bind_throw_eq, H.
  - destruct (Hpre i y o s (or_introl eq_refl)) as (z & s1 & Hz).
    rewrite (bind_ok _ _ _ _ _ _ Hz).
    destruct (IH (fun j y' o' t Hin => Hpre j y' o' t (or_intror Hin)) (S i) o s1)
      as (s' & H).
    exists s'. apply bind_throw_eq, H.
Qed.

Lemma formatErrorResponse_null (pre : list value) (v : value) (post : list value)
    (err : error) o s :
  Forall (fun x => Js.is_nullish x = false) pre ->
  Js.is_nullish v = true ->
  exists s',
    formatErrorResponse (VArr (pre ++ v :: post)) err o s
    = (Throw (TypeError ("Cannot read properties of " +:+ Js.ToString v)), s').
Proof.
  intros Hpre Hv. unfold formatErrorResponse, map_any, Env.mapi.
  destruct (mapi_from_throws (fun _ x => generateMockViolation x)
              (TypeError ("Cannot read properties of " +:+ Js.ToString v))
              pre v post) with (i := 0%nat) (o := o) (s := s) as (s' & H).
  - intros j y o' t Hin. apply generateMockViolation_ok.
    rewrite Forall_forall in Hpre. apply Hpre. now apply list_elem_of_In.
  - intros j o' t. now apply generateMockViolation_null.
  - exists s'. apply bind_throw_eq, H.
Qed.

End NullVessel.

(** C10 fails on a [null] among the vessels.  [checkZone] tests every
    element with [!vessel] and answers a failed test from its [catch]
    block, but the fallback built there reads [vessel.vessel_id] of every
    element: as soon as the array holds a [null] or [undefined] element,
    whatever the other elements and whatever the service does, the
    TypeError of that read leaves the [catch] block and [checkZone]
    rejects instead of resolving with a response. *)
Theorem checkZone_rejects_on_null_vessel
    (api : value -> outcome error value) (o : Env.oracle)
    (pre : list value) (v : value) (post : list value) :
  Forall (fun x => Js.is_nullish x = false) pre ->
  Js.is_nullish v = true ->
  Env.run (CheckZone.checkZone api (VArr (pre ++ v :: post))) o
  = Throw (TypeError ("Cannot read properties of " +:+ Js.ToString v)).
Proof.
  intros Hpre Hv.
  destruct (first_failure (pre ++ v :: post)) as (i & bad & Hi & Hbad & Hbefore).
  { apply Exists_app. right. apply Exists_cons_hd. now apply nullish_fails. }
  unfold Env.run. rewrite (checkZone_invalid api o _ i bad Hi Hbad Hbefore).
  destruct (formatErrorResponse_null pre v post
              (JsError ("Invalid coordinates in vessel data at index "
                        +:+ Str.of_N (N.of_nat i))) o Env.start Hpre Hv) as (s' & H).
  now rewrite H.
Qed.

Lemma checkZone_rejects_on_null_vessel_witness :
  Env.run (CheckZone.checkZone partial_service (VArr [VNull])) low_draws
  = Throw (TypeError "Cannot read properties of null").
Proof.
  apply (checkZone_rejects_on_null_vessel partial_service low_draws [] VNull []).
  - constructor.
  - reflexivity.
Defined.

